(** * searchbot: a shallow embedding of the search engine and its presenter

    The repository holds two revisions of each of its two packages:

    - [src/pkg/display/display.go], lines 1-68: package [display] without
      sign handling in [FormatSize] and with a [truncateString] that counts
      bytes; lines 69-177: package [search], whose [SearchFiles] checks the
      pattern and the root before it walks; module [DisplayGo];
    - [src/unnamed/part_000]: package [display] with sign handling and with a
      [truncateString] that counts runes; module [Part000];
    - [src/unnamed/part_001]: package [search], whose [SearchFiles] walks
      without any check; module [Part001].

    The command [src/cmd/searchbot/main.go] is module [Cmd], and the tests of
    [SearchFiles] in [src/unnamed/part_002] are module [SearchTest].

    What reads the same in both revisions is in the modules [Search] and
    [Display]; module [Both] selects a revision.  The Go runtime and standard
    library ([strings], [unicode/utf8], [fmt], [path/filepath], [sort], [os],
    [time]) are modelled in module [Go], and module [Spec] holds the notions
    of the specification that the theorems are stated with. *)

From Stdlib Require Import ZArith List Bool Lia.
From Stdlib Require Import Strings.String Strings.Ascii.
From Stdlib Require Import Numbers.DecimalString.
From Stdlib Require Import Floats.SpecFloat.
From Stdlib Require Import Sorting.Permutation Sorting.Sorted.
Import ListNotations.

Local Open Scope string_scope.
Local Open Scope Z_scope.

(** ** The Go runtime and standard library *)

Module Go.

(** *** Integers: [int64] and [int] as [Z] with explicit wrap-around *)

Definition MinInt64 : Z := - 2 ^ 63.
Definition MaxInt64 : Z := 2 ^ 63 - 1.

Definition int64_range (z : Z) : Prop := MinInt64 <= z <= MaxInt64.

Definition wrap64 (z : Z) : Z := (z + 2 ^ 63) mod 2 ^ 64 - 2 ^ 63.

(** *** Strings: a Go [string] is a sequence of bytes *)

Definition byte_val (c : ascii) : Z := Z.of_N (N_of_ascii c).
Definition byte_of (z : Z) : ascii := ascii_of_N (Z.to_N z).

Fixpoint bytes (s : string) : list Z :=
  match s with
  | EmptyString => []
  | String c r => byte_val c :: bytes r
  end.

Fixpoint of_bytes (l : list Z) : string :=
  match l with
  | [] => EmptyString
  | b :: r => String (byte_of b) (of_bytes r)
  end.

(** [len(s)]: the number of bytes. *)
Definition len (s : string) : Z := Z.of_nat (String.length s).

(** [strings.HasPrefix]. *)
Fixpoint HasPrefix (s prefix : string) {struct prefix} : bool :=
  match prefix, s with
  | EmptyString, _ => true
  | String _ _, EmptyString => false
  | String p prefix', String c s' => Ascii.eqb c p && HasPrefix s' prefix'
  end.

(** [strings.Contains]: [substr] occurs in [s] as a contiguous run of bytes. *)
Fixpoint Contains (s substr : string) : bool :=
  HasPrefix s substr ||
  match s with
  | EmptyString => false
  | String _ s' => Contains s' substr
  end.

(** [strings.Repeat].  A negative count panics in Go; the program calls it
    with 100, and with a [maxLen] from 1 to 3. *)
Fixpoint repeat_nat (s : string) (n : nat) : string :=
  match n with
  | O => EmptyString
  | S k => s ++ repeat_nat s k
  end.

Definition Repeat (s : string) (count : Z) : string := repeat_nat s (Z.to_nat count).

(** Slicing [s[:n]] of a string, by bytes; [None] is the runtime panic
    "slice bounds out of range". *)
Fixpoint take_bytes (n : nat) (s : string) : string :=
  match n, s with
  | O, _ => EmptyString
  | S _, EmptyString => EmptyString
  | S k, String c r => String c (take_bytes k r)
  end.

Definition slice_to (s : string) (n : Z) : option string :=
  if (n <? 0) || (len s <? n) then None else Some (take_bytes (Z.to_nat n) s).

(** Indexing [s[i]]; [None] is the runtime panic "index out of range". *)
Definition index_byte (s : string) (i : Z) : option ascii :=
  if i <? 0 then None else String.get (Z.to_nat i) s.

(** *** [unicode/utf8] *)

(** A rune is a code point, an [int32]. *)
Definition rune := Z.

Definition RuneError : rune := 65533.

(** A continuation byte within [lo, hi]. *)
Definition in_range (lo hi b : Z) : bool := (lo <=? b) && (b <=? hi).

(** [utf8.DecodeRuneInString] on the bytes of the string: the rune and its
    width.  An ill-formed sequence (a stray continuation byte, an overlong
    form, a surrogate, a value above U+10FFFF, a truncated sequence) decodes
    to [(RuneError, 1)]; the empty input to [(RuneError, 0)].  The ranges of
    the second byte are those of the library's [acceptRanges] table. *)
Definition DecodeRune (b : list Z) : rune * nat :=
  match b with
  | [] => (RuneError, 0%nat)
  | s0 :: r =>
      if s0 <? 128 then (s0, 1%nat)
      else if (s0 <? 194) || (244 <? s0) then (RuneError, 1%nat)
      else if s0 <? 224 then
        match r with
        | s1 :: _ =>
            if in_range 128 191 s1
            then (Z.lor (Z.shiftl (Z.land s0 31) 6) (Z.land s1 63), 2%nat)
            else (RuneError, 1%nat)
        | _ => (RuneError, 1%nat)
        end
      else if s0 <? 240 then
        let lo := if s0 =? 224 then 160 else 128 in
        let hi := if s0 =? 237 then 159 else 191 in
        match r with
        | s1 :: s2 :: _ =>
            if in_range lo hi s1 && in_range 128 191 s2
            then (Z.lor (Z.lor (Z.shiftl (Z.land s0 15) 12)
                               (Z.shiftl (Z.land s1 63) 6))
                        (Z.land s2 63), 3%nat)
            else (RuneError, 1%nat)
        | _ => (RuneError, 1%nat)
        end
      else
        let lo := if s0 =? 240 then 144 else 128 in
        let hi := if s0 =? 244 then 143 else 191 in
        match r with
        | s1 :: s2 :: s3 :: _ =>
            if in_range lo hi s1 && in_range 128 191 s2 && in_range 128 191 s3
            then (Z.lor (Z.lor (Z.lor (Z.shiftl (Z.land s0 7) 18)
                                      (Z.shiftl (Z.land s1 63) 12))
                               (Z.shiftl (Z.land s2 63) 6))
                        (Z.land s3 63), 4%nat)
            else (RuneError, 1%nat)
        | _ => (RuneError, 1%nat)
        end
  end.

(** The runes of a byte sequence, as [for _, c := range s] and [[]rune(s)]
    produce them: decode at the current byte, then skip the remaining bytes of
    the sequence just decoded. *)
Fixpoint runes_from (skip : nat) (b : list Z) : list rune :=
  match b with
  | [] => []
  | _ :: r =>
      match skip with
      | S k => runes_from k r
      | O => let (c, w) := DecodeRune b in c :: runes_from (w - 1) r
      end
  end.

(** [[]rune(s)]. *)
Definition runes (s : string) : list rune := runes_from 0 (bytes s).

(** [utf8.RuneCountInString]. *)
Definition RuneCountInString (s : string) : Z := Z.of_nat (List.length (runes s)).

(** [utf8.AppendRune]: the UTF-8 encoding of a rune; a surrogate or a value out
    of range is encoded as [RuneError]. *)
Definition EncodeRune (r : rune) : list Z :=
  if (0 <=? r) && (r <=? 127) then [r]
  else if (0 <=? r) && (r <=? 2047) then
    [Z.lor 192 (Z.shiftr r 6); Z.lor 128 (Z.land r 63)]
  else if (r <? 0) || (1114111 <? r) || in_range 55296 57343 r then
    [239; 191; 189]
  else if r <=? 65535 then
    [Z.lor 224 (Z.shiftr r 12); Z.lor 128 (Z.land (Z.shiftr r 6) 63);
     Z.lor 128 (Z.land r 63)]
  else
    [Z.lor 240 (Z.shiftr r 18); Z.lor 128 (Z.land (Z.shiftr r 12) 63);
     Z.lor 128 (Z.land (Z.shiftr r 6) 63); Z.lor 128 (Z.land r 63)].

(** [string(rs)] for a slice of runes. *)
Definition string_of_runes (rs : list rune) : string :=
  of_bytes (flat_map EncodeRune rs).

(** *** [strings.ToLower] and [strings.Map] *)

(** [strings.Map]: every rune of [s] is mapped and encoded again; a negative
    result drops the rune. *)
Definition Map (mapping : rune -> rune) (s : string) : string :=
  string_of_runes (filter (fun r => 0 <=? r) (map mapping (runes s))).

(** [unicode.ToLower]: ASCII is handled directly, the other code points go
    through the Unicode case tables.  The tables are data of the Go
    distribution; they are the parameter [lower_table]. *)
Definition unicode_ToLower (lower_table : rune -> rune) (r : rune) : rune :=
  if r <=? 127 then (if in_range 65 90 r then r + 32 else r)
  else lower_table r.

Definition isASCII (s : string) : bool := forallb (fun b => b <? 128) (bytes s).

(** [strings.ToLower]: a string of ASCII bytes is lowered byte by byte,
    any other string rune by rune through [unicode.ToLower]. *)
Definition ToLower (lower_table : rune -> rune) (s : string) : string :=
  if isASCII s
  then of_bytes (map (fun b => if in_range 65 90 b then b + 32 else b) (bytes s))
  else Map (unicode_ToLower lower_table) s.

(** *** [fmt]: the verbs used by the program *)

(** [%d]. *)
Definition fmt_d (z : Z) : string := NilZero.string_of_int (Z.to_int z).

(** The newline character. *)
Definition nl : string := String (ascii_of_nat 10) EmptyString.

(** [%-Ns]: left-justified, padded with spaces up to [width] runes. *)
Definition fmt_pad (width : Z) (s : string) : string :=
  s ++ repeat_nat " " (Z.to_nat (width - RuneCountInString s)).

(** Digits of a non-negative number, padded with zeros on the left up to
    [width] digits, as [time.Format] prints the fields of a date. *)
Definition zero_pad (width : nat) (z : Z) : string :=
  let d := fmt_d z in
  repeat_nat "0" (width - String.length d) ++ d.

(** *** [float64]: IEEE 754 binary64 through the specification floats *)

Definition prec : Z := 53.
Definition emax : Z := 1024.

Definition float64 := spec_float.

(** The conversion [float64(x)] of an integer rounds to nearest, ties to even. *)
Definition float64_of_int (z : Z) : float64 := binary_normalize prec emax z 0 false.

Definition float64_div (x y : float64) : float64 := SFdiv prec emax x y.

(** Rounding of the rational [num / 2^k] to an integer, ties to even. *)
Definition round_half_even (num : Z) (k : Z) : Z :=
  let den := 2 ^ k in
  let q := num / den in
  let r := num mod den in
  match 2 * r ?= den with
  | Lt => q
  | Gt => q + 1
  | Eq => if Z.even q then q else q + 1
  end.

(** [%.1f]: the decimal expansion with one digit after the point, correctly
    rounded (ties to even) from the exact binary value. *)
Definition fmt_f1 (x : float64) : string :=
  match x with
  | S754_nan => "NaN"
  | S754_infinity s => if s then "-Inf" else "+Inf"
  | S754_zero s => if s then "-0.0" else "0.0"
  | S754_finite s m e =>
      let t := if 0 <=? e then 10 * Z.pos m * 2 ^ e
               else round_half_even (10 * Z.pos m) (- e) in
      (if s then "-" else "") ++ fmt_d (t / 10) ++ "." ++ fmt_d (t mod 10)
  end.

(** *** [time]: a wall-clock time and [Format("2006-01-02 15:04:05")] *)

Record Time := mkTime {
  year : Z; month : Z; day : Z; hour : Z; minute : Z; second : Z
}.

Definition Format (t : Time) : string :=
  zero_pad 4 (year t) ++ "-" ++ zero_pad 2 (month t) ++ "-" ++ zero_pad 2 (day t)
  ++ " " ++ zero_pad 2 (hour t) ++ ":" ++ zero_pad 2 (minute t) ++ ":"
  ++ zero_pad 2 (second t).

(** *** Errors *)

(** The error values the program meets: [errors.New(msg)], the sentinel
    [filepath.SkipDir], and the [*fs.PathError] of a failed system call. *)
Inductive error :=
| ErrorString (msg : string)
| SkipDir
| PathError (op path : string).

Definition is_SkipDir (e : error) : bool :=
  match e with SkipDir => true | _ => false end.

(** *** [path/filepath] on a Unix system *)

Definition slash : ascii := "/"%char.

(** [strings.Split(s, "/")]. *)
Fixpoint split_slash (s : string) : list string :=
  match s with
  | EmptyString => [EmptyString]
  | String c r =>
      if Ascii.eqb c slash then EmptyString :: split_slash r
      else match split_slash r with
           | h :: t => String c h :: t
           | [] => [String c EmptyString]
           end
  end.

(** [strings.Join(elems, "/")]. *)
Fixpoint join_slash (elems : list string) : string :=
  match elems with
  | [] => EmptyString
  | [e] => e
  | e :: r => e ++ String slash (join_slash r)
  end.

Definition is_empty (s : string) : bool :=
  match s with EmptyString => true | _ => false end.

(** [filepath.Base]: the last element of the path, trailing slashes removed;
    ["."] for the empty path and ["/"] for a path of slashes only. *)
Definition Base (path : string) : string :=
  if is_empty path then "."
  else match filter (fun e => negb (is_empty e)) (split_slash path) with
       | [] => "/"
       | e :: r => last r e
       end.

(** One element of the path in [filepath.Clean], on the elements kept so far
    (the last one first): an empty element and ["."] are dropped, [".."]
    removes the element before it, is dropped at the root of a rooted path and
    is kept at the start of a relative one. *)
Definition clean_step (rooted : bool) (kept : list string) (e : string) : list string :=
  if is_empty e || String.eqb e "." then kept
  else if String.eqb e ".." then
    match kept with
    | [] => if rooted then [] else [e]
    | top :: below => if String.eqb top ".." then e :: kept else below
    end
  else e :: kept.

(** The elements that [filepath.Clean] keeps, the last one first. *)
Definition clean_elems (path : string) : list string :=
  fold_left (clean_step (HasPrefix path "/")) (split_slash path) [].

(** [filepath.Clean]. *)
Definition Clean (path : string) : string :=
  if is_empty path then "."
  else
    let kept := rev (clean_elems path) in
    if HasPrefix path "/" then String slash (join_slash kept)
    else if is_empty (join_slash kept) then "." else join_slash kept.

(** [filepath.Join(dir, name)]: empty elements are ignored, the rest is joined
    with a slash and cleaned. *)
Definition Join (dir name : string) : string :=
  if is_empty dir then (if is_empty name then "" else Clean name)
  else Clean (dir ++ String slash name).

Fixpoint no_slash (s : string) : bool :=
  match s with
  | EmptyString => true
  | String c r => negb (Ascii.eqb c slash) && no_slash r
  end.

(** The name of a directory entry as the system lists it: not empty, without
    a slash, and neither ["."] nor [".."]. *)
Definition valid_name (n : string) : bool :=
  negb (is_empty n) && negb (String.eqb n ".") && negb (String.eqb n "..")
  && no_slash n.

(** The shape of the elements kept by [filepath.Clean] (the last one first):
    names, above the [".."] that start a relative path. *)
Fixpoint clean_stack (rooted : bool) (kept : list string) : Prop :=
  match kept with
  | [] => True
  | e :: below =>
      (valid_name e = true /\ clean_stack rooted below)
      \/ (e = ".." /\ rooted = false /\ Forall (eq "..") below)
  end.

(** *** [os]: the file system below the root of a search *)

(** [os.FileInfo], as far as the program reads it. *)
Record FileInfo := mkInfo {
  Name : string;
  Size : Z;
  ModTime : Time;
  IsDir : bool
}.

(** What [os.Lstat] and the directory listings show at a path:
    - [File]: an entry that is not a directory (a regular file, a symbolic
      link, a device), with its name, size and modification time;
    - [Dir]: a directory; [readable] tells whether its listing can be read,
      [entries] is its content in the order in which [filepath.Walk] goes
      through it, which is the ascending order of the names: [readDirNames]
      sorts the names that it reads ([Shape.sorted_names] below);
    - [Broken]: a name for which [os.Lstat] fails (permission denied, entry
      removed in the meantime). *)
#[warnings="-register-all"]
Inductive node :=
| File (name : string) (size : Z) (mtime : Time)
| Dir (name : string) (mtime : Time) (readable : bool) (entries : list node)
| Broken (name : string).

Definition node_name (n : node) : string :=
  match n with
  | File name _ _ => name
  | Dir name _ _ _ => name
  | Broken name => name
  end.

Definition node_is_dir (n : node) : bool :=
  match n with Dir _ _ _ _ => true | _ => false end.

(** The [FileInfo] that [os.Lstat] returns for an entry ([None]: it fails). *)
Definition Lstat (n : node) : option FileInfo :=
  match n with
  | File name size mtime => Some (mkInfo name size mtime false)
  | Dir name mtime _ _ => Some (mkInfo name 0 mtime true)
  | Broken _ => None
  end.

(** The world of one search: whether [os.Stat(root)] succeeds, and what is
    found at [root]. *)
Record FS := mkFS {
  stat_ok : bool;
  tree : node
}.

(** The calls into the system that a search makes, in order. *)
Inductive syscall :=
| CallStat (path : string)
| CallWalk (root : string).

(** *** [filepath.Walk] *)

Section Walk.
Context {St : Type}.

(** [filepath.WalkFunc], with the state of the closure passed explicitly.
    [Walk] passes no [FileInfo] only together with an error. *)
Definition WalkFunc := string -> option FileInfo -> option error -> St -> St * option error.

Variable walkFn : WalkFunc.

(** The loop of [walk] over the names of a directory: an entry whose [Lstat]
    fails is reported to [walkFn]; [SkipDir] from a directory skips it, any
    other error (and [SkipDir] from a file) ends the loop.  The names are
    those that [readDirNames] returns, sorted: the loop takes the list as it
    is, and a statement about the order of the visits is a statement about
    the lists that are in the order of the names. *)
Definition walk_entries (walk : string -> node -> St -> St * option error)
    (path : string) : list node -> St -> St * option error :=
  fix loop (es : list node) (st : St) : St * option error :=
    match es with
    | [] => (st, None)
    | c :: es' =>
        let filename := Join path (node_name c) in
        match Lstat c with
        | None =>
            let (st', err) := walkFn filename None (Some (PathError "lstat" filename)) st in
            match err with
            | Some e => if is_SkipDir e then loop es' st' else (st', Some e)
            | None => loop es' st'
            end
        | Some _ =>
            let (st', err) := walk filename c st in
            match err with
            | Some e =>
                if negb (node_is_dir c) || negb (is_SkipDir e) then (st', Some e)
                else loop es' st'
            | None => loop es' st'
            end
        end
    end.

(** [walk]: a file is reported to [walkFn]; a directory is reported with the
    error of reading it, if any, and is entered when both that error and the
    result of [walkFn] are nil. *)
Fixpoint walk (path : string) (n : node) (st : St) : St * option error :=
  match n with
  | File _ _ _ => walkFn path (Lstat n) None st
  | Broken _ => walkFn path None (Some (PathError "lstat" path)) st
  | Dir _ _ readable entries =>
      if readable then
        let (st1, err1) := walkFn path (Lstat n) None st in
        match err1 with
        | Some e => (st1, Some e)
        | None => walk_entries walk path entries st1
        end
      else walkFn path (Lstat n) (Some (PathError "open" path)) st
  end.

(** [filepath.Walk]: [SkipDir] from the root is not an error. *)
Definition Walk (root : string) (n : node) (st : St) : St * option error :=
  let (st', err) := walk root n st in
  match err with
  | Some e => if is_SkipDir e then (st', None) else (st', Some e)
  | None => (st', None)
  end.

End Walk.

(** *** [sort.Slice] *)

(** What the comparison function of a sort has to be: a strict weak order. *)
Record strict_weak_order {A : Type} (less : A -> A -> bool) : Prop := {
  swo_irrefl : forall a, less a a = false;
  swo_trans : forall a b c, less a b = true -> less b c = true -> less a c = true;
  swo_negtrans : forall a b c, less a b = false -> less b c = false -> less a c = false
}.

(** [sort.Slice] rearranges the slice in place; it is not stable and the
    library fixes no order among equal elements.  The model is any function
    that returns a permutation of its input, sorted when the comparison is a
    strict weak order. *)
Class Sorter := {
  sort_Slice : forall {A : Type}, (A -> A -> bool) -> list A -> list A;
  sort_Slice_perm : forall (A : Type) (less : A -> A -> bool) (l : list A),
      Permutation l (sort_Slice less l);
  sort_Slice_sorted : forall (A : Type) (less : A -> A -> bool) (l : list A),
      strict_weak_order less ->
      StronglySorted (fun a b => less b a = false) (sort_Slice less l)
}.

(** The insertion sort that the library runs on short slices: an element moves
    to the left as long as it is less than its left neighbour. *)
Fixpoint insert_right {A : Type} (less : A -> A -> bool) (x : A) (rev_sorted : list A) : list A :=
  match rev_sorted with
  | [] => [x]
  | y :: r => if less x y then y :: insert_right less x r else x :: rev_sorted
  end.

Definition insertion_sort {A : Type} (less : A -> A -> bool) (l : list A) : list A :=
  rev (fold_left (fun acc x => insert_right less x acc) l []).

End Go.

(** ** Package search: the declarations common to both revisions

    [SearchOptions], [SearchResult] and [shouldSkipDirectory] read the same in
    [src/pkg/display/display.go] (lines 78-107) and in [src/unnamed/part_001]
    (lines 9-33). *)

Module Search.
Import Go.

Record SearchOptions := mkOptions {
  Recursive : bool;
  ExactMatch : bool;
  CaseSensitive : bool
}.

Record SearchResult := mkResult {
  Path : string;
  Name : string;
  Size : Z;
  ModTime : string
}.

(** [shouldSkipDirectory]. *)
Definition shouldSkipDirectory (path : string) : bool :=
  let base := Base path in
  HasPrefix base "."
  || String.eqb base "node_modules"
  || String.eqb base "Library"
  || String.eqb base "System"
  || String.eqb base "Applications".

(** What [SearchFiles] returns, with the calls into the system it made. *)
Record Outcome := mkOutcome {
  results : list SearchResult;
  err : option error;
  calls : list syscall
}.

End Search.

(** ** Package display: what is common to both revisions

    The loop of [FormatSize] and the whole of [PrintResults] read the same in
    [src/unnamed/part_000] and in [src/pkg/display/display.go]; the two
    revisions differ in [FormatSize] and [truncateString], which
    [PrintResults] calls. *)

Module Display.
Import Go.
Import Search.

Definition unit : Z := 1024.

(** The loop [for n := size / unit; n >= unit; n /= unit { div *= unit; exp++ }].
    [n] shrinks by a factor of 1024 at each turn; the fuel bounds the number of
    turns and [None] is returned only when it runs out. *)
Fixpoint unit_loop (fuel : nat) (n div exp : Z) : option (Z * Z) :=
  if n >=? unit then
    match fuel with
    | O => None
    | S f => unit_loop f (Z.quot n unit) (wrap64 (div * unit)) (exp + 1)
    end
  else Some (div, exp).

(** Fuel that suffices for every [n]: one more than its number of bits. *)
Definition loop_fuel (n : Z) : nat := S (Z.to_nat (Z.log2 n)).

(** The part of [FormatSize] from [div, exp := int64(unit), 0] on.  [None] is
    a runtime panic, the index into ["KMGTPE"] out of range; the loop itself
    never runs out of its fuel (lemma [unit_loop_fuel]). *)
Definition format_units (sign : string) (size : Z) : option string :=
  match unit_loop (loop_fuel (Z.quot size unit)) (Z.quot size unit) unit 0 with
  | None => None
  | Some (div, exp) =>
      match index_byte "KMGTPE" exp with
      | None => None
      | Some c =>
          Some (sign ++ fmt_f1 (float64_div (float64_of_int size) (float64_of_int div))
                     ++ " " ++ String c "B")
      end
  end.

(** The output: text written by [fmt], and text written through
    [github.com/fatih/color], which wraps it in the escape codes of the colour
    when the terminal takes them. *)
Inductive Color := Yellow | Green | Blue.

Inductive chunk :=
| Plain (text : string)
| Colored (c : Color) (text : string).

Definition chunk_text (c : chunk) : string :=
  match c with Plain t => t | Colored _ t => t end.

(** The text of an output, colours apart. *)
Definition output_text (out : list chunk) : string :=
  String.concat "" (map chunk_text out).

(** [fmt.Println(strings.Repeat("-", 100))]. *)
Definition rule_line : chunk := Plain (Repeat "-" 100 ++ nl).

(** [func(i, j int) bool { return results[i].Name < results[j].Name }]. *)
Definition less_Name (a b : SearchResult) : bool := String.ltb (Name a) (Name b).

Section PrintResults.
Context {sorter : Sorter}.
Variable FormatSize : Z -> option string.
Variable truncateString : string -> Z -> option string.

(** One row: [fmt.Printf("%-50s %-20s %-15s %s\n", ...)]. *)
Definition print_row (result : SearchResult) : option chunk :=
  match truncateString (Name result) 47 with
  | None => None
  | Some name =>
      match FormatSize (Size result) with
      | None => None
      | Some size =>
          Some (Plain (fmt_pad 50 name ++ " " ++ fmt_pad 20 size ++ " "
                       ++ fmt_pad 15 (ModTime result) ++ " " ++ Path result ++ nl))
      end
  end.

Fixpoint print_rows (results : list SearchResult) : option (list chunk) :=
  match results with
  | [] => Some []
  | r :: rest =>
      match print_row r with
      | None => None
      | Some c =>
          match print_rows rest with
          | None => None
          | Some cs => Some (c :: cs)
          end
      end
  end.

(** [totalSize += result.Size] over the slice, in [int64]. *)
Definition total_size (results : list SearchResult) : Z :=
  fold_left (fun totalSize result => wrap64 (totalSize + Size result)) results 0.

(** [PrintResults]: the content of the caller's slice when it returns, and the
    output.  [None] is a runtime panic in [FormatSize] or [truncateString]. *)
Definition PrintResults (results : list SearchResult)
  : option (list SearchResult * list chunk) :=
  if Z.of_nat (List.length results) =? 0 then
    Some (results, [Colored Yellow (nl ++ "No files found" ++ nl)])
  else
    let results := sort_Slice less_Name results in
    let totalSize := total_size results in
    match FormatSize totalSize with
    | None => None
    | Some total =>
        match print_rows results with
        | None => None
        | Some rows =>
            Some (results,
                  [Colored Green (nl ++ "Found " ++ fmt_d (Z.of_nat (List.length results))
                                  ++ " files (Total size: " ++ total ++ ")" ++ nl);
                   rule_line;
                   Colored Blue (fmt_pad 50 "NAME" ++ " " ++ fmt_pad 20 "SIZE" ++ " "
                                 ++ fmt_pad 15 "MODIFIED" ++ " " ++ "PATH" ++ nl);
                   rule_line]
                  ++ rows ++ [rule_line])%list
        end
    end.

End PrintResults.

End Display.

(** ** Package display, [src/unnamed/part_000] *)

Module Part000.
Import Go.
Import Search.
Import Display.

(** [FormatSize], lines 14-36. *)
Definition FormatSize (size : Z) : option string :=
  if size =? 0 then Some "0 B"
  else
    let sign := if size <? 0 then "-" else "" in
    let size := if size <? 0 then wrap64 (- size) else size in
    if size <? unit then Some (sign ++ fmt_d size ++ " B")
    else format_units sign size.

(** [truncateString], lines 75-91.  On the last line [maxLen - 3] lies between
    0 and the number of runes, so that the slice [runes[:maxLen-3]] is the
    first [maxLen - 3] runes and cannot panic. *)
Definition truncateString (str : string) (maxLen : Z) : string :=
  if maxLen <=? 0 then ""
  else if RuneCountInString str <=? maxLen then str
  else if maxLen <=? 3 then Repeat "." maxLen
  else string_of_runes (firstn (Z.to_nat (maxLen - 3)) (runes str)) ++ "...".

(** [PrintResults], lines 39-72. *)
Definition PrintResults {sorter : Sorter} (results : list SearchResult)
  : option (list SearchResult * list chunk) :=
  Display.PrintResults FormatSize (fun str maxLen => Some (truncateString str maxLen)) results.

End Part000.

(** ** [src/pkg/display/display.go]: package display (lines 1-68) and package
    search (lines 69-177) *)

Module DisplayGo.
Import Go.
Import Search.
Import Display.

(** [FormatSize], lines 13-24. *)
Definition FormatSize (size : Z) : option string :=
  if size <? unit then Some (fmt_d size ++ " B")
  else format_units "" size.

(** [truncateString], lines 63-68: lengths and the slice are in bytes; [None]
    is the runtime panic of [str[:maxLen-3]] when [maxLen < 3]. *)
Definition truncateString (str : string) (maxLen : Z) : option string :=
  if len str <=? maxLen then Some str
  else match slice_to str (maxLen - 3) with
       | None => None
       | Some head => Some (head ++ "...")
       end.

(** [PrintResults], lines 27-60. *)
Definition PrintResults {sorter : Sorter} (results : list SearchResult)
  : option (list SearchResult * list chunk) :=
  Display.PrintResults FormatSize truncateString results.

(** Lines 93-96. *)
Definition ErrEmptyPattern : error := ErrorString "search pattern cannot be empty".
Definition ErrInvalidPath : error := ErrorString "invalid search path".

Section SearchFiles.
Variable lower_table : rune -> rune.
Variables (pattern root : string) (opts : SearchOptions).

(** The function literal passed to [filepath.Walk], lines 123-170; the state
    is the slice [results] it appends to. *)
Definition walkFunc : WalkFunc (St := list SearchResult) :=
  fun path info err results =>
    match err with
    | Some _ => (results, None)
    | None =>
        match info with
        | None => (results, None)
        | Some info =>
            if IsDir info then
              if negb (String.eqb path root) && negb (Recursive opts)
              then (results, Some SkipDir)
              else if shouldSkipDirectory path then (results, Some SkipDir)
              else (results, None)
            else if HasPrefix (Go.Name info) "." then (results, None)
            else
              let fileName := Go.Name info in
              let searchPattern := pattern in
              let fileName :=
                if CaseSensitive opts then fileName else ToLower lower_table fileName in
              let searchPattern :=
                if CaseSensitive opts then searchPattern
                else ToLower lower_table searchPattern in
              let matches :=
                if ExactMatch opts then String.eqb fileName searchPattern
                else Contains fileName searchPattern in
              if matches then
                (results ++ [mkResult path (Go.Name info) (Go.Size info)
                                      (Format (Go.ModTime info))], None)%list
              else (results, None)
        end
    end.

(** [SearchFiles], lines 110-177. *)
Definition SearchFiles (fs : FS) : Outcome :=
  if String.eqb pattern "" then mkOutcome [] (Some ErrEmptyPattern) []
  else if negb (stat_ok fs) then mkOutcome [] (Some ErrInvalidPath) [CallStat root]
  else
    let (results, err) := Walk walkFunc root (tree fs) [] in
    match err with
    | Some e => mkOutcome [] (Some e) [CallStat root; CallWalk root]
    | None => mkOutcome results None [CallStat root; CallWalk root]
    end.

End SearchFiles.

End DisplayGo.

(** ** Package search, [src/unnamed/part_001] *)

Module Part001.
Import Go.
Import Search.

Section SearchFiles.
Variable lower_table : rune -> rune.
Variables (pattern root : string) (opts : SearchOptions).

(** The function literal passed to [filepath.Walk], lines 39-85. *)
Definition walkFunc : WalkFunc (St := list SearchResult) :=
  fun path info err results =>
    match err with
    | Some _ => (results, None)
    | None =>
        match info with
        | None => (results, None)
        | Some info =>
            if IsDir info then
              if shouldSkipDirectory path then (results, Some SkipDir)
              else if negb (String.eqb path root) && negb (Recursive opts)
              then (results, Some SkipDir)
              else (results, None)
            else if HasPrefix (Go.Name info) "." then (results, None)
            else
              let fileName := Go.Name info in
              let searchPattern := pattern in
              let fileName :=
                if CaseSensitive opts then fileName else ToLower lower_table fileName in
              let searchPattern :=
                if CaseSensitive opts then searchPattern
                else ToLower lower_table searchPattern in
              let matches :=
                if ExactMatch opts then String.eqb fileName searchPattern
                else Contains fileName searchPattern in
              if matches then
                (results ++ [mkResult path (Go.Name info) (Go.Size info)
                                      (Format (Go.ModTime info))], None)%list
              else (results, None)
        end
    end.

(** [SearchFiles], lines 36-88: no check of the pattern and no [os.Stat]. *)
Definition SearchFiles (fs : FS) : Outcome :=
  let (results, err) := Walk walkFunc root (tree fs) [] in
  mkOutcome results err [CallWalk root].

End SearchFiles.

End Part001.

(** ** The two snapshots of the program

    [src/pkg/display/display.go] holds one revision of each package and the
    files [src/unnamed/part_000] and [src/unnamed/part_001] hold the other
    one.  The tests of the repository ([display_test.go], and the tests of
    [SearchFiles] in [src/unnamed/part_002]) pass on [FormatSize] and
    [truncateString] of part_000 and on [SearchFiles] of [display.go]. *)

Module Both.
Import Go.
Import Search.

Inductive snapshot := display_go | unnamed_parts.

Definition FormatSize (s : snapshot) : Z -> option string :=
  match s with
  | display_go => DisplayGo.FormatSize
  | unnamed_parts => Part000.FormatSize
  end.

Definition truncateString (s : snapshot) : string -> Z -> option string :=
  match s with
  | display_go => DisplayGo.truncateString
  | unnamed_parts => fun str maxLen => Some (Part000.truncateString str maxLen)
  end.

Definition PrintResults {sorter : Sorter} (s : snapshot)
  : list SearchResult -> option (list SearchResult * list Display.chunk) :=
  match s with
  | display_go => DisplayGo.PrintResults
  | unnamed_parts => Part000.PrintResults
  end.

Definition SearchFiles (s : snapshot)
  : (rune -> rune) -> string -> string -> SearchOptions -> FS -> Outcome :=
  match s with
  | display_go => DisplayGo.SearchFiles
  | unnamed_parts => Part001.SearchFiles
  end.

End Both.

(** ** The specification side: the notions the theorems are stated with *)

Module Spec.
Import Go.
Import Search.

(** The case fold of the matching rule: nothing when the search is case
    sensitive, [strings.ToLower] on the whole string otherwise. *)
Definition fold_case (lower_table : rune -> rune) (opts : SearchOptions) (s : string) : string :=
  if CaseSensitive opts then s else ToLower lower_table s.

(** [sub] occurs in [s] as a contiguous substring. *)
Definition substring_of (sub s : string) : Prop :=
  exists before after : string, s = before ++ sub ++ after.

(** The matching rule of the specification, section 4.1. *)
Definition matching_rule (lower_table : rune -> rune) (opts : SearchOptions)
    (fileName pattern : string) : Prop :=
  if ExactMatch opts
  then fold_case lower_table opts fileName = fold_case lower_table opts pattern
  else substring_of (fold_case lower_table opts pattern) (fold_case lower_table opts fileName).

(** The skip rule of the specification, on the base name of a directory. *)
Definition deny_list : list string :=
  ["node_modules"; "Library"; "System"; "Applications"].

Definition skip_rule (base : string) : Prop :=
  HasPrefix base "." = true \/ In base deny_list.

(** [located p n dirs q target]: below the entry [n] found at path [p], the
    entry [target] is found at path [q], inside the directories whose paths
    (with their readability) are [dirs], the outermost first. *)
Inductive located : string -> node -> list (string * bool) -> string -> node -> Prop :=
| located_here : forall p n, located p n [] p n
| located_below : forall p name mt rd es c dirs q target,
    In c es ->
    located (Join p (node_name c)) c dirs q target ->
    located p (Dir name mt rd es) ((p, rd) :: dirs) q target.

(** The walk enters a directory when its listing can be read, the skip rule
    does not hold of it, and it is the root or the search is recursive. *)
Definition entered (root : string) (opts : SearchOptions) (d : string * bool) : Prop :=
  snd d = true /\ shouldSkipDirectory (fst d) = false
  /\ (fst d = root \/ Recursive opts = true).

(** The file entries that the walk visits: those found inside entered
    directories only. *)
Definition visited (root : string) (opts : SearchOptions) (t : node)
    (q name : string) (size : Z) (mtime : Time) : Prop :=
  exists dirs, located root t dirs q (File name size mtime)
               /\ Forall (entered root opts) dirs.

(** The record emitted for a file entry. *)
Definition record_of (q name : string) (size : Z) (mtime : Time) : SearchResult :=
  mkResult q name size (Format mtime).

(** Every name listed in a directory of the tree is the name of a directory
    entry. *)
Fixpoint valid_entries (n : node) : bool :=
  match n with
  | Dir _ _ _ es => forallb (fun c => valid_name (node_name c) && valid_entries c) es
  | _ => true
  end.

(** The tree without the entries that raise an error: the names whose
    [Lstat] fails are removed, a directory that cannot be read is empty. *)
Fixpoint prune (n : node) : node :=
  match n with
  | Dir name mt rd es =>
      Dir name mt true
          (if rd
           then flat_map (fun c => match c with Broken _ => [] | _ => [prune c] end) es
           else [])
  | _ => n
  end.

(** The truncation rule of the specification, section 4.2, on code points. *)
Definition truncate_rule (s : string) (maxLen : Z) : string :=
  if RuneCountInString s <=? maxLen then s
  else if maxLen <=? 0 then ""
  else if maxLen <=? 3 then Repeat "." maxLen
  else string_of_runes (firstn (Z.to_nat (maxLen - 3)) (runes s)) ++ "...".

(** The sum of the sizes of the records, in the integers. *)
Definition sum_sizes (results : list SearchResult) : Z :=
  fold_right (fun r acc => Size r + acc) 0 results.

(** The row that [PrintResults] prints for a record, given its name as
    truncated and its size as rendered. *)
Definition row_of (name size : string) (r : SearchResult) : string :=
  fmt_pad 50 name ++ " " ++ fmt_pad 20 size ++ " "
  ++ fmt_pad 15 (ModTime r) ++ " " ++ Path r ++ nl.

(** A row and the record it is printed for: the name truncated to 47 and the
    size rendered by [FormatSize]. *)
Definition is_row (s : Both.snapshot) (r : SearchResult) (row : Display.chunk) : Prop :=
  exists name size,
    Both.truncateString s (Name r) 47 = Some name
    /\ Both.FormatSize s (Size r) = Some size
    /\ row = Display.Plain (row_of name size r).

(** [P] holds of the [2^k] integers from [lo] on. *)
Fixpoint range_all (k : nat) (lo : Z) (P : Z -> bool) : bool :=
  match k with
  | O => P lo
  | S k' => range_all k' lo P && range_all k' (lo + 2 ^ Z.of_nat k') P
  end.

(** The values of a byte. *)
Definition is_byte (b : Z) : Prop := 0 <= b < 256.

(** Ascending order of the names, byte by byte. *)
Definition name_le (a b : SearchResult) : Prop := String.leb (Name a) (Name b) = true.

(** The paths of the directories between [p] and an entry reached through
    the names [names], the outermost first. *)
Fixpoint dir_paths (p : string) (names : list string) : list string :=
  match names with
  | [] => []
  | n :: rest => p :: dir_paths (Join p n) rest
  end.

(** The entries that raise an error in the walk: a name whose [Lstat] fails,
    a directory whose listing cannot be read. *)
Definition raises_error (n : node) : Prop :=
  (exists name, n = Broken name) \/ (exists name mt es, n = Dir name mt false es).

(** *** The records that the traversal of section 4.1 accumulates *)

Section Records.
Variable lower_table : rune -> rune.
Variables (pattern root : string) (opts : SearchOptions).

(** The walk enters the directory at [p]. *)
Definition enters (p : string) : bool :=
  (String.eqb p root || Recursive opts) && negb (shouldSkipDirectory p).

(** The name of a file passes the comparison with the pattern. *)
Definition name_matches (name : string) : bool :=
  if ExactMatch opts
  then String.eqb (fold_case lower_table opts name)
                  (fold_case lower_table opts pattern)
  else Contains (fold_case lower_table opts name)
                (fold_case lower_table opts pattern).

Definition emits (name : string) : bool :=
  negb (HasPrefix name ".") && name_matches name.

(** The records of the files below an entry, in the order of the walk. *)
Fixpoint collect (p : string) (n : node) : list SearchResult :=
  match n with
  | File name size mt => if emits name then [record_of p name size mt] else []
  | Dir _ _ rd es =>
      if rd && enters p
      then flat_map (fun c => collect (Join p (node_name c)) c) es
      else []
  | Broken _ => []
  end.

End Records.

End Spec.

(** ** A world for the examples: the tree of the end-to-end scenario of the
    specification, with an entry that cannot be read and a locked directory *)

Module Demo.
Import Go Search.

Definition noon : Time := mkTime 2024 3 20 12 0 0.

Definition demo_root : string := "/tmp/searchbot_test".

Definition demo_tree : node :=
  Dir "searchbot_test" noon true
    [ Dir ".git" noon true [File "config" 10 noon];
      Dir "Documents" noon true
        [ File "meeting-notes.txt" 13 noon;
          File "report-2024.pdf" 11 noon;
          Broken "gone-2024.tmp" ];
      Dir "Locked" noon false [File "secret-2024.txt" 1 noon];
      Dir "Projects" noon true
        [ Dir "node" noon true
            [ Dir "node_modules" noon true [File "lib.js" 7 noon];
              File "package.json" 2 noon ] ];
      File "notes-2024.txt" 5 noon ].

Definition demo_fs : FS := mkFS true demo_tree.

(** Recursive, substring match, case sensitive: the defaults of the command. *)
Definition defaults : SearchOptions := mkOptions true false true.

Definition flat : SearchOptions := mkOptions false false true.

(** A search started in a [.git] directory. *)
Definition git_root : string := "/home/user/project/.git".

Definition git_fs : FS := mkFS true (Dir ".git" noon true [File "config" 10 noon]).

(** A part of the Unicode lower-case table: the Cyrillic capitals. *)
Definition cyrillic_lower (r : rune) : rune :=
  if in_range 1040 1071 r then r + 32 else r.

End Demo.

(** The records of [TestPrintResults] in [src/pkg/display/display_test.go]. *)
Definition file1 : Search.SearchResult :=
  Search.mkResult "/path/to/file1.txt" "file1.txt" 1024 "2024-03-20 10:00:00".

Definition file2 : Search.SearchResult :=
  Search.mkResult "/path/to/file2.txt" "file2.txt" 2048 "2024-03-20 11:00:00".

(** ** The shape of the data as a file system shows it *)

Module Shape.
Import Go.

Fixpoint distinct (l : list string) : bool :=
  match l with
  | [] => true
  | x :: r => negb (existsb (String.eqb x) r) && distinct r
  end.

(** No directory of the tree lists a name twice. *)
Fixpoint distinct_names (n : node) : bool :=
  match n with
  | Dir _ _ _ es => distinct (map node_name es) && forallb distinct_names es
  | _ => true
  end.

(** The sizes of the files of the tree are values of [int64], as
    [FileInfo.Size] returns them. *)
Fixpoint int64_sizes (n : node) : bool :=
  match n with
  | File _ size _ => (MinInt64 <=? size) && (size <=? MaxInt64)
  | Dir _ _ _ es => forallb int64_sizes es
  | Broken _ => true
  end.

(** The names of a listing as [readDirNames] returns them: in ascending
    order, byte by byte ([sort.Strings]). *)
Fixpoint ascending (l : list string) : bool :=
  match l with
  | x :: (y :: _) as r => String.leb x y && ascending r
  | _ => true
  end.

(** Every listing of the tree is in the order in which [filepath.Walk] goes
    through it. *)
Fixpoint sorted_names (n : node) : bool :=
  match n with
  | Dir _ _ _ es => ascending (map node_name es) && forallb sorted_names es
  | _ => true
  end.

(** What [os.Lstat] shows of a symbolic link, whether its target exists or
    not: an entry that is not a directory, of the size of the path it points
    to.  [os.Lstat] does not follow the link, so that a link to nothing
    raises no error in the walk. *)
Definition symlink (name target : string) (mtime : Time) : node :=
  File name (len target) mtime.

(** A time of the calendar, in a year of four digits at most. *)
Definition calendar (t : Time) : bool :=
  in_range 0 9999 (year t) && in_range 1 12 (month t) && in_range 1 31 (day t)
  && in_range 0 23 (hour t) && in_range 0 59 (minute t) && in_range 0 59 (second t).

End Shape.

(** ** Strings of ASCII bytes *)

Module Bytes.
Import Go.

(** The bytes of a string lowered one by one, as [strings.ToLower] does on a
    string of ASCII bytes. *)
Definition lower_bytes (s : string) : string :=
  of_bytes (map (fun b => if in_range 65 90 b then b + 32 else b) (bytes s)).

(** The input ends, or goes on with an ASCII byte: no continuation byte of a
    sequence comes first. *)
Definition ascii_start (ys : list Z) : Prop :=
  match ys with [] => True | y :: _ => y < 128 end.

(** A field of [time.Format] printed on [width] digits takes [width] ASCII
    bytes. *)
Definition fills (width : nat) (z : Z) : bool :=
  Nat.eqb (String.length (zero_pad width z)) width && isASCII (zero_pad width z).

End Bytes.

(** ** The command, [src/cmd/searchbot/main.go] *)

Module Cmd.
Import Go.
Import Search.
Import Display.

(** The values behind the three pointers that [flag.Bool] returns:
    [recursive] is the flag [-nr], [exactMatch] the flag [-e] and
    [caseSensitive] the flag [-i]. *)
Record Flags := mkFlags {
  recursive : bool;
  exactMatch : bool;
  caseSensitive : bool
}.

(** What [os.Stat] answers: the entry is there, it is not ([os.IsNotExist]
    holds of the error), or the call fails for another reason. *)
Inductive stat_result := StatOk | StatNotExist | StatFails.

Definition IsNotExist (r : stat_result) : bool :=
  match r with StatNotExist => true | _ => false end.

Definition stat_succeeds (r : stat_result) : bool :=
  match r with StatOk => true | _ => false end.

(** The system as the command sees it: the working directory ([os.Getwd], or
    its error), the answer of [os.Stat] at a path and what a walk finds there.
    The file system does not change while the command runs, so that the
    [os.Stat] of [main] and the one of [SearchFiles] answer alike. *)
Record World := mkWorld {
  Getwd : string + error;
  Stat : string -> stat_result;
  at_path : string -> node
}.

(** [filepath.Abs] on a Unix system. *)
Definition Abs (w : World) (path : string) : string + error :=
  if HasPrefix path "/" then inl (Clean path)
  else match Getwd w with
       | inl wd => inl (Join wd path)
       | inr err => inr err
       end.

(** What is written to the standard error: text, an error value printed
    with [%v], and a string printed with [%q]. *)
Inductive piece :=
| Text (s : string)
| Value (e : error)
| Quoted (s : string).

(** [flag.Usage], lines 18-25. *)
Definition Usage : list piece :=
  [Text ("Usage: s [options] <search_pattern> [directory]" ++ nl);
   Text (nl ++ "Options:" ++ nl);
   Text ("  -nr   Non-recursive search (by default search is recursive)" ++ nl);
   Text ("  -e    Match exact filename (by default matches substrings)" ++ nl);
   Text ("  -i    Case insensitive search (by default search is case sensitive)" ++ nl);
   Text (nl ++ "If directory is not specified, searches in current directory" ++ nl)].

(** *** [flag.Parse] on the three flags of the command *)

(** [strconv.ParseBool]. *)
Definition ParseBool (str : string) : option bool :=
  if existsb (String.eqb str) ["1"; "t"; "T"; "TRUE"; "true"; "True"] then Some true
  else if existsb (String.eqb str) ["0"; "f"; "F"; "FALSE"; "false"; "False"]
       then Some false
       else None.

(** The loop of [parseOne] that looks for an equals sign in the name of a
    flag, from its second byte on: the name before the sign, and the value
    after it. *)
Fixpoint cut_value (name : string) : string * option string :=
  match name with
  | EmptyString => (EmptyString, None)
  | String c rest =>
      if Ascii.eqb c "="%char then (EmptyString, Some rest)
      else let (n, v) := cut_value rest in (String c n, v)
  end.

Definition name_value (name : string) : string * option string :=
  match name with
  | EmptyString => (EmptyString, None)
  | String c rest => let (n, v) := cut_value rest in (String c n, v)
  end.

(** The flags that lines 14-16 define, all of them [false] before
    [flag.Parse], and what setting one of them does. *)
Definition defaults : Flags := mkFlags false false false.

Definition formal (name : string) : option (bool -> Flags -> Flags) :=
  if String.eqb name "nr"
  then Some (fun b f => mkFlags b (exactMatch f) (caseSensitive f))
  else if String.eqb name "e"
  then Some (fun b f => mkFlags (recursive f) b (caseSensitive f))
  else if String.eqb name "i"
  then Some (fun b f => mkFlags (recursive f) (exactMatch f) b)
  else None.

(** How [flag.Parse] ends: with the flags set and the arguments left
    ([flag.Args]); with [flag.ErrHelp], after it has called [flag.Usage]; or
    with another error, after it has written the message of the error and
    called [flag.Usage]. *)
Inductive parse_result :=
| Parsed (flags : Flags) (args : list string)
| ErrHelp
| Fails (message : list piece).

(** [FlagSet.Parse], the loop over [parseOne]: an argument shorter than two
    bytes or without a leading dash ends the flags, and so does ["--"], which
    is dropped; a boolean flag takes a value only after an equals sign. *)
Fixpoint Parse (flags : Flags) (arguments : list string) : parse_result :=
  match arguments with
  | [] => Parsed flags []
  | s :: rest =>
      match s with
      | String c0 (String c1 tail) =>
          if negb (Ascii.eqb c0 "-"%char) then Parsed flags arguments
          else if Ascii.eqb c1 "-"%char && is_empty tail then Parsed flags rest
          else
            let name := if Ascii.eqb c1 "-"%char then tail else String c1 tail in
            if is_empty name || HasPrefix name "-" || HasPrefix name "="
            then Fails [Text ("bad flag syntax: " ++ s ++ nl)]
            else
              let (name, value) := name_value name in
              match formal name with
              | None =>
                  if String.eqb name "help" || String.eqb name "h" then ErrHelp
                  else Fails [Text ("flag provided but not defined: -" ++ name ++ nl)]
              | Some set =>
                  match value with
                  | None => Parse (set true flags) rest
                  | Some v =>
                      match ParseBool v with
                      | Some b => Parse (set b flags) rest
                      | None =>
                          Fails [Text "invalid boolean value "; Quoted v;
                                 Text (" for -" ++ name ++ ": parse error" ++ nl)]
                      end
                  end
              end
      | _ => Parsed flags arguments
      end
  end.

(** A run of the command: what it wrote and its exit status. *)
Record Run := mkRun {
  stdout : list chunk;
  stderr : list piece;
  exit : Z
}.

(** The directory that the command searches: ["."] unless there is a second
    argument. *)
Definition root_argument (args : list string) : string :=
  if 1 <? Z.of_nat (List.length args) then nth 1 args "" else ".".

Section Main.
Context {sorter : Sorter}.

(** The revisions of the packages [search] and [display] that the command is
    built with, and the case table of the library. *)
Variables (search display : Both.snapshot).
Variable lower_table : rune -> rune.

(** Lines 28-70 of [main], on the flags and the arguments that [flag.Parse]
    leaves.  [None] is a runtime panic in [PrintResults]. *)
Definition search_and_print (flags : Flags) (args : list string) (w : World) : option Run :=
  if Z.of_nat (List.length args) <? 1 then Some (mkRun [] Usage 1)
  else
    let pattern := nth 0 args "" in
    let root := root_argument args in
    match Abs w root with
    | inr err => Some (mkRun [] [Text "Error resolving path: "; Value err; Text nl] 1)
    | inl root =>
        if IsNotExist (Stat w root)
        then Some (mkRun [] [Text ("Directory does not exist: " ++ root ++ nl)] 1)
        else
          let opts := mkOptions (negb (recursive flags)) (exactMatch flags)
                                (negb (caseSensitive flags)) in
          let status :=
            Plain ("Searching for '" ++ pattern ++ "' in " ++ root ++ "..." ++ nl) in
          let out := Both.SearchFiles search lower_table pattern root opts
                       (mkFS (stat_succeeds (Stat w root)) (at_path w root)) in
          match err out with
          | Some e =>
              Some (mkRun [status] [Text "Error searching files: "; Value e; Text nl] 1)
          | None =>
              match Both.PrintResults display (results out) with
              | None => None
              | Some (_, printed) => Some (mkRun (status :: printed) [] 0)
              end
          end
    end.

(** [main], lines 12-71, on the arguments of the command line
    ([os.Args[1:]]).  [flag.CommandLine] exits on an error: with status 0
    after [flag.ErrHelp], with status 2 after any other error of
    [flag.Parse], line 26. *)
Definition main (argv : list string) (w : World) : option Run :=
  match Parse defaults argv with
  | Fails message => Some (mkRun [] (message ++ Usage) 2)
  | ErrHelp => Some (mkRun [] Usage 0)
  | Parsed flags args => search_and_print flags args w
  end.

End Main.

End Cmd.

(** ** The tests of [SearchFiles], [src/unnamed/part_002] *)

Module SearchTest.
Import Go.
Import Search.

(** The tree that [createTestFiles] builds below the temporary directory,
    lines 10-90, every listing in the order of the names, as [filepath.Walk]
    reads it.  The size of a file is the length of its content.  The
    symbolic link [link-to-report.pdf] points to [report-2024.pdf] in the
    temporary directory itself, where there is no such file (lines 57 and
    74): it is a link to nothing. *)
Definition createTestFiles (tempDir : string) : node :=
  let file := fun name content => File name (len content) Demo.noon in
  Dir (Base tempDir) Demo.noon true
    [ Dir ".git" Demo.noon true [file "config" "git config"];
      Dir ".vscode" Demo.noon true [file "settings.json" "settings"];
      Dir "Documents" Demo.noon true
        [ file "budget 2024.xlsx" "budget data";
          file "executable.sh" "#!/bin/bash";
          Shape.symlink "link-to-report.pdf" (Join tempDir "report-2024.pdf") Demo.noon;
          file "meeting-notes.txt" "meeting notes";
          file "presentation slides.pptx" "presentation";
          file "readonly.txt" "readonly";
          file "report-2024.pdf" "pdf content";
          file "résumé.pdf" "resume";
          file "документ.txt" "document" ];
      Dir "Empty Directory" Demo.noon true [];
      Dir "Media" Demo.noon true
        [ file "profile-pic.png" "profile";
          file "vacation2024.jpg" "image";
          file "video-2024.mp4" "video" ];
      Dir "Projects" Demo.noon true
        [ Dir "go" Demo.noon true
            [file "main.go" "package main"; file "test.go" "package test"];
          Dir "node" Demo.noon true
            [ Dir "node_modules" Demo.noon true [file "lib.js" "library"];
              file "package.json" "{}" ];
          Dir "python" Demo.noon true [file "script.py" "python code"];
          file "test-file-with-very-very-very-very-very-long-name.txt" "test" ] ].

(** A row of the table of [TestSearchFiles]. *)
Record test_case := mkCase {
  pattern : string;
  opts : SearchOptions;
  shouldContain : list string;
  shouldNotContain : list string
}.

(** The table, lines 96-207. *)
Definition tests : list test_case :=
  [ mkCase ".pdf" (mkOptions true false true)
           ["report-2024.pdf"; "résumé.pdf"] ["document.txt"; "script.py"];
    mkCase "2024" (mkOptions true false true)
           ["report-2024.pdf"; "vacation2024.jpg"; "budget 2024.xlsx"] [];
    mkCase "meeting" (mkOptions true false false) ["meeting-notes.txt"] [];
    mkCase ".go" (mkOptions true false true)
           ["main.go"; "test.go"] ["script.py"; "package.json"];
    mkCase "документ" (mkOptions true false true) ["документ.txt"] [];
    mkCase ".sh" (mkOptions true false true) ["executable.sh"] [];
    mkCase "script" (mkOptions true false false) ["script.py"] [];
    mkCase "vacation" (mkOptions true false false) ["vacation2024.jpg"] [];
    mkCase "config" (mkOptions true false false) [] [".git/config"];
    mkCase "lib.js" (mkOptions true false false) [] ["node_modules/lib.js"] ].

(** A call of [t.Errorf]. *)
Inductive failure :=
| SearchError (e : error)
| Missing (expected : string)
| Unexpected (notExpected : string).

(** [foundFiles[key]], the map being filled with [filepath.Base] of the path
    of every result, lines 218-221. *)
Definition foundFiles (results : list SearchResult) (key : string) : bool :=
  existsb (fun result => String.eqb (Base (Path result)) key) results.

(** The two loops of checks, lines 223-235. *)
Definition checks (tt : test_case) (results : list SearchResult) : list failure :=
  (map Missing (filter (fun expected => negb (foundFiles results expected))
                       (shouldContain tt))
   ++ map Unexpected (filter (foundFiles results) (shouldNotContain tt)))%list.

(** The body of [t.Run], lines 210-236, for a [SearchFiles] given by its
    outcome on the row. *)
Definition run_case (SearchFiles : string -> SearchOptions -> Outcome) (tt : test_case)
  : list failure :=
  let out := SearchFiles (pattern tt) (opts tt) in
  match err out with
  | Some e => [SearchError e]
  | None => checks tt (results out)
  end.

End SearchTest.

(** * Properties *)

(** ** [int64] arithmetic *)

Module Int64Facts.
Import Go.

Lemma wrap64_id (z : Z) : int64_range z -> wrap64 z = z.
Proof.
  unfold int64_range, MinInt64, MaxInt64, wrap64. intros H.
  rewrite Z.mod_small; lia.
Qed.

Lemma wrap64_range (z : Z) : int64_range (wrap64 z).
Proof.
  unfold int64_range, MinInt64, MaxInt64, wrap64.
  pose proof (Z.mod_pos_bound (z + 2 ^ 63) (2 ^ 64) ltac:(lia)). lia.
Qed.

End Int64Facts.

(** ** [FormatSize] *)

Module FormatSizeFacts.
Import Go Display Int64Facts.

(** The loop ends within its fuel, after at most [k] turns when
    [n < 1024^(k+1)]. *)
Lemma unit_loop_total (k : nat) :
  forall (fuel : nat) (n div exp : Z),
    0 <= n < 1024 ^ (Z.of_nat k + 1) -> (k <= fuel)%nat ->
    exists d e, unit_loop fuel n div exp = Some (d, e) /\ exp <= e <= exp + Z.of_nat k.
Proof.
  induction k as [|k IH]; intros fuel n div exp Hn Hfuel.
  - exists div, exp. split; [|lia].
    destruct fuel; simpl; unfold unit;
      destruct (Z.geb_spec n 1024); try reflexivity; simpl in Hn; lia.
  - destruct fuel as [|fuel]; [lia|].
    simpl. unfold unit at 1. destruct (Z.geb_spec n 1024) as [Hge|Hlt].
    + destruct (IH fuel (Z.quot n unit) (wrap64 (div * unit)) (exp + 1))
        as (d & e & Heq & He); [|lia|].
      * unfold unit. rewrite Z.quot_div_nonneg by lia.
        split; [apply Z.div_pos; lia|].
        apply Z.div_lt_upper_bound; [lia|].
        replace (Z.of_nat (S k) + 1) with (Z.succ (Z.of_nat k + 1)) in Hn by lia.
        rewrite Z.pow_succ_r in Hn by lia. lia.
      * exists d, e. split; [exact Heq|lia].
    + exists div, exp. split; [reflexivity|lia].
Qed.

(** With the fuel of [FormatSize], the loop ends for every [n], after at most
    [log2 n / 10] turns. *)
Lemma unit_loop_fuel (n div exp : Z) :
  0 <= n ->
  exists d e, unit_loop (loop_fuel n) n div exp = Some (d, e)
              /\ exp <= e <= exp + Z.log2 n / 10.
Proof.
  intros Hn.
  assert (Hlog : 0 <= Z.log2 n) by apply Z.log2_nonneg.
  assert (Hq : 0 <= Z.log2 n / 10) by (apply Z.div_pos; lia).
  destruct (unit_loop_total (Z.to_nat (Z.log2 n / 10)) (loop_fuel n) n div exp)
    as (d & e & Heq & He).
  - split; [lia|]. rewrite Z2Nat.id by lia.
    destruct (Z.eq_dec n 0) as [->|Hnz].
    + simpl. lia.
    + destruct (Z.log2_spec n ltac:(lia)) as [_ Hup].
      eapply Z.lt_le_trans; [exact Hup|].
      replace 1024 with (2 ^ 10) by reflexivity.
      rewrite <- Z.pow_mul_r by lia.
      apply Z.pow_le_mono_r; [lia|].
      pose proof (Z.mod_pos_bound (Z.log2 n) 10 ltac:(lia)).
      pose proof (Z.div_mod (Z.log2 n) 10 ltac:(lia)). lia.
  - unfold loop_fuel.
    assert (Z.log2 n / 10 <= Z.log2 n).
    { apply Z.div_le_upper_bound; lia. }
    lia.
  - exists d, e. split; [exact Heq|]. rewrite Z2Nat.id in He by lia. exact He.
Qed.

(** On a size of [int64] the unit is one of the six of ["KMGTPE"]. *)
Lemma format_units_total (sign : string) (size : Z) :
  0 <= size <= MaxInt64 -> exists out, format_units sign size = Some out.
Proof.
  intros Hsize. unfold format_units.
  assert (Hq : 0 <= Z.quot size unit < 2 ^ 53).
  { unfold unit. rewrite Z.quot_div_nonneg by lia. unfold MaxInt64 in Hsize.
    split; [apply Z.div_pos; lia|]. apply Z.div_lt_upper_bound; lia. }
  destruct (unit_loop_fuel (Z.quot size unit) unit 0 (proj1 Hq)) as (d & e & -> & He).
  assert (Hlog : Z.log2 (Z.quot size unit) / 10 <= 5).
  { destruct (Z.eq_dec (Z.quot size unit) 0) as [->|Hnz];
      [change (Z.log2 0 / 10) with 0; lia|].
    assert (Z.log2 (Z.quot size unit) < 53) by (apply Z.log2_lt_pow2; lia).
    assert (Z.log2 (Z.quot size unit) / 10 < 6) by (apply Z.div_lt_upper_bound; lia).
    lia. }
  assert (He' : e = 0 \/ e = 1 \/ e = 2 \/ e = 3 \/ e = 4 \/ e = 5) by lia.
  destruct He' as [->|[->|[->|[->|[->| ->]]]]]; simpl; eexists; reflexivity.
Qed.

(** The sign is a prefix of what [format_units] prints. *)
Lemma format_units_sign (sign : string) (size : Z) :
  format_units sign size = option_map (String.append sign) (format_units "" size).
Proof.
  unfold format_units.
  destruct (unit_loop _ _ _ _) as [[d e]|]; [|reflexivity].
  destruct (index_byte _ _); reflexivity.
Qed.

(** [FormatSize] of part_000 returns on every size of [int64]. *)
Lemma FormatSize_total (size : Z) :
  int64_range size -> exists out, Part000.FormatSize size = Some out.
Proof.
  intros Hr. unfold Part000.FormatSize.
  destruct (Z.eqb_spec size 0); [eexists; reflexivity|].
  destruct (Z.ltb_spec size 0) as [Hneg|Hpos].
  - pose proof (wrap64_range (- size)) as Hw.
    destruct (Z.ltb_spec (wrap64 (- size)) unit); [eexists; reflexivity|].
    apply format_units_total. unfold int64_range, unit in *. lia.
  - destruct (Z.ltb_spec size unit); [eexists; reflexivity|].
    apply format_units_total. unfold int64_range in *. lia.
Qed.

End FormatSizeFacts.

(** The rows of [TestFormatSize] in [src/pkg/display/display_test.go]. *)
Example FormatSize_test_table :
  map Part000.FormatSize
      [0; 1; 999; 1024; 1536; 1024 * 999; 1024 * 1024; 1024 * 1024 * 3 / 2;
       1024 * 1024 * 999; 1024 * 1024 * 1024; 1024 * 1024 * 1024 * 3 / 2;
       9223372036854775807; -1024]
  = map Some
      ["0 B"; "1 B"; "999 B"; "1.0 KB"; "1.5 KB"; "999.0 KB"; "1.0 MB"; "1.5 MB";
       "999.0 MB"; "1.0 GB"; "1.5 GB"; "8.0 EB"; "-1.0 KB"].
Proof. vm_compute. reflexivity. Qed.

(** The quotient is rounded to one decimal, ties to even, not truncated. *)
Example FormatSize_rounding :
  map Part000.FormatSize [1075; 1076; 1024 + 512 + 51; 1024 * 1024 - 1]
  = map Some ["1.0 KB"; "1.1 KB"; "1.5 KB"; "1024.0 KB"].
Proof. vm_compute. reflexivity. Qed.

(** The least [int64] is its own opposite: it gets the sign and is printed
    as a number of bytes. *)
Example FormatSize_MinInt64 :
  Part000.FormatSize Go.MinInt64 = Some "--9223372036854775808 B".
Proof. vm_compute. reflexivity. Qed.

(** [FormatSize] of [src/pkg/display/display.go] has no case for a negative
    size: it is below the unit and is printed as a number of bytes. *)
Example DisplayGo_FormatSize_negative :
  DisplayGo.FormatSize (-1024) = Some "-1024 B"
  /\ DisplayGo.FormatSize 0 = Some "0 B"
  /\ DisplayGo.FormatSize 1536 = Some "1.5 KB"
  /\ DisplayGo.FormatSize Go.MaxInt64 = Some "8.0 EB".
Proof. vm_compute. repeat split; reflexivity. Qed.

(** C4. [FormatSize] (part_000) on the boundaries of the specification:
    0 is "0 B", 1 is "1 B", 1024 is "1.0 KB", 1536 is "1.5 KB", 1024*1024 is
    "1.0 MB", -1024 is "-1.0 KB" and the greatest [int64] is "8.0 EB"; and a
    negative size whose opposite is an [int64] is printed as "-" followed by
    what is printed for its absolute value. *)
Theorem FormatSize_boundary_table :
  Part000.FormatSize 0 = Some "0 B"
  /\ Part000.FormatSize 1 = Some "1 B"
  /\ Part000.FormatSize 1024 = Some "1.0 KB"
  /\ Part000.FormatSize 1536 = Some "1.5 KB"
  /\ Part000.FormatSize (1024 * 1024) = Some "1.0 MB"
  /\ Part000.FormatSize (-1024) = Some "-1.0 KB"
  /\ Part000.FormatSize Go.MaxInt64 = Some "8.0 EB"
  /\ (forall size : Z,
         Go.MinInt64 < size < 0 ->
         exists body : string,
           Part000.FormatSize (Z.abs size) = Some body
           /\ Part000.FormatSize size = Some ("-" ++ body)).
Proof.
  repeat (split; [vm_compute; reflexivity|]).
  intros size Hsize. unfold Go.MinInt64 in Hsize.
  rewrite Z.abs_neq by lia.
  unfold Part000.FormatSize.
  destruct (Z.eqb_spec size 0); [lia|].
  destruct (Z.eqb_spec (- size) 0); [lia|].
  destruct (Z.ltb_spec size 0); [|lia].
  destruct (Z.ltb_spec (- size) 0); [lia|].
  rewrite Int64Facts.wrap64_id
    by (unfold Go.int64_range, Go.MinInt64, Go.MaxInt64; lia).
  destruct (Z.ltb_spec (- size) Display.unit).
  - eexists. split; reflexivity.
  - destruct (FormatSizeFacts.format_units_total "" (- size)) as [out Hout].
    { unfold Go.MaxInt64, Display.unit in *. lia. }
    exists out. split; [exact Hout|].
    rewrite FormatSizeFacts.format_units_sign, Hout. reflexivity.
Qed.

Lemma FormatSize_boundary_table_witness :
  Go.MinInt64 < -1536 < 0
  /\ exists body : string,
       Part000.FormatSize (Z.abs (-1536)) = Some body
       /\ Part000.FormatSize (-1536) = Some ("-" ++ body).
Proof.
  assert (H : Go.MinInt64 < -1536 < 0) by (unfold Go.MinInt64; lia).
  split; [exact H|].
  exact (proj2 (proj2 (proj2 (proj2 (proj2 (proj2 (proj2
           FormatSize_boundary_table)))))) (-1536) H).
Defined.

(** ** [truncateString] *)

Module TruncateFacts.
Import Go.

(** Only the empty string has no rune. *)
Lemma RuneCount_zero (s : string) : RuneCountInString s <= 0 -> s = "".
Proof.
  destruct s as [|c r]; [reflexivity|].
  unfold RuneCountInString, runes. cbn [bytes runes_from].
  destruct (DecodeRune (byte_val c :: bytes r)) as [x w]. cbn [List.length]. lia.
Qed.

End TruncateFacts.

(** ** [unicode/utf8]: decoding what was encoded *)

Module Utf8Facts.
Import Go.

Lemma range_all_spec (k : nat) :
  forall (lo : Z) (P : Z -> bool),
    Spec.range_all k lo P = true ->
    forall z, lo <= z < lo + 2 ^ Z.of_nat k -> P z = true.
Proof.
  induction k as [|k IH]; intros lo P H z Hz.
  - simpl in *. replace z with lo by lia. exact H.
  - cbn [Spec.range_all] in H. apply andb_prop in H as [H1 H2].
    rewrite Nat2Z.inj_succ, Z.pow_succ_r in Hz by lia.
    destruct (Z.lt_ge_cases z (lo + 2 ^ Z.of_nat k)).
    + apply (IH lo P H1). lia.
    + apply (IH _ P H2). lia.
Qed.

(** The marker bits of a byte and its payload do not overlap. *)
Lemma lor_marker (marker : Z) (k : nat) (x : Z) :
  Spec.range_all k 0 (fun x => Z.lor marker x =? marker + x) = true ->
  0 <= x < 2 ^ Z.of_nat k -> Z.lor marker x = marker + x.
Proof.
  intros H Hx. apply Z.eqb_eq.
  exact (range_all_spec k 0 _ H x ltac:(lia)).
Qed.

Lemma lor_128 (x : Z) : 0 <= x < 64 -> Z.lor 128 x = 128 + x.
Proof. apply (lor_marker 128 6). vm_compute. reflexivity. Qed.

Lemma lor_192 (x : Z) : 0 <= x < 32 -> Z.lor 192 x = 192 + x.
Proof. apply (lor_marker 192 5). vm_compute. reflexivity. Qed.

Lemma lor_224 (x : Z) : 0 <= x < 16 -> Z.lor 224 x = 224 + x.
Proof. apply (lor_marker 224 4). vm_compute. reflexivity. Qed.

Lemma lor_240 (x : Z) : 0 <= x < 8 -> Z.lor 240 x = 240 + x.
Proof. apply (lor_marker 240 3). vm_compute. reflexivity. Qed.

Lemma shiftr_div (r : Z) (k : Z) : 0 <= k -> Z.shiftr r k = r / 2 ^ k.
Proof. intros. apply Z.shiftr_div_pow2. assumption. Qed.

Lemma land_63 (r : Z) : Z.land r 63 = r mod 64.
Proof. change 63 with (Z.ones 6). rewrite Z.land_ones by lia. reflexivity. Qed.

Ltac dlia := Z.to_euclidean_division_equations; lia.

(** The comparisons that linear arithmetic decides are rewritten to their
    value; an equality test that it does not decide is split. *)
Ltac decide_test :=
  match goal with
  | |- context [Z.ltb ?a ?b] =>
      (rewrite (proj2 (Z.ltb_lt a b)) by dlia)
      || (rewrite (proj2 (Z.ltb_ge a b)) by dlia)
  | |- context [Z.leb ?a ?b] =>
      (rewrite (proj2 (Z.leb_le a b)) by dlia)
      || (rewrite (proj2 (Z.leb_gt a b)) by dlia)
  | |- context [Z.eqb ?a ?b] =>
      (rewrite (proj2 (Z.eqb_eq a b)) by dlia)
      || (rewrite (proj2 (Z.eqb_neq a b)) by dlia)
  | |- context [Z.eqb ?a ?b] => destruct (Z.eqb_spec a b)
  end.

Ltac decide_tests := repeat (decide_test; cbn [andb orb]).

Local Abbreviation is_byte := Spec.is_byte.

(** The encoding of every rune is a sequence of one to four bytes, and
    decodes in its whole length whatever follows it. *)
Lemma DecodeRune_EncodeRune (r : rune) (rest : list Z) :
  exists c enc_tail b,
    EncodeRune r = b :: enc_tail
    /\ Forall is_byte (EncodeRune r)
    /\ DecodeRune (EncodeRune r ++ rest) = (c, List.length (EncodeRune r)).
Proof.
  unfold EncodeRune, in_range, Spec.is_byte.
  destruct (Z.leb_spec 0 r) as [H0|H0]; cbn [andb orb].
  2:{ rewrite (proj2 (Z.ltb_lt r 0)) by lia. cbn [orb].
      eexists _, _, _. split; [reflexivity|]. split; [repeat constructor; lia|reflexivity]. }
  destruct (Z.leb_spec r 127) as [H1|H1].
  { eexists _, _, _. split; [reflexivity|]. split; [repeat constructor; lia|].
    cbn [app DecodeRune]. rewrite (proj2 (Z.ltb_lt r 128)) by lia. reflexivity. }
  destruct (Z.leb_spec r 2047) as [H2|H2].
  { rewrite !shiftr_div, !land_63 by lia. change (2 ^ 6) with 64.
    rewrite lor_192, lor_128 by dlia.
    eexists _, _, _. split; [reflexivity|]. split; [repeat constructor; dlia|].
    cbn [app DecodeRune]. unfold in_range; decide_tests; reflexivity. }
  rewrite (proj2 (Z.ltb_ge r 0)) by lia. cbn [orb].
  destruct (Z.ltb_spec 1114111 r) as [H3|H3]; cbn [orb].
  { eexists _, _, _. split; [reflexivity|]. split; [repeat constructor; lia|reflexivity]. }
  assert (Hthree : 2047 < r <= 65535 -> ~ (55296 <= r <= 57343) ->
            exists c enc_tail b,
              [Z.lor 224 (Z.shiftr r 12); Z.lor 128 (Z.land (Z.shiftr r 6) 63);
               Z.lor 128 (Z.land r 63)] = b :: enc_tail
              /\ Forall (fun b0 => 0 <= b0 < 256)
                   [Z.lor 224 (Z.shiftr r 12); Z.lor 128 (Z.land (Z.shiftr r 6) 63);
                    Z.lor 128 (Z.land r 63)]
              /\ DecodeRune
                   ([Z.lor 224 (Z.shiftr r 12); Z.lor 128 (Z.land (Z.shiftr r 6) 63);
                     Z.lor 128 (Z.land r 63)] ++ rest) = (c, 3%nat)).
  { intros Hr Hs. rewrite !shiftr_div, !land_63 by lia.
    change (2 ^ 12) with 4096. change (2 ^ 6) with 64.
    rewrite lor_224, !lor_128 by dlia.
    eexists _, _, _. split; [reflexivity|]. split; [repeat constructor; dlia|].
    cbn [app DecodeRune]. unfold in_range; decide_tests; reflexivity. }
  assert (Hfour : 65535 < r <= 1114111 ->
            exists c enc_tail b,
              [Z.lor 240 (Z.shiftr r 18); Z.lor 128 (Z.land (Z.shiftr r 12) 63);
               Z.lor 128 (Z.land (Z.shiftr r 6) 63); Z.lor 128 (Z.land r 63)]
              = b :: enc_tail
              /\ Forall (fun b0 => 0 <= b0 < 256)
                   [Z.lor 240 (Z.shiftr r 18); Z.lor 128 (Z.land (Z.shiftr r 12) 63);
                    Z.lor 128 (Z.land (Z.shiftr r 6) 63); Z.lor 128 (Z.land r 63)]
              /\ DecodeRune
                   ([Z.lor 240 (Z.shiftr r 18); Z.lor 128 (Z.land (Z.shiftr r 12) 63);
                     Z.lor 128 (Z.land (Z.shiftr r 6) 63); Z.lor 128 (Z.land r 63)]
                    ++ rest) = (c, 4%nat)).
  { intros Hr. rewrite !shiftr_div, !land_63 by lia.
    change (2 ^ 18) with 262144. change (2 ^ 12) with 4096. change (2 ^ 6) with 64.
    rewrite lor_240, !lor_128 by dlia.
    eexists _, _, _. split; [reflexivity|]. split; [repeat constructor; dlia|].
    cbn [app DecodeRune]. unfold in_range; decide_tests; reflexivity. }
  destruct (Z.leb_spec 55296 r) as [H4|H4], (Z.leb_spec r 57343) as [H5|H5];
    cbn [andb];
    try (eexists _, _, _; split; [reflexivity|]; split;
         [repeat constructor; lia|reflexivity]);
    (destruct (Z.leb_spec r 65535); [apply Hthree; lia|apply Hfour; lia]).
Qed.

(** *** Counting the runes of what was encoded *)

Lemma byte_val_byte_of (b : Z) : is_byte b -> byte_val (byte_of b) = b.
Proof.
  unfold Spec.is_byte, byte_val, byte_of. intros Hb.
  rewrite N_ascii_embedding by lia. lia.
Qed.

Lemma bytes_of_bytes (l : list Z) : Forall is_byte l -> bytes (of_bytes l) = l.
Proof.
  induction 1 as [|b l Hb _ IH]; simpl; [reflexivity|].
  rewrite byte_val_byte_of, IH by assumption. reflexivity.
Qed.

Lemma bytes_app (a b : string) : bytes (a ++ b) = (bytes a ++ bytes b)%list.
Proof. induction a as [|c a IH]; simpl; [reflexivity|]. rewrite IH. reflexivity. Qed.

Lemma runes_from_skip (xs ys : list Z) :
  runes_from (List.length xs) (xs ++ ys)%list = runes_from 0 ys.
Proof. induction xs as [|x xs IH]; [reflexivity|]. exact IH. Qed.

Lemma encoding_bytes (rs : list rune) : Forall is_byte (flat_map EncodeRune rs).
Proof.
  induction rs as [|r rs IH]; cbn [flat_map]; [constructor|].
  apply Forall_app. split; [|exact IH].
  destruct (DecodeRune_EncodeRune r []) as (_ & _ & _ & _ & H & _). exact H.
Qed.

(** Every rune encoded is one rune decoded. *)
Lemma runes_from_encoding (rs : list rune) (rest : list Z) :
  List.length (runes_from 0 (flat_map EncodeRune rs ++ rest)%list)
  = (List.length rs + List.length (runes_from 0 rest))%nat.
Proof.
  induction rs as [|r rs IH]; cbn [flat_map]; [reflexivity|].
  rewrite <- app_assoc.
  destruct (DecodeRune_EncodeRune r (flat_map EncodeRune rs ++ rest)%list)
    as (c & enc_tail & b & Henc & _ & Hdec).
  rewrite Henc in *. cbn [app List.length] in *.
  cbn [runes_from]. rewrite Hdec.
  cbn [List.length Nat.sub]. rewrite Nat.sub_0_r, runes_from_skip, IH. reflexivity.
Qed.

Lemma RuneCount_string_of_runes (rs : list rune) (t : string) :
  RuneCountInString (string_of_runes rs ++ t)
  = Z.of_nat (List.length rs) + RuneCountInString t.
Proof.
  unfold RuneCountInString, runes, string_of_runes.
  rewrite bytes_app, bytes_of_bytes by apply encoding_bytes.
  rewrite runes_from_encoding. lia.
Qed.

Lemma RuneCount_dots (n : nat) : RuneCountInString (repeat_nat "." n) = Z.of_nat n.
Proof.
  unfold RuneCountInString, runes.
  induction n as [|n IH]; [reflexivity|].
  change (repeat_nat "." (S n)) with (String "."%char (repeat_nat "." n)).
  change (bytes (String "."%char (repeat_nat "." n)))
    with (46 :: bytes (repeat_nat "." n)).
  change (runes_from 0 (46 :: bytes (repeat_nat "." n)))
    with (46 :: runes_from 0 (bytes (repeat_nat "." n))).
  cbn [List.length]. lia.
Qed.

(** What [truncateString] of part_000 returns has at most [maxLen] runes, and
    exactly [maxLen] when it cuts the string. *)
Lemma truncateString_runes (s : string) (maxLen : Z) :
  0 <= maxLen ->
  RuneCountInString (Part000.truncateString s maxLen) <= maxLen
  /\ (0 < maxLen < RuneCountInString s ->
      RuneCountInString (Part000.truncateString s maxLen) = maxLen).
Proof.
  intros Hmax. unfold Part000.truncateString.
  destruct (Z.leb_spec maxLen 0);
    [change (RuneCountInString "") with 0; split; lia|].
  destruct (Z.leb_spec (RuneCountInString s) maxLen) as [Hc|Hc]; [split; lia|].
  destruct (Z.leb_spec maxLen 3).
  - unfold Repeat. rewrite RuneCount_dots. split; lia.
  - rewrite RuneCount_string_of_runes.
    rewrite length_firstn. unfold RuneCountInString in Hc.
    change (RuneCountInString "...") with 3. split; lia.
Qed.

End Utf8Facts.

(** The rows of [TestTruncateString] in [src/pkg/display/display_test.go]. *)
Example truncateString_test_table :
  map (fun c => Part000.truncateString (fst c) (snd c))
      [("short.txt", 20); ("exactly.txt", 11); ("very_long_filename.txt", 10);
       ("", 5); ("test.txt", 0); ("test.txt", 3); ("test.txt", 4);
       ("файл.txt", 5); ("file文件.txt", 7)]
  = ["short.txt"; "exactly.txt"; "very_lo..."; ""; ""; "..."; "t...";
     "фа..."; "file..."].
Proof. vm_compute. reflexivity. Qed.

(** A byte that is not part of a well-formed sequence counts as one rune,
    and comes out of the truncation as U+FFFD. *)
Example truncateString_ill_formed :
  Part000.truncateString (Go.of_bytes [255; 97; 98; 99; 100; 101]) 5
  = Go.of_bytes [239; 191; 189; 97; 46; 46; 46].
Proof. vm_compute. reflexivity. Qed.

(** [truncateString] of [src/pkg/display/display.go] counts and cuts bytes:
    it splits the second letter of "файл.txt", and it panics on a long name
    when [maxLen] is below 3. *)
Example DisplayGo_truncateString_bytes :
  DisplayGo.truncateString "файл.txt" 5 = Some (Go.of_bytes [209; 132; 46; 46; 46])
  /\ DisplayGo.truncateString "test.txt" 0 = None
  /\ DisplayGo.truncateString "very_long_filename.txt" 10 = Some "very_lo...".
Proof. vm_compute. repeat split; reflexivity. Qed.

(** C5. [truncateString] (part_000) works on code points: for every string
    and every [maxLen] it returns the string unchanged when its number of
    runes is at most [maxLen], else the empty string when [maxLen <= 0], else
    [maxLen] dots when [maxLen <= 3], else the first [maxLen - 3] runes
    followed by "..."; what it returns has at most [maxLen] runes; and
    "файл.txt", of 8 runes in 12 bytes, truncated to 5 is "фа...". *)
Theorem truncateString_rule :
  (forall (s : string) (maxLen : Z),
      Part000.truncateString s maxLen = Spec.truncate_rule s maxLen)
  /\ (forall (s : string) (maxLen : Z),
         0 <= maxLen ->
         Go.RuneCountInString (Part000.truncateString s maxLen) <= maxLen)
  /\ Part000.truncateString "файл.txt" 5 = "фа..."
  /\ Go.RuneCountInString "файл.txt" = 8
  /\ Go.len "файл.txt" = 12.
Proof.
  split; [|split; [|vm_compute; repeat split; reflexivity]].
  - intros s maxLen. unfold Part000.truncateString, Spec.truncate_rule.
    destruct (Z.leb_spec maxLen 0) as [Hle|Hgt]; [|reflexivity].
    destruct (Z.leb_spec (Go.RuneCountInString s) maxLen) as [Hc|Hc]; [|reflexivity].
    symmetry. apply TruncateFacts.RuneCount_zero. lia.
  - intros s maxLen Hmax. apply Utf8Facts.truncateString_runes, Hmax.
Qed.

Lemma truncateString_rule_witness :
  0 <= 5 /\ Go.RuneCountInString (Part000.truncateString "файл.txt" 5) <= 5.
Proof.
  assert (H : 0 <= 5) by lia.
  split; [exact H|].
  exact (proj1 (proj2 truncateString_rule) "файл.txt" 5 H).
Defined.

(** ** [path/filepath]: [Clean] and [Join] *)

Module PathFacts.
Import Go.

Lemma is_empty_eq (s : string) : is_empty s = true -> s = "".
Proof. destruct s; [reflexivity|discriminate]. Qed.

Lemma valid_name_inv (n : string) :
  valid_name n = true ->
  is_empty n = false /\ String.eqb n "." = false /\ String.eqb n ".." = false
  /\ no_slash n = true.
Proof.
  unfold valid_name. intros H.
  repeat (apply andb_prop in H as [H ?]).
  repeat match goal with
         | h : negb _ = true |- _ => apply negb_true_iff in h
         end.
  auto.
Qed.

Lemma valid_name_intro (n : string) :
  is_empty n = false -> String.eqb n "." = false -> String.eqb n ".." = false ->
  no_slash n = true -> valid_name n = true.
Proof. unfold valid_name. intros -> -> -> ->. reflexivity. Qed.

Lemma split_slash_nonempty (s : string) : split_slash s <> [].
Proof.
  destruct s as [|c r]; simpl; [discriminate|].
  destruct (Ascii.eqb c slash); [discriminate|].
  destruct (split_slash r); discriminate.
Qed.

Lemma split_slash_no_slash (n : string) : no_slash n = true -> split_slash n = [n].
Proof.
  induction n as [|c r IH]; simpl; [reflexivity|].
  intros H. apply andb_prop in H as [Hc Hr]. apply negb_true_iff in Hc.
  rewrite Hc, (IH Hr). reflexivity.
Qed.

Lemma split_slash_app (p n : string) :
  split_slash (p ++ String slash n) = (split_slash p ++ split_slash n)%list.
Proof.
  induction p as [|c r IH]; simpl.
  - reflexivity.
  - rewrite IH. destruct (Ascii.eqb c slash); [reflexivity|].
    destruct (split_slash r) eqn:E; [|reflexivity].
    exfalso. exact (split_slash_nonempty r E).
Qed.

Lemma split_slash_elems (s : string) :
  Forall (fun e => no_slash e = true) (split_slash s).
Proof.
  induction s as [|c r IH]; simpl.
  - repeat constructor.
  - destruct (Ascii.eqb c slash) eqn:E.
    + constructor; [reflexivity|exact IH].
    + destruct (split_slash r) as [|h t].
      * repeat constructor. simpl. rewrite E. reflexivity.
      * inversion IH; subst. constructor; [|assumption].
        simpl. rewrite E. simpl. assumption.
Qed.

Lemma split_join (kept : list string) :
  kept <> [] -> Forall (fun e => no_slash e = true) kept ->
  split_slash (join_slash kept) = kept.
Proof.
  induction kept as [|e r IH]; [congruence|].
  intros _ H. inversion H as [|? ? He Hr]; subst.
  destruct r as [|e' r'].
  - simpl. apply split_slash_no_slash. exact He.
  - change (join_slash (e :: e' :: r'))
      with (e ++ String slash (join_slash (e' :: r'))).
    rewrite split_slash_app, IH by (congruence || assumption).
    rewrite split_slash_no_slash by exact He. reflexivity.
Qed.

(** *** The elements kept by [Clean] *)

Lemma all_dotdot_stack (st : list string) : Forall (eq "..") st -> clean_stack false st.
Proof.
  induction 1 as [|e st He Hst IH]; simpl; [exact I|].
  right. subst. auto.
Qed.

Lemma clean_stack_tail (r : bool) (e : string) (st : list string) :
  clean_stack r (e :: st) -> clean_stack r st.
Proof.
  simpl. intros [[_ H]|(_ & -> & H)]; [exact H|]. apply all_dotdot_stack, H.
Qed.

Lemma clean_stack_elems (r : bool) (st : list string) :
  clean_stack r st ->
  Forall (fun e => no_slash e = true /\ is_empty e = false) st.
Proof.
  induction st as [|e st IH]; intros H; constructor.
  - destruct H as [[Hv _]|(-> & _)]; [|split; reflexivity].
    apply valid_name_inv in Hv. tauto.
  - apply IH. eapply clean_stack_tail, H.
Qed.

Lemma clean_step_stack (r : bool) (st : list string) (e : string) :
  no_slash e = true -> clean_stack r st -> clean_stack r (clean_step r st e).
Proof.
  intros He Hst. unfold clean_step.
  destruct (is_empty e) eqn:E1; [exact Hst|].
  destruct (String.eqb e ".") eqn:E2; [exact Hst|]. simpl.
  destruct (String.eqb e "..") eqn:E3.
  - apply String.eqb_eq in E3. subst e.
    destruct st as [|top below].
    + destruct r; simpl; [exact I|]. right. auto.
    + destruct (String.eqb top "..") eqn:E4.
      * apply String.eqb_eq in E4. subst top.
        destruct Hst as [[Hv _]|(_ & Hr & Hall)]; [discriminate Hv|].
        right. auto.
      * eapply clean_stack_tail, Hst.
  - left. split; [|exact Hst]. apply valid_name_intro; assumption.
Qed.

Lemma fold_clean_stack (r : bool) (es : list string) :
  Forall (fun e => no_slash e = true) es ->
  forall st, clean_stack r st -> clean_stack r (fold_left (clean_step r) es st).
Proof.
  induction 1 as [|e es He Hes IH]; intros st Hst; simpl; [exact Hst|].
  apply IH, clean_step_stack; assumption.
Qed.

Lemma clean_elems_stack (s : string) : clean_stack (HasPrefix s "/") (clean_elems s).
Proof. apply fold_clean_stack; [apply split_slash_elems|exact I]. Qed.

Lemma clean_step_push (r : bool) (st : list string) (e : string) :
  clean_stack r (e :: st) -> clean_step r st e = e :: st.
Proof.
  intros [[Hv _]|(-> & -> & Hall)].
  - apply valid_name_inv in Hv as (E1 & E2 & E3 & _).
    unfold clean_step. rewrite E1, E2, E3. reflexivity.
  - unfold clean_step. simpl. destruct Hall as [|top below <- _]; reflexivity.
Qed.

(** Cleaning again the elements already kept changes nothing. *)
Lemma replay (r : bool) (st : list string) :
  clean_stack r st -> fold_left (clean_step r) (rev st) [] = st.
Proof.
  induction st as [|e st IH]; intros H; simpl; [reflexivity|].
  rewrite fold_left_app. simpl.
  rewrite IH by (eapply clean_stack_tail, H).
  apply clean_step_push, H.
Qed.

Lemma join_slash_prefix (e : string) (r : list string) :
  no_slash e = true -> is_empty e = false -> HasPrefix (join_slash (e :: r)) "/" = false.
Proof.
  intros Hs He. destruct e as [|c e']; [discriminate|].
  simpl in Hs. apply andb_prop in Hs as [Hc _]. apply negb_true_iff in Hc.
  unfold slash in *. destruct r; simpl; rewrite Hc; reflexivity.
Qed.

Lemma join_slash_empty (kept : list string) :
  Forall (fun e => no_slash e = true /\ is_empty e = false) kept ->
  is_empty (join_slash kept) = true -> kept = [].
Proof.
  intros H. destruct H as [|e r [_ He] _]; [reflexivity|].
  destruct e as [|c e']; [discriminate|]. destruct r; discriminate.
Qed.

(** [Clean] keeps the same elements when it is applied to its own result. *)
Lemma clean_elems_Clean (s : string) :
  is_empty s = false ->
  clean_elems (Clean s) = clean_elems s
  /\ HasPrefix (Clean s) "/" = HasPrefix s "/".
Proof.
  intros Hs. unfold Clean. rewrite Hs.
  pose proof (clean_elems_stack s) as Hst.
  pose proof (clean_stack_elems _ _ Hst) as Hel.
  set (st := clean_elems s) in *. set (r := HasPrefix s "/") in *.
  assert (Hrev : Forall (fun e => no_slash e = true /\ is_empty e = false) (rev st)).
  { apply Forall_forall. intros e He. apply in_rev in He.
    exact (proj1 (Forall_forall _ _) Hel e He). }
  assert (Hrev' : Forall (fun e => no_slash e = true) (rev st)).
  { eapply Forall_impl; [|exact Hrev]. simpl. tauto. }
  destruct r eqn:Er.
  - split; [|reflexivity].
    unfold clean_elems. simpl.
    destruct (rev st) as [|e k] eqn:Ek.
    + simpl. apply (f_equal (@rev string)) in Ek. rewrite rev_involutive in Ek.
      symmetry. exact Ek.
    + rewrite split_join by (congruence || assumption).
      rewrite <- Ek. apply replay. exact Hst.
  - destruct (is_empty (join_slash (rev st))) eqn:Ej.
    + apply join_slash_empty in Ej; [|exact Hrev].
      apply (f_equal (@rev string)) in Ej. rewrite rev_involutive in Ej.
      rewrite Ej. split; reflexivity.
    + destruct (rev st) as [|e k] eqn:Ek; [discriminate Ej|].
      inversion Hrev as [|? ? [He1 He2] _]; subst.
      assert (Hp : HasPrefix (join_slash (e :: k)) "/" = false)
        by (apply join_slash_prefix; assumption).
      split; [|exact Hp].
      unfold clean_elems. rewrite Hp.
      rewrite split_join by (congruence || assumption).
      rewrite <- Ek. apply replay. exact Hst.
Qed.

Lemma HasPrefix_app_slash (p rest : string) :
  is_empty p = false -> HasPrefix (p ++ rest) "/" = HasPrefix p "/".
Proof. destruct p as [|c p']; [discriminate|]. intros _. simpl. reflexivity. Qed.

Lemma is_empty_app (p : string) (c : ascii) (rest : string) :
  is_empty (p ++ String c rest) = false.
Proof. destruct p; reflexivity. Qed.

(** [Join] adds the name of an entry to the elements of the directory. *)
Lemma clean_elems_Join (p n : string) :
  valid_name n = true -> clean_elems (Join p n) = n :: clean_elems p.
Proof.
  intros Hv. pose proof (valid_name_inv _ Hv) as (E1 & E2 & E3 & E4).
  unfold Join. destruct (is_empty p) eqn:Ep.
  - rewrite E1. apply is_empty_eq in Ep. subst p.
    rewrite (proj1 (clean_elems_Clean n E1)).
    unfold clean_elems. rewrite split_slash_no_slash by exact E4.
    simpl. unfold clean_step. rewrite E1, E2, E3. reflexivity.
  - rewrite (proj1 (clean_elems_Clean _ (is_empty_app p slash n))).
    unfold clean_elems.
    rewrite HasPrefix_app_slash by exact Ep.
    rewrite split_slash_app, (split_slash_no_slash n E4).
    rewrite fold_left_app. simpl.
    unfold clean_step at 1. rewrite E1, E2, E3. reflexivity.
Qed.

(** The path of an entry is never the path of its directory. *)
Lemma Join_neq (p n : string) : valid_name n = true -> Join p n <> p.
Proof.
  intros Hv Heq. apply (f_equal clean_elems) in Heq.
  rewrite clean_elems_Join in Heq by exact Hv.
  apply (f_equal (@List.length string)) in Heq. simpl in Heq. lia.
Qed.

Lemma clean_elems_chain (names : list string) :
  forall p, Forall (fun n => valid_name n = true) names ->
  clean_elems (fold_left Join names p) = (rev names ++ clean_elems p)%list.
Proof.
  induction names as [|n rest IH]; intros p H; simpl; [reflexivity|].
  inversion H; subst. rewrite IH by assumption.
  rewrite clean_elems_Join by assumption.
  rewrite <- app_assoc. reflexivity.
Qed.

(** Two sequences of names that lead from [p] to the same path are equal. *)
Lemma chain_names_unique (p : string) (names1 names2 : list string) :
  Forall (fun n => valid_name n = true) names1 ->
  Forall (fun n => valid_name n = true) names2 ->
  fold_left Join names1 p = fold_left Join names2 p ->
  names1 = names2.
Proof.
  intros H1 H2 Heq. apply (f_equal clean_elems) in Heq.
  rewrite !clean_elems_chain in Heq by assumption.
  apply app_inv_tail in Heq.
  apply (f_equal (@rev string)) in Heq. rewrite !rev_involutive in Heq. exact Heq.
Qed.

End PathFacts.

(** ** [strings.HasPrefix] and [strings.Contains] *)

Module StringFacts.
Import Go.

Lemma HasPrefix_spec (s prefix : string) :
  HasPrefix s prefix = true <-> exists rest, s = prefix ++ rest.
Proof.
  revert s. induction prefix as [|p prefix IH]; intros s; simpl.
  - split; [intros _; exists s; reflexivity|reflexivity].
  - destruct s as [|c s'].
    + split; [discriminate|]. intros [rest H]. discriminate H.
    + rewrite andb_true_iff, IH. split.
      * intros [Hc [rest ->]]. apply Ascii.eqb_eq in Hc. subst. exists rest. reflexivity.
      * intros [rest H]. injection H as -> ->. split; [apply Ascii.eqb_refl|].
        exists rest. reflexivity.
Qed.

Lemma Contains_unfold (s sub : string) :
  Contains s sub
  = HasPrefix s sub || match s with EmptyString => false | String _ s' => Contains s' sub end.
Proof. destruct s; reflexivity. Qed.

(** [strings.Contains] decides the occurrence as a contiguous substring. *)
Lemma Contains_spec (s sub : string) :
  Contains s sub = true <-> Spec.substring_of sub s.
Proof.
  unfold Spec.substring_of. split.
  - induction s as [|c s' IH]; rewrite Contains_unfold, orb_true_iff.
    + intros [H|H]; [|discriminate]. apply HasPrefix_spec in H as [rest ->].
      exists "", rest. reflexivity.
    + intros [H|H].
      * apply HasPrefix_spec in H as [rest ->]. exists "", rest. reflexivity.
      * destruct (IH H) as (before & after & ->).
        exists (String c before), after. reflexivity.
  - intros (before & after & ->).
    induction before as [|c before IH]; rewrite Contains_unfold, orb_true_iff.
    + left. apply HasPrefix_spec. exists after. reflexivity.
    + right. exact IH.
Qed.

End StringFacts.

(** ** The walk *)

Module WalkFacts.
Import Go Search.

(** Induction on a tree, with the hypothesis on every entry of a directory. *)
Lemma node_forall_ind (P : node -> Prop) :
  (forall name size mt, P (File name size mt)) ->
  (forall name mt rd es, Forall P es -> P (Dir name mt rd es)) ->
  (forall name, P (Broken name)) ->
  forall n, P n.
Proof.
  intros HF HD HB. fix rec 1. intros [name size mt|name mt rd es|name].
  - apply HF.
  - apply HD. induction es as [|c es IH]; constructor; [apply rec|exact IH].
  - apply HB.
Qed.

Section Callback.
Variable lower_table : rune -> rune.
Variables (pattern root : string) (opts : SearchOptions).

(** The two revisions of the function literal differ in the order of two
    tests that lead to the same result. *)
Lemma walkFunc_same path info err results :
  Part001.walkFunc lower_table pattern root opts path info err results
  = DisplayGo.walkFunc lower_table pattern root opts path info err results.
Proof.
  unfold Part001.walkFunc, DisplayGo.walkFunc.
  destruct err; [reflexivity|]. destruct info as [info|]; [|reflexivity].
  destruct (IsDir info); [|reflexivity].
  destruct (shouldSkipDirectory path),
    (negb (String.eqb path root) && negb (Recursive opts)); reflexivity.
Qed.

Local Abbreviation walkFn := (DisplayGo.walkFunc lower_table pattern root opts).
Local Abbreviation enters := (Spec.enters root opts).
Local Abbreviation emits := (Spec.emits lower_table pattern opts).
Local Abbreviation name_matches := (Spec.name_matches lower_table pattern opts).
Local Abbreviation collect := (Spec.collect lower_table pattern root opts).

Lemma walkFn_error path info e st : walkFn path info (Some e) st = (st, None).
Proof. reflexivity. Qed.

Lemma walkFn_file path name size mt st :
  walkFn path (Some (mkInfo name size mt false)) None st
  = ((st ++ if emits name then [Spec.record_of path name size mt] else [])%list, None).
Proof.
  unfold DisplayGo.walkFunc, Spec.emits, Spec.name_matches, Spec.fold_case, Spec.record_of.
  cbn [IsDir Go.Name Go.Size Go.ModTime].
  destruct (HasPrefix name "."); cbn [negb andb]; [rewrite app_nil_r; reflexivity|].
  destruct (CaseSensitive opts), (ExactMatch opts);
    match goal with
    | |- context [if ?b then (_, _) else _] => destruct b
    end; rewrite ?app_nil_r; reflexivity.
Qed.

Lemma walkFn_dir path name mt st :
  walkFn path (Some (mkInfo name 0 mt true)) None st
  = (st, if enters path then None else Some SkipDir).
Proof.
  unfold DisplayGo.walkFunc, Spec.enters. cbn [IsDir].
  destruct (String.eqb path root), (Recursive opts), (shouldSkipDirectory path);
    reflexivity.
Qed.

(** What [walk] does on an entry: it appends the records of the files below
    it, and returns [SkipDir] for a readable directory that is not entered. *)
Lemma walk_collect (n : node) :
  forall p st,
    walk walkFn p n st
    = ((st ++ collect p n)%list,
       match n with
       | Dir _ _ true _ => if enters p then None else Some SkipDir
       | _ => None
       end).
Proof.
  induction n as [name size mt|name mt rd es IH|name] using node_forall_ind;
    intros p st.
  - cbn [walk Lstat Spec.collect]. apply walkFn_file.
  - cbn [walk Lstat Spec.collect]. destruct rd.
    + rewrite walkFn_dir. cbn [andb]. destruct (enters p).
      * clear name mt. revert st.
        induction IH as [|c es Hc _ IHes]; intros st.
        { simpl. rewrite app_nil_r. reflexivity. }
        cbn [walk_entries flat_map].
        destruct c as [cname csize cmt|cname cmt crd ces|cname]; cbn [Lstat].
        -- rewrite Hc. cbn [node_is_dir negb orb].
           rewrite IHes, app_assoc. reflexivity.
        -- rewrite Hc. cbn [node_is_dir negb orb].
           destruct crd; [destruct (enters _)|]; cbn [is_SkipDir negb];
             rewrite IHes, app_assoc; reflexivity.
        -- rewrite walkFn_error. cbn [Spec.collect]. rewrite IHes. reflexivity.
      * rewrite app_nil_r. reflexivity.
    + rewrite walkFn_error, app_nil_r. reflexivity.
  - cbn [walk Spec.collect]. rewrite walkFn_error, app_nil_r. reflexivity.
Qed.

(** [filepath.Walk] with the function literal of [SearchFiles] never returns
    an error, and collects the records of the files it visits. *)
Lemma Walk_collect (n : node) (st : list SearchResult) :
  Walk walkFn root n st = ((st ++ collect root n)%list, None).
Proof.
  unfold Walk. rewrite walk_collect.
  destruct n as [| ? ? [] ?|]; try reflexivity.
  destruct (enters root); reflexivity.
Qed.

(** The walk depends on the function it calls through its results only. *)
Lemma walk_ext {St : Type} (f g : WalkFunc (St := St)) :
  (forall path info err st, f path info err st = g path info err st) ->
  forall n p st, walk f p n st = walk g p n st.
Proof.
  intros Hfg.
  induction n as [name size mt|name mt rd es IH|name] using node_forall_ind;
    intros p st; cbn [walk]; rewrite ?Hfg; try reflexivity.
  destruct rd; [|reflexivity].
  destruct (g p _ None st) as [st1 [e|]]; [reflexivity|].
  revert st1. induction IH as [|c es Hc _ IHes]; intros st1; [reflexivity|].
  cbn [walk_entries].
  destruct (Lstat c).
  - rewrite Hc. destruct (walk g _ c st1) as [st2 [e|]]; [|apply IHes].
    destruct (negb (node_is_dir c) || negb (is_SkipDir e)); [reflexivity|apply IHes].
  - rewrite Hfg. destruct (g _ None _ st1) as [st2 [e|]]; [|apply IHes].
    destruct (is_SkipDir e); [apply IHes|reflexivity].
Qed.

(** *** The records are those of the visited files that pass the test *)

Lemma entered_enters (p : string) (rd : bool) :
  Spec.entered root opts (p, rd) <-> rd && enters p = true.
Proof.
  unfold Spec.entered, Spec.enters. cbn [fst snd].
  rewrite !andb_true_iff, orb_true_iff, negb_true_iff, String.eqb_eq. tauto.
Qed.

Lemma collect_located (n : node) :
  forall p r,
    In r (collect p n) <->
    exists dirs q name size mt,
      Spec.located p n dirs q (File name size mt)
      /\ Forall (Spec.entered root opts) dirs
      /\ emits name = true
      /\ r = Spec.record_of q name size mt.
Proof.
  induction n as [name size mt|name mt rd es IH|name] using node_forall_ind;
    intros p r; cbn [Spec.collect].
  - split.
    + destruct (emits name) eqn:E; [|intros []].
      intros [<-|[]]. exists [], p, name, size, mt.
      repeat split; [constructor|constructor|exact E].
    + intros (dirs & q & name' & size' & mt' & Hloc & _ & E & ->).
      inversion Hloc; subst. rewrite E. left. reflexivity.
  - split.
    + destruct (rd && enters p) eqn:E; [|intros []].
      rewrite in_flat_map. intros (c & Hc & Hr).
      apply (proj1 (Forall_forall _ _) IH c Hc) in Hr
        as (dirs & q & name' & size' & mt' & Hloc & Hdirs & Hm & ->).
      exists ((p, rd) :: dirs), q, name', size', mt'.
      repeat split; [econstructor; eassumption| |exact Hm].
      constructor; [apply entered_enters, E|exact Hdirs].
    + intros (dirs & q & name' & size' & mt' & Hloc & Hdirs & Hm & ->).
      inversion Hloc as [|? ? ? ? ? c dirs' ? ? Hc Hloc']; subst.
      inversion Hdirs as [|? ? Hent Hdirs']; subst.
      apply entered_enters in Hent. rewrite Hent. apply in_flat_map.
      exists c. split; [exact Hc|].
      apply (proj1 (Forall_forall _ _) IH c Hc).
      exists dirs', q, name', size', mt'. auto.
  - split; [intros []|].
    intros (dirs & q & name' & size' & mt' & Hloc & _).
    inversion Hloc.
Qed.

(** The comparison of the code decides the matching rule. *)
Lemma name_matches_rule (name : string) :
  name_matches name = true <-> Spec.matching_rule lower_table opts name pattern.
Proof.
  unfold Spec.name_matches, Spec.matching_rule. destruct (ExactMatch opts).
  - apply String.eqb_eq.
  - apply StringFacts.Contains_spec.
Qed.

(** *** What [SearchFiles] returns *)

Lemma DisplayGo_SearchFiles_outcome (fs : FS) :
  pattern <> "" -> stat_ok fs = true ->
  DisplayGo.SearchFiles lower_table pattern root opts fs
  = mkOutcome (collect root (tree fs)) None [CallStat root; CallWalk root].
Proof.
  intros Hp Hs. unfold DisplayGo.SearchFiles.
  destruct (String.eqb_spec pattern ""); [contradiction|].
  rewrite Hs. cbn [negb]. rewrite Walk_collect. reflexivity.
Qed.

Lemma Part001_SearchFiles_outcome (fs : FS) :
  Part001.SearchFiles lower_table pattern root opts fs
  = mkOutcome (collect root (tree fs)) None [CallWalk root].
Proof.
  unfold Part001.SearchFiles.
  assert (H : Walk (Part001.walkFunc lower_table pattern root opts) root (tree fs) []
              = Walk walkFn root (tree fs) []).
  { unfold Walk. rewrite (walk_ext _ walkFn); [reflexivity|]. apply walkFunc_same. }
  rewrite H, Walk_collect. reflexivity.
Qed.

(** The records that [SearchFiles] of [display.go] returns are among those of
    the walk, whatever the pattern and the root. *)
Lemma DisplayGo_results_collect (fs : FS) (r : SearchResult) :
  In r (results (DisplayGo.SearchFiles lower_table pattern root opts fs)) ->
  In r (collect root (tree fs)).
Proof.
  unfold DisplayGo.SearchFiles.
  destruct (String.eqb pattern ""); [intros []|].
  destruct (stat_ok fs); cbn [negb]; [|intros []].
  rewrite Walk_collect. intros H. exact H.
Qed.

(** In both snapshots the records returned are records of the walk, and
    they are all of them once the checks of [display.go] are passed. *)
Lemma Both_results_collect (s : Both.snapshot) (fs : FS) (r : SearchResult) :
  In r (results (Both.SearchFiles s lower_table pattern root opts fs)) ->
  In r (collect root (tree fs)).
Proof.
  destruct s; cbn [Both.SearchFiles].
  - apply DisplayGo_results_collect.
  - rewrite Part001_SearchFiles_outcome. intros H. exact H.
Qed.

Lemma Both_SearchFiles_outcome (s : Both.snapshot) (fs : FS) :
  pattern <> "" -> stat_ok fs = true ->
  results (Both.SearchFiles s lower_table pattern root opts fs) = collect root (tree fs)
  /\ err (Both.SearchFiles s lower_table pattern root opts fs) = None.
Proof.
  intros Hp Hs. destruct s; cbn [Both.SearchFiles].
  - rewrite (DisplayGo_SearchFiles_outcome fs Hp Hs). split; reflexivity.
  - rewrite Part001_SearchFiles_outcome. split; reflexivity.
Qed.

End Callback.

End WalkFacts.

(** ** The search *)

Module SearchFacts.
Import Go Search WalkFacts.

(** [shouldSkipDirectory] decides the skip rule on the base name. *)
Lemma shouldSkipDirectory_spec (path : string) :
  shouldSkipDirectory path = true <-> Spec.skip_rule (Base path).
Proof.
  unfold shouldSkipDirectory, Spec.skip_rule, Spec.deny_list. cbn [In].
  rewrite !orb_true_iff, !String.eqb_eq.
  intuition congruence.
Qed.

Lemma shouldSkipDirectory_false (path : string) :
  shouldSkipDirectory path = false <-> ~ Spec.skip_rule (Base path).
Proof.
  rewrite <- shouldSkipDirectory_spec. destruct (shouldSkipDirectory path); split;
    congruence.
Qed.

(** The names along the way from an entry to an entry below it. *)
Lemma located_names p n dirs q target :
  Spec.located p n dirs q target ->
  Spec.valid_entries n = true ->
  exists names,
    Forall (fun x => valid_name x = true) names
    /\ q = fold_left Join names p
    /\ map fst dirs = Spec.dir_paths p names.
Proof.
  induction 1 as [p n|p name mt rd es c dirs q target Hc Hloc IH]; intros Hv.
  - exists []. repeat split. constructor.
  - cbn [Spec.valid_entries] in Hv.
    apply (proj1 (forallb_forall _ _) Hv) in Hc.
    apply andb_prop in Hc as [Hname Hsub].
    destruct (IH Hsub) as (names & Hnames & -> & Hpaths).
    exists (node_name c :: names). repeat split.
    + constructor; assumption.
    + cbn [map fst Spec.dir_paths]. rewrite Hpaths. reflexivity.
Qed.

(** Two ways from the root to the same path go through the same
    directories. *)
Lemma located_same_dirs root t dirs1 dirs2 q target1 target2 :
  Spec.valid_entries t = true ->
  Spec.located root t dirs1 q target1 ->
  Spec.located root t dirs2 q target2 ->
  map fst dirs1 = map fst dirs2.
Proof.
  intros Hv H1 H2.
  destruct (located_names _ _ _ _ _ H1 Hv) as (names1 & Hn1 & Hq1 & ->).
  destruct (located_names _ _ _ _ _ H2 Hv) as (names2 & Hn2 & Hq2 & ->).
  rewrite (PathFacts.chain_names_unique root names1 names2); congruence.
Qed.

Section Search.
Variable lower_table : rune -> rune.
Variables (pattern root : string) (opts : SearchOptions).

Local Abbreviation collect := (Spec.collect lower_table pattern root opts).

Lemma collect_raises_error (p : string) (n : node) :
  Spec.raises_error n -> collect p n = [].
Proof. intros [[name ->]|(name & mt & es & ->)]; reflexivity. Qed.

Lemma node_name_prune (n : node) : node_name (Spec.prune n) = node_name n.
Proof. destruct n; reflexivity. Qed.

(** The records are those of the tree without the entries that raise an
    error. *)
Lemma collect_prune (n : node) : forall p, collect p (Spec.prune n) = collect p n.
Proof.
  induction n as [name size mt|name mt rd es IH|name] using node_forall_ind;
    intros p; try reflexivity.
  cbn [Spec.prune Spec.collect]. destruct rd; cbn [andb]; [|destruct (Spec.enters _ _ _); reflexivity].
  destruct (Spec.enters root opts p); [|reflexivity].
  induction IH as [|c es Hc _ IHes]; [reflexivity|].
  cbn [flat_map]. rewrite flat_map_app, IHes. f_equal.
  destruct c; cbn [flat_map app]; rewrite ?app_nil_r;
    rewrite ?node_name_prune; try apply Hc; reflexivity.
Qed.

(** Without recursion, the records are those of the files listed in the
    root. *)
Lemma collect_nonrecursive name mt rd es (r : SearchResult) :
  Recursive opts = false ->
  Forall (fun c => valid_name (node_name c) = true) es ->
  In r (collect root (Dir name mt rd es)) ->
  exists size mtime,
    In (File (Search.Name r) size mtime) es /\ Path r = Join root (Search.Name r).
Proof.
  intros Hrec Hnames. cbn [Spec.collect].
  destruct (rd && Spec.enters root opts root); [|intros []].
  rewrite in_flat_map. intros (c & Hc & Hr).
  pose proof (proj1 (Forall_forall _ _) Hnames c Hc) as Hname.
  destruct c as [cname csize cmt|cname cmt crd ces|cname]; cbn [Spec.collect node_name] in *.
  - destruct (Spec.emits _ _ _ cname); [|destruct Hr].
    destruct Hr as [<-|[]]. exists csize, cmt. split; [exact Hc|reflexivity].
  - unfold Spec.enters in Hr. rewrite Hrec in Hr.
    destruct (String.eqb_spec (Join root cname) root) as [Heq|_].
    + exfalso. exact (PathFacts.Join_neq root cname Hname Heq).
    + rewrite andb_false_r in Hr. destruct Hr.
  - destruct Hr.
Qed.

(** A root that the skip rule excludes gives no record. *)
Lemma collect_skipped_root (t : node) :
  node_is_dir t = true -> shouldSkipDirectory root = true -> collect root t = [].
Proof.
  intros Hd Hs. destruct t as [|name mt rd es|]; try discriminate.
  cbn [Spec.collect]. unfold Spec.enters. rewrite Hs, !andb_false_r. reflexivity.
Qed.

End Search.

End SearchFacts.

(** The end-to-end scenario of the specification: searching "2024" in the
    tree, recursively, returns the report and nothing below [.git],
    [node_modules], the locked directory or the broken entry. *)
Example SearchFiles_end_to_end :
  DisplayGo.SearchFiles Demo.cyrillic_lower "2024" Demo.demo_root Demo.defaults Demo.demo_fs
  = Search.mkOutcome
      [ Search.mkResult "/tmp/searchbot_test/Documents/report-2024.pdf"
                        "report-2024.pdf" 11 "2024-03-20 12:00:00";
        Search.mkResult "/tmp/searchbot_test/notes-2024.txt"
                        "notes-2024.txt" 5 "2024-03-20 12:00:00" ]
      None
      [Go.CallStat "/tmp/searchbot_test"; Go.CallWalk "/tmp/searchbot_test"].
Proof. vm_compute. reflexivity. Qed.

(** [strings.ToLower] folds the whole string, beyond ASCII. *)
Example ToLower_beyond_ascii :
  Go.ToLower Demo.cyrillic_lower "ДОКУМЕНТ.TXT" = "документ.txt"
  /\ Go.ToLower Demo.cyrillic_lower "Report-2024.PDF" = "report-2024.pdf".
Proof. vm_compute. split; reflexivity. Qed.

(** A search that is not case sensitive, for an exact name. *)
Example SearchFiles_fold_exact :
  Search.results (DisplayGo.SearchFiles Demo.cyrillic_lower "REPORT-2024.pdf" Demo.demo_root
                    (Search.mkOptions true true false) Demo.demo_fs)
  = [Search.mkResult "/tmp/searchbot_test/Documents/report-2024.pdf" "report-2024.pdf" 11
                     "2024-03-20 12:00:00"]
  /\ Search.results (DisplayGo.SearchFiles Demo.cyrillic_lower "REPORT-2024.pdf"
                       Demo.demo_root (Search.mkOptions true true true) Demo.demo_fs)
     = [].
Proof. vm_compute. split; reflexivity. Qed.

(** C1. In both snapshots, on a non-empty pattern and an existing root: for
    every file entry that the walk visits (it lies in entered directories
    only, none of which the skip rule excludes) and whose name does not start
    with a dot, the record of the entry is among the results if and only if
    the matching rule holds of its name: equality or occurrence as a
    substring, after [strings.ToLower] of both the name and the pattern when
    the search is not case sensitive.  And every record returned is the
    record of such an entry. *)
Theorem SearchFiles_matching_rule :
  forall (s : Both.snapshot) (lower_table : Go.rune -> Go.rune) (pattern root : string)
         (opts : Search.SearchOptions) (fs : Go.FS),
    pattern <> "" -> Go.stat_ok fs = true ->
    (forall q name size mtime,
        Spec.visited root opts (Go.tree fs) q name size mtime ->
        Go.HasPrefix name "." = false ->
        (In (Spec.record_of q name size mtime)
            (Search.results (Both.SearchFiles s lower_table pattern root opts fs))
         <-> Spec.matching_rule lower_table opts name pattern))
    /\ (forall r,
           In r (Search.results (Both.SearchFiles s lower_table pattern root opts fs)) ->
           exists q name size mtime,
             Spec.visited root opts (Go.tree fs) q name size mtime
             /\ Go.HasPrefix name "." = false
             /\ Spec.matching_rule lower_table opts name pattern
             /\ r = Spec.record_of q name size mtime).
Proof.
  intros s lower_table pattern root opts fs Hp Hs.
  rewrite (proj1 (WalkFacts.Both_SearchFiles_outcome _ _ _ _ s fs Hp Hs)).
  split.
  - intros q name size mtime [dirs [Hloc Hdirs]] Hdot.
    rewrite WalkFacts.collect_located. split.
    + intros (dirs' & q' & name' & size' & mt' & _ & _ & Hm & Heq).
      injection Heq as _ -> _ _.
      unfold Spec.emits in Hm. apply andb_prop in Hm as [_ Hm].
      apply WalkFacts.name_matches_rule, Hm.
    + intros Hrule. exists dirs, q, name, size, mtime.
      repeat split; try assumption.
      unfold Spec.emits. rewrite Hdot.
      apply WalkFacts.name_matches_rule in Hrule. rewrite Hrule. reflexivity.
  - intros r Hr. apply WalkFacts.collect_located in Hr
      as (dirs & q & name & size & mt & Hloc & Hdirs & Hm & ->).
    unfold Spec.emits in Hm. apply andb_prop in Hm as [Hdot Hm].
    apply negb_true_iff in Hdot. apply WalkFacts.name_matches_rule in Hm.
    exists q, name, size, mt. repeat split; try assumption.
    exists dirs. split; assumption.
Qed.

Lemma SearchFiles_matching_rule_witness :
  "2024" <> ""
  /\ Go.stat_ok Demo.demo_fs = true
  /\ Spec.visited Demo.demo_root Demo.defaults (Go.tree Demo.demo_fs)
       "/tmp/searchbot_test/Documents/report-2024.pdf" "report-2024.pdf" 11 Demo.noon
  /\ Go.HasPrefix "report-2024.pdf" "." = false
  /\ (In (Spec.record_of "/tmp/searchbot_test/Documents/report-2024.pdf"
                         "report-2024.pdf" 11 Demo.noon)
         (Search.results (DisplayGo.SearchFiles Demo.cyrillic_lower "2024" Demo.demo_root
                                                Demo.defaults Demo.demo_fs))
      <-> Spec.matching_rule Demo.cyrillic_lower Demo.defaults "report-2024.pdf" "2024").
Proof.
  assert (Hp : "2024" <> "") by discriminate.
  assert (Hv : Spec.visited Demo.demo_root Demo.defaults (Go.tree Demo.demo_fs)
                 "/tmp/searchbot_test/Documents/report-2024.pdf" "report-2024.pdf"
                 11 Demo.noon).
  { exists [(Demo.demo_root, true); ("/tmp/searchbot_test/Documents", true)]. split.
    - apply Spec.located_below
        with (c := Go.Dir "Documents" Demo.noon true
                     [ Go.File "meeting-notes.txt" 13 Demo.noon;
                       Go.File "report-2024.pdf" 11 Demo.noon;
                       Go.Broken "gone-2024.tmp" ]).
      + right. left. reflexivity.
      + apply Spec.located_below with (c := Go.File "report-2024.pdf" 11 Demo.noon).
        * right. left. reflexivity.
        * exact (Spec.located_here _ _).
    - constructor; [|constructor; [|constructor]];
        (split; [reflexivity|split; [vm_compute; reflexivity|right; reflexivity]]). }
  split; [exact Hp|]. split; [reflexivity|]. split; [exact Hv|].
  split; [reflexivity|].
  exact (proj1 (SearchFiles_matching_rule Both.display_go Demo.cyrillic_lower "2024"
                  Demo.demo_root Demo.defaults Demo.demo_fs Hp eq_refl)
               _ _ _ _ Hv eq_refl).
Defined.

(** C2. In both snapshots, for every tree (whose directories list names of
    entries), every pattern and every configuration: the name of a returned
    record does not start with a dot, and its path lies inside no directory
    of the tree whose base name starts with a dot or is one of
    [node_modules], [Library], [System], [Applications]. *)
Theorem SearchFiles_skips_directories :
  forall (s : Both.snapshot) (lower_table : Go.rune -> Go.rune) (pattern root : string)
         (opts : Search.SearchOptions) (fs : Go.FS) (r : Search.SearchResult),
    Spec.valid_entries (Go.tree fs) = true ->
    In r (Search.results (Both.SearchFiles s lower_table pattern root opts fs)) ->
    Go.HasPrefix (Search.Name r) "." = false
    /\ forall dirs target,
         Spec.located root (Go.tree fs) dirs (Search.Path r) target ->
         Forall (fun d => ~ Spec.skip_rule (Go.Base (fst d))) dirs.
Proof.
  intros s lower_table pattern root opts fs r Hv Hr.
  apply WalkFacts.Both_results_collect in Hr.
  apply WalkFacts.collect_located in Hr
    as (dirs1 & q & name & size & mt & Hloc & Hdirs & Hm & ->).
  cbn [Search.Name Search.Path Spec.record_of]. split.
  - unfold Spec.emits in Hm. apply andb_prop in Hm as [Hdot _].
    apply negb_true_iff, Hdot.
  - intros dirs target Hloc'.
    pose proof (SearchFacts.located_same_dirs _ _ _ _ _ _ _ Hv Hloc Hloc') as Hsame.
    assert (H1 : Forall (fun p => ~ Spec.skip_rule (Go.Base p)) (map fst dirs1)).
    { apply (proj2 (Forall_map fst (fun p => ~ Spec.skip_rule (Go.Base p)) dirs1)).
      eapply Forall_impl; [|exact Hdirs].
      intros d (_ & Hskip & _). apply SearchFacts.shouldSkipDirectory_false, Hskip. }
    rewrite Hsame in H1.
    exact (proj1 (Forall_map fst (fun p => ~ Spec.skip_rule (Go.Base p)) dirs) H1).
Qed.

Lemma SearchFiles_skips_directories_witness :
  Spec.valid_entries (Go.tree Demo.demo_fs) = true
  /\ In (Search.mkResult "/tmp/searchbot_test/notes-2024.txt" "notes-2024.txt" 5
                         "2024-03-20 12:00:00")
        (Search.results (DisplayGo.SearchFiles Demo.cyrillic_lower "2024" Demo.demo_root
                                               Demo.defaults Demo.demo_fs))
  /\ Go.HasPrefix "notes-2024.txt" "." = false
  /\ forall dirs target,
       Spec.located Demo.demo_root (Go.tree Demo.demo_fs) dirs
                    "/tmp/searchbot_test/notes-2024.txt" target ->
       Forall (fun d => ~ Spec.skip_rule (Go.Base (fst d))) dirs.
Proof.
  assert (Hv : Spec.valid_entries (Go.tree Demo.demo_fs) = true)
    by (vm_compute; reflexivity).
  assert (Hin : In (Search.mkResult "/tmp/searchbot_test/notes-2024.txt"
                                    "notes-2024.txt" 5 "2024-03-20 12:00:00")
                   (Search.results (DisplayGo.SearchFiles Demo.cyrillic_lower "2024"
                                      Demo.demo_root Demo.defaults Demo.demo_fs))).
  { rewrite SearchFiles_end_to_end. right. left. reflexivity. }
  split; [exact Hv|]. split; [exact Hin|].
  exact (SearchFiles_skips_directories Both.display_go Demo.cyrillic_lower "2024"
           Demo.demo_root Demo.defaults Demo.demo_fs _ Hv Hin).
Defined.

(** The skip rule is applied to the directories of the tree, from the root
    down: a root that lies below a hidden directory is searched. *)
Example SearchFiles_root_below_hidden :
  Search.results (DisplayGo.SearchFiles Demo.cyrillic_lower "conf" "/home/user/.config/app"
                    Demo.defaults
                    (Go.mkFS true (Go.Dir "app" Demo.noon true
                                     [Go.File "app.conf" 3 Demo.noon])))
  = [Search.mkResult "/home/user/.config/app/app.conf" "app.conf" 3 "2024-03-20 12:00:00"].
Proof. vm_compute. reflexivity. Qed.

(** C3. [SearchFiles] of [display.go] fails with [ErrEmptyPattern] exactly
    when the pattern is empty, and then before any call into the system; on a
    non-empty pattern it fails with [ErrInvalidPath] exactly when
    [os.Stat(root)] fails, and then without starting the walk; it returns no
    other error. *)
Theorem SearchFiles_input_errors :
  forall (lower_table : Go.rune -> Go.rune) (pattern root : string)
         (opts : Search.SearchOptions) (fs : Go.FS),
    let out := DisplayGo.SearchFiles lower_table pattern root opts fs in
    (pattern = "" ->
       out = Search.mkOutcome [] (Some DisplayGo.ErrEmptyPattern) [])
    /\ (Search.err out = Some DisplayGo.ErrEmptyPattern <-> pattern = "")
    /\ (pattern <> "" -> Go.stat_ok fs = false ->
          out = Search.mkOutcome [] (Some DisplayGo.ErrInvalidPath) [Go.CallStat root])
    /\ (Search.err out = Some DisplayGo.ErrInvalidPath
          <-> pattern <> "" /\ Go.stat_ok fs = false)
    /\ (Search.err out <> None -> ~ In (Go.CallWalk root) (Search.calls out))
    /\ (pattern <> "" -> Go.stat_ok fs = true -> Search.err out = None).
Proof.
  intros lower_table pattern root opts fs out. subst out.
  destruct (String.eqb_spec pattern "") as [->|Hp].
  - cbn. repeat split; intros; cbn in *; intuition (congruence || discriminate).
  - destruct (Go.stat_ok fs) eqn:Hs.
    + rewrite (WalkFacts.DisplayGo_SearchFiles_outcome _ _ _ _ _ Hp Hs). cbn.
      repeat split; intros; cbn in *; intuition (congruence || discriminate).
    + unfold DisplayGo.SearchFiles.
      destruct (String.eqb_spec pattern ""); [contradiction|].
      rewrite Hs. cbn.
      repeat split; intros; cbn in *; intuition (congruence || discriminate).
Qed.

Lemma SearchFiles_input_errors_witness :
  let out := DisplayGo.SearchFiles Demo.cyrillic_lower "test" "/path/that/does/not/exist"
               Demo.defaults (Go.mkFS false (Go.Broken "exist")) in
  "test" <> ""
  /\ Go.stat_ok (Go.mkFS false (Go.Broken "exist")) = false
  /\ out = Search.mkOutcome [] (Some DisplayGo.ErrInvalidPath)
             [Go.CallStat "/path/that/does/not/exist"].
Proof.
  assert (Hp : "test" <> "") by discriminate.
  split; [exact Hp|]. split; [reflexivity|].
  exact (proj1 (proj2 (proj2
           (SearchFiles_input_errors Demo.cyrillic_lower "test" "/path/that/does/not/exist"
              Demo.defaults (Go.mkFS false (Go.Broken "exist"))))) Hp eq_refl).
Defined.

(** [SearchFiles] of [src/unnamed/part_001] checks neither the pattern nor
    the root: on an empty pattern and on a root that does not exist it walks
    and returns no error, against [TestSearchFilesErrors]. *)
Example Part001_SearchFiles_no_validation :
  Part001.SearchFiles Demo.cyrillic_lower "" "." Demo.defaults Demo.demo_fs
  = Search.mkOutcome [] None [Go.CallWalk "."]
  /\ Part001.SearchFiles Demo.cyrillic_lower "test" "/path/that/does/not/exist"
       Demo.defaults (Go.mkFS false (Go.Broken "exist"))
     = Search.mkOutcome [] None [Go.CallWalk "/path/that/does/not/exist"].
Proof. vm_compute. split; reflexivity. Qed.

(** Apart from the two checks, the two revisions of [SearchFiles] return the
    same records. *)
Lemma Part001_same_results lower_table pattern root opts fs :
  pattern <> "" -> Go.stat_ok fs = true ->
  Search.results (Part001.SearchFiles lower_table pattern root opts fs)
  = Search.results (DisplayGo.SearchFiles lower_table pattern root opts fs)
  /\ Search.err (Part001.SearchFiles lower_table pattern root opts fs)
     = Search.err (DisplayGo.SearchFiles lower_table pattern root opts fs).
Proof.
  intros Hp Hs.
  rewrite WalkFacts.Part001_SearchFiles_outcome,
    (WalkFacts.DisplayGo_SearchFiles_outcome _ _ _ _ _ Hp Hs).
  split; reflexivity.
Qed.

(** C6. In both snapshots, on a non-empty pattern and an existing root,
    whatever entries of the tree raise an error (a name whose [Lstat] fails:
    permission denied, entry removed during the walk; a directory whose
    listing cannot be read): [SearchFiles] returns no error; its records are
    exactly the records of the files that the walk visits, that are not
    hidden and that match, so that no record comes from an entry that raises
    an error or from below it; they are the records of the tree without
    these entries; and when such an entry is listed in the root, the records
    are those found with the other entries of the root, the record of every
    matching file listed beside it among them.  An entry is left out for an
    error only: a symbolic link to nothing raises none, see
    [SearchFiles_reports_broken_symlink]. *)
Theorem SearchFiles_absorbs_entry_errors :
  forall (s : Both.snapshot) (lower_table : Go.rune -> Go.rune) (pattern root : string)
         (opts : Search.SearchOptions) (fs : Go.FS),
    pattern <> "" -> Go.stat_ok fs = true ->
    let search := Both.SearchFiles s lower_table pattern root opts in
    Search.err (search fs) = None
    /\ (forall r,
          In r (Search.results (search fs))
          <-> exists q name size mtime,
                Spec.visited root opts (Go.tree fs) q name size mtime
                /\ Go.HasPrefix name "." = false
                /\ Spec.matching_rule lower_table opts name pattern
                /\ r = Spec.record_of q name size mtime)
    /\ Search.results (search fs)
       = Search.results (search (Go.mkFS true (Spec.prune (Go.tree fs))))
    /\ forall name mt before bad after,
         Go.tree fs = Go.Dir name mt true (before ++ bad :: after) ->
         Spec.raises_error bad ->
         Search.results (search fs)
         = Search.results (search (Go.mkFS true (Go.Dir name mt true (before ++ after))))
         /\ forall fname size mtime,
              In (Go.File fname size mtime) (before ++ after) ->
              Search.shouldSkipDirectory root = false ->
              Go.HasPrefix fname "." = false ->
              Spec.matching_rule lower_table opts fname pattern ->
              In (Spec.record_of (Go.Join root fname) fname size mtime)
                 (Search.results (search fs)).
Proof.
  intros s lower_table pattern root opts fs Hp Hs search. subst search.
  destruct (WalkFacts.Both_SearchFiles_outcome lower_table pattern root opts s fs Hp Hs)
    as [Hres Herr].
  rewrite Hres, Herr. split; [reflexivity|]. split; [|split].
  - intros r. rewrite WalkFacts.collect_located. split.
    + intros (dirs & q & name & size & mt & Hloc & Hdirs & Hm & ->).
      unfold Spec.emits in Hm. apply andb_prop in Hm as [Hdot Hm].
      apply negb_true_iff in Hdot. apply WalkFacts.name_matches_rule in Hm.
      exists q, name, size, mt. repeat split; try assumption.
      exists dirs. split; assumption.
    + intros (q & name & size & mt & (dirs & Hloc & Hdirs) & Hdot & Hrule & ->).
      exists dirs, q, name, size, mt. repeat split; try assumption.
      unfold Spec.emits. rewrite Hdot.
      apply WalkFacts.name_matches_rule in Hrule. rewrite Hrule. reflexivity.
  - rewrite (proj1 (WalkFacts.Both_SearchFiles_outcome _ _ _ _ s
                      (Go.mkFS true (Spec.prune (Go.tree fs))) Hp eq_refl)).
    cbn [Go.tree]. symmetry. apply SearchFacts.collect_prune.
  - intros name mt before bad after Htree Hbad. split.
    + rewrite (proj1 (WalkFacts.Both_SearchFiles_outcome _ _ _ _ s
                        (Go.mkFS true (Go.Dir name mt true (before ++ after))) Hp eq_refl)).
      cbn [Go.tree]. rewrite Htree. cbn [Spec.collect andb].
      destruct (Spec.enters root opts root); [|reflexivity].
      rewrite !flat_map_app. cbn [flat_map].
      rewrite (SearchFacts.collect_raises_error _ _ _ _ _ _ Hbad). reflexivity.
    + intros fname size mtime Hin Hskip Hdot Hrule.
      rewrite Htree. cbn [Spec.collect andb].
      unfold Spec.enters at 1. rewrite String.eqb_refl, Hskip. cbn [orb andb negb].
      apply in_flat_map. exists (Go.File fname size mtime). split.
      * apply in_or_app. apply in_app_or in Hin as [Hin|Hin];
          [left; exact Hin|right; right; exact Hin].
      * cbn [Go.node_name Spec.collect]. unfold Spec.emits. rewrite Hdot.
        apply WalkFacts.name_matches_rule in Hrule. rewrite Hrule.
        left. reflexivity.
Qed.

Lemma SearchFiles_absorbs_entry_errors_witness :
  let fs := Go.mkFS true
              (Go.Dir "r" Demo.noon true
                 ([Go.File "a1" 1 Demo.noon]
                  ++ Go.Dir "locked" Demo.noon false [Go.File "a2" 2 Demo.noon]
                  :: [Go.File "a6" 6 Demo.noon])) in
  "a" <> "" /\ Go.stat_ok fs = true
  /\ Spec.raises_error (Go.Dir "locked" Demo.noon false [Go.File "a2" 2 Demo.noon])
  /\ Search.err (DisplayGo.SearchFiles Demo.cyrillic_lower "a" "/r" Demo.defaults fs) = None
  /\ In (Spec.record_of (Go.Join "/r" "a6") "a6" 6 Demo.noon)
        (Search.results (DisplayGo.SearchFiles Demo.cyrillic_lower "a" "/r" Demo.defaults fs)).
Proof.
  intros fs.
  assert (Hp : "a" <> "") by discriminate.
  assert (Hbad : Spec.raises_error
                   (Go.Dir "locked" Demo.noon false [Go.File "a2" 2 Demo.noon]))
    by (right; eexists _, _, _; reflexivity).
  assert (Hrule : Spec.matching_rule Demo.cyrillic_lower Demo.defaults "a6" "a")
    by (exists "", "6"; reflexivity).
  pose proof (SearchFiles_absorbs_entry_errors Both.display_go Demo.cyrillic_lower
                "a" "/r" Demo.defaults fs Hp eq_refl) as H.
  split; [exact Hp|]. split; [reflexivity|]. split; [exact Hbad|].
  split; [exact (proj1 H)|].
  exact (proj2 (proj2 (proj2 (proj2 H)) _ _ _ _ _ eq_refl Hbad) "a6" 6 Demo.noon
               (or_intror (or_introl eq_refl)) eq_refl eq_refl Hrule).
Defined.

(** Against the claim as far as it counts a broken symbolic link among the
    entries that are left out.  [filepath.Walk] calls [os.Lstat], which does
    not follow a link: the link to nothing that [createTestFiles] makes
    ([Documents/link-to-report.pdf], lines 57 and 74 of
    [src/unnamed/part_002]) raises no error, it is an entry that is not a
    directory, and the search for ".pdf" of [TestSearchFiles] returns its
    record, in both revisions. *)
Lemma SearchFiles_reports_broken_symlink :
  let tempDir := "/tmp/searchbot_test2718281828" in
  let fs := Go.mkFS true (SearchTest.createTestFiles tempDir) in
  let link := Spec.record_of "/tmp/searchbot_test2718281828/Documents/link-to-report.pdf"
                "link-to-report.pdf"
                (Go.len "/tmp/searchbot_test2718281828/report-2024.pdf") Demo.noon in
  Spec.located tempDir (Go.tree fs)
    [(tempDir, true); ("/tmp/searchbot_test2718281828/Documents", true)]
    "/tmp/searchbot_test2718281828/Documents/link-to-report.pdf"
    (Shape.symlink "link-to-report.pdf" "/tmp/searchbot_test2718281828/report-2024.pdf"
                   Demo.noon)
  /\ In link (Search.results (DisplayGo.SearchFiles Demo.cyrillic_lower ".pdf" tempDir
                                (Search.mkOptions true false true) fs))
  /\ In link (Search.results (Part001.SearchFiles Demo.cyrillic_lower ".pdf" tempDir
                                (Search.mkOptions true false true) fs))
  /\ Search.err (DisplayGo.SearchFiles Demo.cyrillic_lower ".pdf" tempDir
                   (Search.mkOptions true false true) fs) = None.
Proof.
  cbv zeta. split; [|split; [|split]].
  - eapply Spec.located_below with (c := Go.Dir "Documents" _ _ _);
      [right; right; left; reflexivity|].
    eapply Spec.located_below
      with (c := Shape.symlink "link-to-report.pdf"
                   "/tmp/searchbot_test2718281828/report-2024.pdf" Demo.noon);
      [right; right; left; reflexivity|].
    apply Spec.located_here.
  - vm_compute. left. reflexivity.
  - vm_compute. left. reflexivity.
  - vm_compute. reflexivity.
Qed.

(** A tree with an unreadable directory and a name whose [Lstat] fails: the
    matches of the readable siblings are returned, without error. *)
Example SearchFiles_unreadable_sibling :
  DisplayGo.SearchFiles Demo.cyrillic_lower "a" "/r" Demo.defaults
    (Go.mkFS true
       (Go.Dir "r" Demo.noon true
          [ Go.File "a1" 1 Demo.noon;
            Go.Dir "locked" Demo.noon false [Go.File "a2" 2 Demo.noon];
            Go.Broken "a3";
            Go.Dir "sub" Demo.noon true [Go.File "a4" 4 Demo.noon; Go.Broken "a5"];
            Go.File "a6" 6 Demo.noon ]))
  = Search.mkOutcome
      [ Search.mkResult "/r/a1" "a1" 1 "2024-03-20 12:00:00";
        Search.mkResult "/r/sub/a4" "a4" 4 "2024-03-20 12:00:00";
        Search.mkResult "/r/a6" "a6" 6 "2024-03-20 12:00:00" ]
      None [Go.CallStat "/r"; Go.CallWalk "/r"].
Proof. vm_compute. reflexivity. Qed.

(** C7. In both snapshots, without recursion, on a root that is a directory
    (listing names of entries): every record returned is the record of a file
    listed in the root itself, and its path is the root joined with its
    name. *)
Theorem SearchFiles_nonrecursive :
  forall (s : Both.snapshot) (lower_table : Go.rune -> Go.rune) (pattern root : string)
         (opts : Search.SearchOptions) (fs : Go.FS)
         name mt rd es (r : Search.SearchResult),
    Search.Recursive opts = false ->
    Go.tree fs = Go.Dir name mt rd es ->
    Forall (fun c => Go.valid_name (Go.node_name c) = true) es ->
    In r (Search.results (Both.SearchFiles s lower_table pattern root opts fs)) ->
    exists size mtime,
      In (Go.File (Search.Name r) size mtime) es
      /\ Search.Path r = Go.Join root (Search.Name r).
Proof.
  intros s lower_table pattern root opts fs name mt rd es r Hrec Htree Hnames Hr.
  apply WalkFacts.Both_results_collect in Hr. rewrite Htree in Hr.
  eapply SearchFacts.collect_nonrecursive; eassumption.
Qed.

(** Without recursion the search of the example tree returns the file of the
    root only. *)
Example SearchFiles_nonrecursive_example :
  Search.results (DisplayGo.SearchFiles Demo.cyrillic_lower "2024" Demo.demo_root
                    Demo.flat Demo.demo_fs)
  = [Search.mkResult "/tmp/searchbot_test/notes-2024.txt" "notes-2024.txt" 5
                     "2024-03-20 12:00:00"].
Proof. vm_compute. reflexivity. Qed.

(** A root that is not a directory is reported to the function literal as a
    file: its own record is returned when its name matches. *)
Example SearchFiles_root_file :
  Search.results (DisplayGo.SearchFiles Demo.cyrillic_lower "notes" "/srv/data/notes.txt"
                    Demo.flat (Go.mkFS true (Go.File "notes.txt" 4 Demo.noon)))
  = [Search.mkResult "/srv/data/notes.txt" "notes.txt" 4 "2024-03-20 12:00:00"].
Proof. vm_compute. reflexivity. Qed.

Lemma SearchFiles_nonrecursive_witness :
  exists size mtime,
    In (Go.File "notes-2024.txt" size mtime)
       [ Go.File "top.txt" 1 Demo.noon;
         Go.Dir "sub" Demo.noon true [Go.File "notes-2024.txt" 9 Demo.noon];
         Go.File "notes-2024.txt" 5 Demo.noon ]
    /\ "/srv/data/notes-2024.txt" = Go.Join "/srv/data/" "notes-2024.txt".
Proof.
  refine (SearchFiles_nonrecursive Both.display_go Demo.cyrillic_lower "2024"
            "/srv/data/" Demo.flat
            (Go.mkFS true
               (Go.Dir "data" Demo.noon true
                  [ Go.File "top.txt" 1 Demo.noon;
                    Go.Dir "sub" Demo.noon true [Go.File "notes-2024.txt" 9 Demo.noon];
                    Go.File "notes-2024.txt" 5 Demo.noon ]))
            "data" Demo.noon true _
            (Search.mkResult "/srv/data/notes-2024.txt" "notes-2024.txt" 5
                             "2024-03-20 12:00:00")
            eq_refl eq_refl _ _).
  - repeat constructor.
  - vm_compute. left. reflexivity.
Defined.

(** C9, as amended. In both snapshots, on a non-empty pattern, when
    [os.Stat(root)] succeeds, the root is a directory and its base name
    starts with a dot or is one of [node_modules], [Library], [System],
    [Applications]: [SearchFiles] returns no record and no error, in every
    configuration. *)
Theorem SearchFiles_skipped_root :
  forall (s : Both.snapshot) (lower_table : Go.rune -> Go.rune) (pattern root : string)
         (opts : Search.SearchOptions) (fs : Go.FS),
    pattern <> "" -> Go.stat_ok fs = true ->
    Go.node_is_dir (Go.tree fs) = true ->
    Spec.skip_rule (Go.Base root) ->
    Search.results (Both.SearchFiles s lower_table pattern root opts fs) = []
    /\ Search.err (Both.SearchFiles s lower_table pattern root opts fs) = None.
Proof.
  intros s lower_table pattern root opts fs Hp Hs Hdir Hskip.
  destruct (WalkFacts.Both_SearchFiles_outcome lower_table pattern root opts s fs Hp Hs)
    as [-> ->].
  split; [|reflexivity].
  apply SearchFacts.collect_skipped_root; [exact Hdir|].
  apply SearchFacts.shouldSkipDirectory_spec, Hskip.
Qed.

Lemma SearchFiles_skipped_root_witness :
  "config" <> "" /\ Go.stat_ok Demo.git_fs = true
  /\ Go.node_is_dir (Go.tree Demo.git_fs) = true
  /\ Spec.skip_rule (Go.Base Demo.git_root)
  /\ Search.results (DisplayGo.SearchFiles Demo.cyrillic_lower "config" Demo.git_root
                       Demo.defaults Demo.git_fs) = []
  /\ Search.err (DisplayGo.SearchFiles Demo.cyrillic_lower "config" Demo.git_root
                   Demo.defaults Demo.git_fs) = None.
Proof.
  assert (Hp : "config" <> "") by discriminate.
  assert (Hskip : Spec.skip_rule (Go.Base Demo.git_root)) by (left; reflexivity).
  split; [exact Hp|]. split; [reflexivity|]. split; [reflexivity|].
  split; [exact Hskip|].
  exact (SearchFiles_skipped_root Both.display_go Demo.cyrillic_lower "config"
           Demo.git_root Demo.defaults Demo.git_fs Hp eq_refl eq_refl Hskip).
Defined.

(** C9, as stated, fails on the empty pattern: the root [.git] is a directory
    that the skip rule excludes, and [SearchFiles] of [display.go] returns
    [ErrEmptyPattern] for it. *)
Lemma SearchFiles_skipped_root_empty_pattern :
  Go.node_is_dir (Go.tree Demo.git_fs) = true
  /\ Spec.skip_rule (Go.Base Demo.git_root)
  /\ Search.err (DisplayGo.SearchFiles Demo.cyrillic_lower "" Demo.git_root
                   Demo.defaults Demo.git_fs)
     = Some DisplayGo.ErrEmptyPattern
  /\ ~ (forall pattern : string,
          Search.results (DisplayGo.SearchFiles Demo.cyrillic_lower pattern Demo.git_root
                            Demo.defaults Demo.git_fs) = []
          /\ Search.err (DisplayGo.SearchFiles Demo.cyrillic_lower pattern Demo.git_root
                           Demo.defaults Demo.git_fs) = None).
Proof.
  split; [reflexivity|]. split; [left; reflexivity|].
  split; [reflexivity|]. intros H. destruct (H "") as [_ He]. discriminate He.
Qed.

(** [SearchFiles] of [src/unnamed/part_001] has no check of the pattern: a
    root that is a skipped directory gives no record and no error for every
    pattern, the empty one too. *)
Lemma Part001_skipped_root lower_table pattern root opts fs :
  Go.node_is_dir (Go.tree fs) = true ->
  Spec.skip_rule (Go.Base root) ->
  Part001.SearchFiles lower_table pattern root opts fs
  = Search.mkOutcome [] None [Go.CallWalk root].
Proof.
  intros Hdir Hskip. rewrite WalkFacts.Part001_SearchFiles_outcome.
  rewrite SearchFacts.collect_skipped_root; [reflexivity|exact Hdir|].
  apply SearchFacts.shouldSkipDirectory_spec, Hskip.
Qed.

(** ** The order of strings and [sort.Slice] *)

Module SortFacts.
Import Go.

Lemma string_compare_refl (a : string) : String.compare a a = Eq.
Proof.
  induction a as [|x a IH]; simpl; [reflexivity|].
  unfold Ascii.compare. rewrite N.compare_refl. exact IH.
Qed.

Lemma string_compare_trans (a : string) :
  forall b c, String.compare a b = Lt -> String.compare b c = Lt -> String.compare a c = Lt.
Proof.
  induction a as [|x a IH]; intros [|y b] [|z c]; simpl; try discriminate; auto.
  unfold Ascii.compare.
  destruct (N.compare_spec (N_of_ascii x) (N_of_ascii y)) as [Hxy|Hxy|Hxy],
           (N.compare_spec (N_of_ascii y) (N_of_ascii z)) as [Hyz|Hyz|Hyz],
           (N.compare_spec (N_of_ascii x) (N_of_ascii z)) as [Hxz|Hxz|Hxz];
    try discriminate; try lia; auto.
  apply IH.
Qed.

Lemma ltb_irrefl (a : string) : String.ltb a a = false.
Proof. unfold String.ltb. rewrite string_compare_refl. reflexivity. Qed.

Lemma ltb_trans (a b c : string) :
  String.ltb a b = true -> String.ltb b c = true -> String.ltb a c = true.
Proof.
  unfold String.ltb. intros Hab Hbc.
  destruct (String.compare a b) eqn:Eab; try discriminate.
  destruct (String.compare b c) eqn:Ebc; try discriminate.
  rewrite (string_compare_trans a b c Eab Ebc). reflexivity.
Qed.

Lemma ltb_negtrans (a b c : string) :
  String.ltb a b = false -> String.ltb b c = false -> String.ltb a c = false.
Proof.
  unfold String.ltb. intros Hab Hbc.
  destruct (String.compare a c) eqn:Eac; try reflexivity. exfalso.
  destruct (String.compare a b) eqn:Eab; try discriminate.
  - apply String.compare_eq_iff in Eab. subst b. rewrite Eac in Hbc. discriminate.
  - assert (Eba : String.compare b a = Lt).
    { rewrite String.compare_antisym, Eab. reflexivity. }
    rewrite (string_compare_trans b a c Eba Eac) in Hbc. discriminate.
Qed.

Lemma ltb_false_leb (a b : string) : String.ltb b a = false -> String.leb a b = true.
Proof.
  unfold String.ltb, String.leb. rewrite (String.compare_antisym b a).
  destruct (String.compare a b); simpl; congruence.
Qed.

(** The comparison of [PrintResults] is a strict weak order. *)
Lemma less_Name_order : strict_weak_order Display.less_Name.
Proof.
  unfold Display.less_Name. constructor; intros.
  - apply ltb_irrefl.
  - eapply ltb_trans; eassumption.
  - eapply ltb_negtrans; eassumption.
Qed.

(** *** The insertion sort is a [Sorter] *)

Section Insertion.
Context {A : Type} (less : A -> A -> bool).

Lemma insert_right_perm (x : A) (acc : list A) :
  Permutation (x :: acc) (insert_right less x acc).
Proof.
  induction acc as [|y r IH]; simpl; [reflexivity|].
  destruct (less x y); [|reflexivity].
  rewrite perm_swap. constructor. exact IH.
Qed.

Lemma insertion_fold_perm (l : list A) :
  forall acc, Permutation (l ++ acc)
                (fold_left (fun acc x => insert_right less x acc) l acc).
Proof.
  induction l as [|x l IH]; intros acc; simpl; [reflexivity|].
  rewrite <- IH. rewrite <- insert_right_perm.
  apply Permutation_middle.
Qed.

Lemma insertion_sort_perm (l : list A) : Permutation l (insertion_sort less l).
Proof.
  unfold insertion_sort. rewrite <- Permutation_rev.
  rewrite <- insertion_fold_perm, app_nil_r. reflexivity.
Qed.

Hypothesis order : strict_weak_order less.

Lemma less_asym (a b : A) : less a b = true -> less b a = false.
Proof.
  intros Hab. destruct (less b a) eqn:Hba; [|reflexivity].
  rewrite <- (swo_irrefl less order a). symmetry.
  eapply (swo_trans less order); eassumption.
Qed.

(** The sorted prefix, the last element first. *)
Local Abbreviation descending := (StronglySorted (fun a b => less a b = false)).

Lemma insert_right_sorted (x : A) (acc : list A) :
  descending acc -> descending (insert_right less x acc).
Proof.
  induction acc as [|y r IH]; intros Hs; simpl.
  - repeat constructor.
  - inversion Hs as [|? ? Hr Hy]; subst.
    destruct (less x y) eqn:Hxy.
    + constructor; [apply IH, Hr|].
      apply Forall_forall. intros z Hz.
      apply (Permutation_in _ (Permutation_sym (insert_right_perm x r))) in Hz.
      destruct Hz as [<-|Hz]; [apply less_asym, Hxy|].
      exact (proj1 (Forall_forall _ _) Hy z Hz).
    + constructor; [exact Hs|].
      constructor; [exact Hxy|].
      apply Forall_forall. intros z Hz.
      eapply (swo_negtrans less order); [exact Hxy|].
      exact (proj1 (Forall_forall _ _) Hy z Hz).
Qed.

Lemma insertion_fold_sorted (l : list A) :
  forall acc, descending acc ->
              descending (fold_left (fun acc x => insert_right less x acc) l acc).
Proof.
  induction l as [|x l IH]; intros acc Hs; simpl; [exact Hs|].
  apply IH, insert_right_sorted, Hs.
Qed.

Lemma sorted_snoc (R : A -> A -> Prop) (l : list A) (a : A) :
  StronglySorted R l -> Forall (fun b => R b a) l -> StronglySorted R (l ++ [a]).
Proof.
  induction 1 as [|b l Hl IH Hb]; intros Ha; simpl.
  - repeat constructor.
  - inversion Ha; subst. constructor; [apply IH; assumption|].
    apply Forall_app. split; [exact Hb|]. repeat constructor. assumption.
Qed.

Lemma sorted_rev (l : list A) :
  descending l -> StronglySorted (fun a b => less b a = false) (rev l).
Proof.
  induction 1 as [|a l Hl IH Ha]; simpl; [constructor|].
  apply sorted_snoc; [exact IH|].
  apply Forall_forall. intros b Hb. apply in_rev in Hb.
  exact (proj1 (Forall_forall _ _) Ha b Hb).
Qed.

Lemma insertion_sort_sorted (l : list A) :
  StronglySorted (fun a b => less b a = false) (insertion_sort less l).
Proof. apply sorted_rev, insertion_fold_sorted. constructor. Qed.

End Insertion.

#[export] Instance InsertionSorter : Sorter := {|
  sort_Slice := @insertion_sort;
  sort_Slice_perm := @insertion_sort_perm;
  sort_Slice_sorted := fun A less l order => @insertion_sort_sorted A less order l
|}.

End SortFacts.

(** ** [PrintResults] *)

Module PrintFacts.
Import Go Search Display Int64Facts.

Lemma wrap64_add_l (a b : Z) : wrap64 (wrap64 a + b) = wrap64 (a + b).
Proof.
  unfold wrap64. f_equal.
  replace ((a + 2 ^ 63) mod 2 ^ 64 - 2 ^ 63 + b + 2 ^ 63)
    with ((a + 2 ^ 63) mod 2 ^ 64 + b) by lia.
  rewrite Z.add_mod_idemp_l by lia. f_equal. lia.
Qed.

Lemma total_size_fold (l : list SearchResult) :
  forall a, int64_range a ->
    fold_left (fun totalSize result => wrap64 (totalSize + Size result)) l a
    = wrap64 (a + Spec.sum_sizes l).
Proof.
  induction l as [|r l IH]; intros a Ha; simpl.
  - rewrite Z.add_0_r, wrap64_id; auto.
  - rewrite IH by apply wrap64_range.
    rewrite wrap64_add_l. f_equal. lia.
Qed.

(** The total of [PrintResults] is the sum of the sizes, wrapped to [int64]. *)
Lemma total_size_sum (l : list SearchResult) :
  total_size l = wrap64 (Spec.sum_sizes l).
Proof.
  unfold total_size. rewrite total_size_fold; [reflexivity|].
  unfold int64_range, MinInt64, MaxInt64. lia.
Qed.

Lemma sum_sizes_perm (l l' : list SearchResult) :
  Permutation l l' -> Spec.sum_sizes l = Spec.sum_sizes l'.
Proof. induction 1; simpl; lia. Qed.

Lemma Forall2_In_l {A B : Type} (R : A -> B -> Prop) (l : list A) (l' : list B) (a : A) :
  Forall2 R l l' -> In a l -> exists b, In b l' /\ R a b.
Proof.
  induction 1 as [|x y l l' Hxy _ IH]; intros Hin; [destruct Hin|].
  destruct Hin as [<-|Hin].
  - exists y. split; [left; reflexivity|exact Hxy].
  - destruct (IH Hin) as (b & Hb & HR). exists b. split; [right; exact Hb|exact HR].
Qed.

Lemma sorted_by_name (l : list SearchResult) :
  StronglySorted (fun a b => less_Name b a = false) l -> StronglySorted Spec.name_le l.
Proof.
  induction 1 as [|a l Hl IH Ha]; constructor; [exact IH|].
  eapply Forall_impl; [|exact Ha].
  intros b Hb. apply SortFacts.ltb_false_leb, Hb.
Qed.

(** *** Neither revision of [FormatSize] and [truncateString] panics in
    [PrintResults] *)

Lemma DisplayGo_FormatSize_total (size : Z) :
  int64_range size -> exists out, DisplayGo.FormatSize size = Some out.
Proof.
  intros Hr. unfold DisplayGo.FormatSize.
  destruct (Z.ltb_spec size unit); [eexists; reflexivity|].
  apply FormatSizeFacts.format_units_total. unfold int64_range, unit in *. lia.
Qed.

Lemma Both_FormatSize_total (s : Both.snapshot) (size : Z) :
  int64_range size -> exists out, Both.FormatSize s size = Some out.
Proof.
  destruct s; [apply DisplayGo_FormatSize_total|apply FormatSizeFacts.FormatSize_total].
Qed.

Lemma Both_truncateString_total (s : Both.snapshot) (str : string) :
  exists out, Both.truncateString s str 47 = Some out.
Proof.
  destruct s; cbn [Both.truncateString]; [|eexists; reflexivity].
  unfold DisplayGo.truncateString, slice_to.
  destruct (Z.leb_spec (len str) 47); [eexists; reflexivity|].
  change (47 - 3) with 44.
  destruct (Z.ltb_spec (len str) 44); [lia|]. eexists. reflexivity.
Qed.

Lemma Both_PrintResults_body {sorter : Sorter} (s : Both.snapshot) (results : list SearchResult) :
  Both.PrintResults s results
  = Display.PrintResults (Both.FormatSize s) (Both.truncateString s) results.
Proof. destruct s; reflexivity. Qed.

Section Snapshot.
Context {sorter : Sorter} (s : Both.snapshot).

Local Abbreviation is_row := (Spec.is_row s).

(** Every row is printed when the sizes are sizes of [int64]. *)
Lemma print_rows_total (l : list SearchResult) :
  Forall (fun r => int64_range (Size r)) l ->
  exists rows,
    print_rows (Both.FormatSize s) (Both.truncateString s) l = Some rows
    /\ Forall2 is_row l rows.
Proof.
  induction 1 as [|r l Hr _ (rows & Hrows & Hall)].
  - exists []. split; [reflexivity|constructor].
  - destruct (Both_FormatSize_total s _ Hr) as [size Hsize].
    destruct (Both_truncateString_total s (Name r)) as [name Hname].
    exists (Plain (Spec.row_of name size r) :: rows). split.
    + cbn [print_rows]. unfold print_row. rewrite Hname, Hsize, Hrows. reflexivity.
    + constructor; [|exact Hall]. exists name, size. auto.
Qed.

(** What [PrintResults] does on a slice that is not empty. *)
Lemma PrintResults_nonempty (results : list SearchResult) :
  Forall (fun r => int64_range (Size r)) results ->
  results <> [] ->
  exists sorted total rows,
    Both.PrintResults s results
    = Some (sorted,
            ([Colored Green (nl ++ "Found " ++ fmt_d (Z.of_nat (List.length results))
                             ++ " files (Total size: " ++ total ++ ")" ++ nl);
              rule_line;
              Colored Blue (fmt_pad 50 "NAME" ++ " " ++ fmt_pad 20 "SIZE" ++ " "
                            ++ fmt_pad 15 "MODIFIED" ++ " " ++ "PATH" ++ nl);
              rule_line]
             ++ rows ++ [rule_line])%list)
    /\ Both.FormatSize s (wrap64 (Spec.sum_sizes results)) = Some total
    /\ Permutation results sorted
    /\ StronglySorted Spec.name_le sorted
    /\ Forall2 is_row sorted rows.
Proof.
  intros Hrange Hne.
  rewrite Both_PrintResults_body. unfold Display.PrintResults.
  destruct results as [|r0 rest] eqn:E; [contradiction|]. rewrite <- E in *.
  assert (Hlen : (Z.of_nat (List.length results) =? 0) = false).
  { apply Z.eqb_neq. subst results. simpl. lia. }
  rewrite Hlen.
  pose proof (sort_Slice_perm _ less_Name results) as Hperm.
  pose proof (sort_Slice_sorted _ less_Name results SortFacts.less_Name_order) as Hsorted.
  set (sorted := sort_Slice less_Name results) in *.
  assert (Hrange' : Forall (fun r => int64_range (Size r)) sorted).
  { apply Forall_forall. intros r Hr.
    apply (Permutation_in _ (Permutation_sym Hperm)) in Hr.
    exact (proj1 (Forall_forall _ _) Hrange r Hr). }
  destruct (Both_FormatSize_total s (total_size sorted)) as [total Htotal].
  { rewrite total_size_sum. apply wrap64_range. }
  destruct (print_rows_total sorted Hrange') as (rows & Hrows & Hall).
  exists sorted, total, rows.
  rewrite Htotal, Hrows.
  rewrite <- (Permutation_length Hperm).
  split; [reflexivity|]. split.
  - rewrite <- Htotal, total_size_sum, (sum_sizes_perm _ _ Hperm). reflexivity.
  - split; [exact Hperm|]. split; [apply sorted_by_name, Hsorted|exact Hall].
Qed.

End Snapshot.

(** On sizes from the unit on that are not negative, the two revisions of
    [FormatSize] agree. *)
Lemma Both_FormatSize_positive (s : Both.snapshot) (size : Z) :
  0 < size -> Both.FormatSize s size = Part000.FormatSize size.
Proof.
  intros Hpos. destruct s; [|reflexivity].
  unfold Both.FormatSize, DisplayGo.FormatSize, Part000.FormatSize.
  destruct (Z.eqb_spec size 0); [lia|].
  destruct (Z.ltb_spec size 0); [lia|]. reflexivity.
Qed.

End PrintFacts.

(** What is printed for the two records of [TestPrintResults], given the
    second one first, with the insertion sort of short slices: the slice is
    left in the order of the names. *)
Example PrintResults_two_records :
  option_map (fun p => (fst p, Display.output_text (snd p)))
             (Part000.PrintResults (sorter := SortFacts.InsertionSorter) [file2; file1])
  = Some ([file1; file2],
          Go.nl ++ "Found 2 files (Total size: 3.0 KB)" ++ Go.nl
          ++ Go.Repeat "-" 100 ++ Go.nl
          ++ "NAME                                               SIZE                 MODIFIED        PATH" ++ Go.nl
          ++ Go.Repeat "-" 100 ++ Go.nl
          ++ "file1.txt                                          1.0 KB               2024-03-20 10:00:00 /path/to/file1.txt" ++ Go.nl
          ++ "file2.txt                                          2.0 KB               2024-03-20 11:00:00 /path/to/file2.txt" ++ Go.nl
          ++ Go.Repeat "-" 100 ++ Go.nl).
Proof. vm_compute. reflexivity. Qed.

(** [PrintResults] of [src/pkg/display/display.go] prints the same text for
    them. *)
Example DisplayGo_PrintResults_two_records :
  DisplayGo.PrintResults (sorter := SortFacts.InsertionSorter) [file2; file1]
  = Part000.PrintResults (sorter := SortFacts.InsertionSorter) [file2; file1].
Proof. vm_compute. reflexivity. Qed.

(** C8. [PrintResults], in both snapshots and with every sort, on records
    whose sizes are [int64]: on an empty slice it prints the line "No files
    found" and nothing else; on a slice of N records it prints the header
    "Found N files (Total size: S)", S being [FormatSize] of the sum of the
    sizes in [int64], the rule, the column titles, the rule, one row per
    record in ascending order of the names, and the rule; for two records of
    1024 and 2048 bytes the header reports "3.0 KB" and the rows show
    "1.0 KB" and "2.0 KB". *)
Theorem PrintResults_report :
  forall (sorter : Go.Sorter) (s : Both.snapshot) (results : list Search.SearchResult),
    Forall (fun r => Go.int64_range (Search.Size r)) results ->
    (results = [] ->
       Both.PrintResults s results
       = Some ([], [Display.Colored Display.Yellow (Go.nl ++ "No files found" ++ Go.nl)]))
    /\ (results <> [] ->
        exists sorted total rows,
          Both.PrintResults s results
          = Some (sorted,
                  ([Display.Colored Display.Green
                      (Go.nl ++ "Found " ++ Go.fmt_d (Z.of_nat (List.length results))
                       ++ " files (Total size: " ++ total ++ ")" ++ Go.nl);
                    Display.rule_line;
                    Display.Colored Display.Blue
                      (Go.fmt_pad 50 "NAME" ++ " " ++ Go.fmt_pad 20 "SIZE" ++ " "
                       ++ Go.fmt_pad 15 "MODIFIED" ++ " " ++ "PATH" ++ Go.nl);
                    Display.rule_line]
                   ++ rows ++ [Display.rule_line])%list)
          /\ Both.FormatSize s (Go.wrap64 (Spec.sum_sizes results)) = Some total
          /\ Permutation results sorted
          /\ StronglySorted Spec.name_le sorted
          /\ Forall2 (Spec.is_row s) sorted rows)
    /\ (forall r1 r2,
          results = [r1; r2] -> Search.Size r1 = 1024 -> Search.Size r2 = 2048 ->
          exists sorted rows name1 name2,
            Both.PrintResults s results
            = Some (sorted,
                    (Display.Colored Display.Green
                       (Go.nl ++ "Found 2 files (Total size: 3.0 KB)" ++ Go.nl)
                     :: Display.rule_line
                     :: Display.Colored Display.Blue
                          (Go.fmt_pad 50 "NAME" ++ " " ++ Go.fmt_pad 20 "SIZE" ++ " "
                           ++ Go.fmt_pad 15 "MODIFIED" ++ " " ++ "PATH" ++ Go.nl)
                     :: Display.rule_line :: rows ++ [Display.rule_line])%list)
            /\ In (Display.Plain (Spec.row_of name1 "1.0 KB" r1)) rows
            /\ In (Display.Plain (Spec.row_of name2 "2.0 KB" r2)) rows
            /\ List.length rows = 2%nat).
Proof.
  intros sorter s results Hrange. split; [|split].
  - intros ->. destruct s; reflexivity.
  - intros Hne. apply PrintFacts.PrintResults_nonempty; assumption.
  - intros r1 r2 -> H1 H2.
    destruct (PrintFacts.PrintResults_nonempty s [r1; r2] Hrange)
      as (sorted & total & rows & Hout & Htotal & Hperm & _ & Hrows);
      [discriminate|].
    cbn [Spec.sum_sizes fold_right] in Htotal. rewrite H1, H2 in Htotal.
    rewrite PrintFacts.Both_FormatSize_positive in Htotal by (vm_compute; reflexivity).
    vm_compute in Htotal. injection Htotal as <-.
    assert (Hin : forall r size,
               In r [r1; r2] -> 0 < Search.Size r ->
               Part000.FormatSize (Search.Size r) = Some size ->
               exists name, In (Display.Plain (Spec.row_of name size r)) rows).
    { intros r size Hr Hpos Hsize.
      apply (Permutation_in _ Hperm) in Hr.
      destruct (PrintFacts.Forall2_In_l _ _ _ _ Hrows Hr)
        as (row & Hrow & name & size' & _ & Hs & ->).
      rewrite PrintFacts.Both_FormatSize_positive, Hsize in Hs by exact Hpos.
      injection Hs as <-. exists name. exact Hrow. }
    destruct (Hin r1 "1.0 KB") as [name1 Hrow1];
      [left; reflexivity|lia|rewrite H1; vm_compute; reflexivity|].
    destruct (Hin r2 "2.0 KB") as [name2 Hrow2];
      [right; left; reflexivity|lia|rewrite H2; vm_compute; reflexivity|].
    exists sorted, rows, name1, name2.
    split; [exact Hout|]. split; [exact Hrow1|]. split; [exact Hrow2|].
    rewrite <- (Forall2_length Hrows), <- (Permutation_length Hperm). reflexivity.
Qed.

Lemma PrintResults_report_witness :
  Forall (fun r => Go.int64_range (Search.Size r)) [file1; file2]
  /\ Search.Size file1 = 1024 /\ Search.Size file2 = 2048
  /\ exists sorted rows name1 name2,
       Part000.PrintResults (sorter := SortFacts.InsertionSorter) [file1; file2]
       = Some (sorted,
               (Display.Colored Display.Green
                  (Go.nl ++ "Found 2 files (Total size: 3.0 KB)" ++ Go.nl)
                :: Display.rule_line
                :: Display.Colored Display.Blue
                     (Go.fmt_pad 50 "NAME" ++ " " ++ Go.fmt_pad 20 "SIZE" ++ " "
                      ++ Go.fmt_pad 15 "MODIFIED" ++ " " ++ "PATH" ++ Go.nl)
                :: Display.rule_line :: rows ++ [Display.rule_line])%list)
       /\ In (Display.Plain (Spec.row_of name1 "1.0 KB" file1)) rows
       /\ In (Display.Plain (Spec.row_of name2 "2.0 KB" file2)) rows
       /\ List.length rows = 2%nat.
Proof.
  assert (Hrange : Forall (fun r => Go.int64_range (Search.Size r)) [file1; file2]).
  { repeat constructor; unfold Go.MinInt64, Go.MaxInt64; simpl; lia. }
  split; [exact Hrange|]. split; [reflexivity|]. split; [reflexivity|].
  exact (proj2 (proj2 (PrintResults_report SortFacts.InsertionSorter Both.unnamed_parts
                         [file1; file2] Hrange))
               file1 file2 eq_refl eq_refl eq_refl).
Defined.

(** C10. [PrintResults], in both snapshots and with every sort, sorts the
    slice of the caller: when it returns, the slice holds the same records,
    each one unchanged and as many times as before, in ascending order of
    the names. *)
Theorem PrintResults_sorts_in_place :
  forall (sorter : Go.Sorter) (s : Both.snapshot) (results : list Search.SearchResult),
    Forall (fun r => Go.int64_range (Search.Size r)) results ->
    exists final output,
      Both.PrintResults s results = Some (final, output)
      /\ Permutation results final
      /\ StronglySorted Spec.name_le final.
Proof.
  intros sorter s results Hrange.
  destruct results as [|r rest] eqn:E.
  - exists [], [Display.Colored Display.Yellow (Go.nl ++ "No files found" ++ Go.nl)].
    split; [destruct s; reflexivity|]. split; constructor.
  - rewrite <- E in *.
    destruct (PrintFacts.PrintResults_nonempty s results Hrange)
      as (sorted & total & rows & Hout & _ & Hperm & Hsorted & _);
      [subst; discriminate|].
    eexists sorted, _. split; [exact Hout|]. split; assumption.
Qed.

Lemma PrintResults_sorts_in_place_witness :
  Forall (fun r => Go.int64_range (Search.Size r)) [file2; file1]
  /\ exists final output,
       Part000.PrintResults (sorter := SortFacts.InsertionSorter) [file2; file1]
       = Some (final, output)
       /\ Permutation [file2; file1] final
       /\ StronglySorted Spec.name_le final.
Proof.
  assert (Hrange : Forall (fun r => Go.int64_range (Search.Size r)) [file2; file1]).
  { repeat constructor; unfold Go.MinInt64, Go.MaxInt64; simpl; lia. }
  split; [exact Hrange|].
  exact (PrintResults_sorts_in_place SortFacts.InsertionSorter Both.unnamed_parts
           [file2; file1] Hrange).
Defined.

(** * More about the code: units, columns, paths, the command and the tests *)

(** ** The loop of [FormatSize] *)

Module UnitFacts.
Import Go Search Display Int64Facts.

(** The loop of [FormatSize] divides as often as the size holds the unit. *)
Lemma unit_loop_exact (k : nat) :
  forall (fuel : nat) (n div exp : Z),
    1024 ^ Z.of_nat k <= n < 1024 ^ (Z.of_nat k + 1) -> (k <= fuel)%nat ->
    0 <= div -> div * 1024 ^ Z.of_nat k <= MaxInt64 ->
    unit_loop fuel n div exp = Some (div * 1024 ^ Z.of_nat k, exp + Z.of_nat k).
Proof.
  induction k as [|k IH]; intros fuel n div exp Hn Hfuel Hdiv Hmax.
  - change (1024 ^ Z.of_nat 0) with 1 in *. change (1024 ^ (Z.of_nat 0 + 1)) with 1024 in Hn.
    destruct fuel; cbn [unit_loop]; unfold unit;
      destruct (Z.geb_spec n 1024); try lia; rewrite Z.mul_1_r, Z.add_0_r; reflexivity.
  - assert (Hpow : 0 < 1024 ^ Z.of_nat k) by (apply Z.pow_pos_nonneg; lia).
    rewrite Nat2Z.inj_succ in *.
    rewrite Z.pow_succ_r in * by lia.
    replace (Z.succ (Z.of_nat k) + 1) with (Z.succ (Z.of_nat k + 1)) in Hn by lia.
    rewrite Z.pow_succ_r in Hn by lia.
    destruct fuel as [|fuel]; [lia|].
    cbn [unit_loop]. unfold unit.
    destruct (Z.geb_spec n 1024); [|nia].
    rewrite Z.quot_div_nonneg by lia.
    rewrite wrap64_id by (unfold int64_range, MinInt64, MaxInt64 in *; nia).
    rewrite IH.
    + f_equal. f_equal; lia.
    + split.
      * apply Z.div_le_lower_bound; lia.
      * apply Z.div_lt_upper_bound; lia.
    + lia.
    + lia.
    + nia.
Qed.

Lemma loop_fuel_enough (k : nat) (n : Z) :
  1024 ^ Z.of_nat k <= n -> (k <= loop_fuel n)%nat.
Proof.
  intros Hn. unfold loop_fuel.
  assert (Z.of_nat k <= Z.log2 n); [|lia].
  change 1024 with (2 ^ 10) in Hn. rewrite <- Z.pow_mul_r in Hn by lia.
  apply Z.log2_le_mono in Hn. rewrite Z.log2_pow2 in Hn by lia. lia.
Qed.

Lemma format_units_exact (sign : string) (size : Z) (k : nat) :
  (k <= 5)%nat ->
  1024 ^ (Z.of_nat k + 1) <= size < 1024 ^ (Z.of_nat k + 2) ->
  exists c,
    index_byte "KMGTPE" (Z.of_nat k) = Some c
    /\ format_units sign size
       = Some (sign ++ fmt_f1 (float64_div (float64_of_int size)
                                            (float64_of_int (1024 ^ (Z.of_nat k + 1))))
                    ++ " " ++ String c "B").
Proof.
  intros Hk Hsize. unfold format_units, unit.
  assert (Hpow : 0 < 1024 ^ Z.of_nat k) by (apply Z.pow_pos_nonneg; lia).
  assert (E1 : 1024 ^ (Z.of_nat k + 1) = 1024 * 1024 ^ Z.of_nat k)
    by (rewrite Z.pow_add_r by lia; lia).
  assert (E2 : 1024 ^ (Z.of_nat k + 2) = 1024 * (1024 * 1024 ^ Z.of_nat k))
    by (rewrite Z.pow_add_r by lia; lia).
  rewrite Z.quot_div_nonneg by lia.
  assert (Hn : 1024 ^ Z.of_nat k <= size / 1024 < 1024 ^ (Z.of_nat k + 1)).
  { split; [apply Z.div_le_lower_bound; lia|apply Z.div_lt_upper_bound; lia]. }
  rewrite (unit_loop_exact k) with (div := 1024); try lia.
  - rewrite Z.add_0_l, <- E1.
    assert (Hc : exists c, index_byte "KMGTPE" (Z.of_nat k) = Some c).
    { do 6 (destruct k as [|k]; [eexists; reflexivity|]). lia. }
    destruct Hc as [c Hc]. exists c. rewrite Hc. split; reflexivity.
  - apply loop_fuel_enough. lia.
  - rewrite <- E1. unfold MaxInt64.
    apply Z.le_trans with (1024 ^ 6); [|vm_compute; discriminate].
    apply Z.pow_le_mono_r; lia.
Qed.

End UnitFacts.

(** ** Strings of ASCII bytes, bytes and runes *)

Module AsciiFacts.
Import Go Utf8Facts.

Lemma byte_val_range (c : ascii) : 0 <= byte_val c < 256.
Proof.
  unfold byte_val. pose proof (N_ascii_bounded c) as H. lia.
Qed.

Lemma byte_of_byte_val (c : ascii) : byte_of (byte_val c) = c.
Proof. unfold byte_of, byte_val. rewrite N2Z.id. apply ascii_N_embedding. Qed.

Lemma of_bytes_bytes (s : string) : of_bytes (bytes s) = s.
Proof.
  induction s as [|c s IH]; [reflexivity|].
  cbn [bytes of_bytes]. rewrite byte_of_byte_val, IH. reflexivity.
Qed.

Lemma len_bytes (s : string) : List.length (bytes s) = String.length s.
Proof. induction s as [|c s IH]; cbn [bytes List.length String.length]; congruence. Qed.

Lemma isASCII_cons (c : ascii) (s : string) :
  isASCII (String c s) = (byte_val c <? 128) && isASCII s.
Proof. reflexivity. Qed.

(** On a string of ASCII bytes every byte is a rune. *)
Lemma runes_ascii (s : string) : isASCII s = true -> runes s = bytes s.
Proof.
  unfold runes. induction s as [|c s IH]; [reflexivity|].
  rewrite isASCII_cons. intros H. apply andb_prop in H as [Hc Hs].
  cbn [bytes runes_from]. unfold DecodeRune. rewrite Hc.
  cbn [Nat.sub]. rewrite (IH Hs). reflexivity.
Qed.

Lemma RuneCount_ascii (s : string) : isASCII s = true -> RuneCountInString s = len s.
Proof.
  intros H. unfold RuneCountInString, len. rewrite (runes_ascii s H), len_bytes. reflexivity.
Qed.

Lemma string_of_runes_ascii (s : string) :
  isASCII s = true ->
  forall k, string_of_runes (firstn k (bytes s)) = take_bytes k s.
Proof.
  unfold string_of_runes. induction s as [|c s IH]; intros H k.
  - destruct k; reflexivity.
  - rewrite isASCII_cons in H. apply andb_prop in H as [Hc Hs].
    destruct k as [|k]; [reflexivity|].
    cbn [bytes firstn flat_map take_bytes].
    assert (E : EncodeRune (byte_val c) = [byte_val c]).
    { unfold EncodeRune. pose proof (byte_val_range c). apply Z.ltb_lt in Hc.
      decide_tests. reflexivity. }
    rewrite E. cbn [app of_bytes]. rewrite byte_of_byte_val, (IH Hs). reflexivity.
Qed.

Lemma length_take_bytes (k : nat) :
  forall s, (k <= String.length s)%nat -> String.length (take_bytes k s) = k.
Proof.
  induction k as [|k IH]; intros s H; [reflexivity|].
  destruct s as [|c s]; cbn [String.length] in H; [lia|].
  cbn [take_bytes String.length]. rewrite IH; lia.
Qed.

Lemma len_app (a b : string) : len (a ++ b) = len a + len b.
Proof.
  unfold len. induction a as [|c a IH]; cbn [String.append String.length]; lia.
Qed.

(** A rune takes at least one byte. *)
Lemma runes_from_length (b : list Z) :
  forall skip, (List.length (runes_from skip b) <= List.length b)%nat.
Proof.
  induction b as [|x b IH]; intros skip; [cbn; lia|].
  cbn [runes_from]. destruct skip as [|k].
  - destruct (DecodeRune (x :: b)) as [c w]. cbn [List.length].
    specialize (IH (w - 1)%nat). lia.
  - specialize (IH k). cbn [List.length]. lia.
Qed.

Lemma RuneCount_le_len (s : string) : RuneCountInString s <= len s.
Proof.
  unfold RuneCountInString, runes, len. rewrite <- len_bytes.
  pose proof (runes_from_length (bytes s) 0). lia.
Qed.

End AsciiFacts.

(** ** The runes of a padded column *)

Module PadFacts.
Import Go Utf8Facts.

Lemma in_range_ascii (lo hi y : Z) : 128 <= lo -> y < 128 -> in_range lo hi y = false.
Proof.
  intros Hlo Hy. unfold in_range. apply andb_false_iff. left. apply Z.leb_gt. lia.
Qed.

Lemma DecodeRune_app (xs ys : list Z) :
  xs <> [] -> Bytes.ascii_start ys ->
  DecodeRune (xs ++ ys) = DecodeRune xs
  /\ (1 <= snd (DecodeRune xs) <= List.length xs)%nat.
Proof.
  intros Hne Hys. destruct xs as [|s0 r]; [contradiction|].
  cbn [app]. unfold DecodeRune.
  destruct (s0 <? 128); [split; [reflexivity|cbn [snd List.length]; lia]|].
  destruct ((s0 <? 194) || (244 <? s0)); [split; [reflexivity|cbn [snd List.length]; lia]|].
  assert (Hlo3 : 128 <= (if s0 =? 224 then 160 else 128)) by (destruct (s0 =? 224); lia).
  assert (Hlo4 : 128 <= (if s0 =? 240 then 144 else 128)) by (destruct (s0 =? 240); lia).
  destruct (s0 <? 224); [|destruct (s0 <? 240)].
  - destruct r as [|s1 r]; cbn [app].
    + destruct ys as [|y ys]; [split; [reflexivity|cbn [snd List.length]; lia]|].
      rewrite in_range_ascii by (exact Hys || lia).
      split; [reflexivity|cbn [snd List.length]; lia].
    + destruct (in_range 128 191 s1); split; try reflexivity; cbn [snd List.length]; lia.
  - cbv zeta.
    destruct r as [|s1 [|s2 r]]; cbn [app].
    + destruct ys as [|y [|y' ys]]; try (split; [reflexivity|cbn [snd List.length]; lia]).
      rewrite (in_range_ascii _ _ y) by (exact Hys || exact Hlo3).
      split; [reflexivity|cbn [snd List.length]; lia].
    + destruct ys as [|y ys]; [split; [reflexivity|cbn [snd List.length]; lia]|].
      rewrite (in_range_ascii 128 191 y) by (exact Hys || lia).
      rewrite andb_false_r. split; [reflexivity|cbn [snd List.length]; lia].
    + destruct (in_range _ _ s1 && in_range 128 191 s2);
        split; try reflexivity; cbn [snd List.length]; lia.
  - cbv zeta.
    destruct r as [|s1 [|s2 [|s3 r]]]; cbn [app].
    + destruct ys as [|y [|y' [|y'' ys]]]; try (split; [reflexivity|cbn [snd List.length]; lia]).
      rewrite (in_range_ascii _ _ y) by (exact Hys || exact Hlo4).
      split; [reflexivity|cbn [snd List.length]; lia].
    + destruct ys as [|y [|y' ys]]; try (split; [reflexivity|cbn [snd List.length]; lia]).
      rewrite (in_range_ascii 128 191 y) by (exact Hys || lia).
      rewrite andb_false_r. split; [reflexivity|cbn [snd List.length]; lia].
    + destruct ys as [|y ys]; [split; [reflexivity|cbn [snd List.length]; lia]|].
      rewrite (in_range_ascii 128 191 y) by (exact Hys || lia).
      rewrite andb_false_r. split; [reflexivity|cbn [snd List.length]; lia].
    + destruct (in_range _ _ s1 && in_range 128 191 s2 && in_range 128 191 s3);
        split; try reflexivity; cbn [snd List.length]; lia.
Qed.

(** The runes of a sequence followed by ASCII are the runes of the sequence,
    then those of what follows. *)
Lemma runes_from_app (xs ys : list Z) :
  Bytes.ascii_start ys ->
  forall skip, (skip <= List.length xs)%nat ->
    runes_from skip (xs ++ ys) = (runes_from skip xs ++ runes_from 0 ys)%list.
Proof.
  intros Hys. induction xs as [|x xs IH]; intros skip Hskip.
  - cbn [List.length] in Hskip. replace skip with 0%nat by lia.
    destruct ys; reflexivity.
  - destruct skip as [|k].
    + destruct (DecodeRune_app (x :: xs) ys) as [E Hw]; [discriminate|exact Hys|].
      change ((x :: xs) ++ ys)%list with (x :: xs ++ ys)%list in *.
      cbn [runes_from]. rewrite E.
      destruct (DecodeRune (x :: xs)) as [c w]. cbn [snd List.length] in Hw.
      rewrite IH by lia. reflexivity.
    + cbn [app runes_from]. apply IH. cbn [List.length] in Hskip. lia.
Qed.

Lemma bytes_spaces (n : nat) : bytes (repeat_nat " " n) = repeat 32 n.
Proof. induction n as [|n IH]; [reflexivity|]. cbn [repeat_nat repeat]. cbn. rewrite IH. reflexivity. Qed.

Lemma runes_spaces (n : nat) : runes_from 0 (repeat 32 n) = repeat 32 n.
Proof.
  induction n as [|n IH]; [reflexivity|].
  cbn [repeat runes_from]. cbn [DecodeRune]. change (32 <? 128) with true. cbv iota.
  cbn [Nat.sub]. rewrite IH. reflexivity.
Qed.

(** [%-Ns] fills the column: the padded text has [width] runes, unless the
    text itself has more. *)
Lemma RuneCount_fmt_pad (width : Z) (s : string) :
  RuneCountInString (fmt_pad width s) = Z.max width (RuneCountInString s).
Proof.
  unfold fmt_pad, RuneCountInString at 1, runes.
  rewrite bytes_app, bytes_spaces, runes_from_app.
  - rewrite length_app, runes_spaces, repeat_length.
    fold (runes s). fold (RuneCountInString s).
    pose proof (Nat2Z.is_nonneg (List.length (runes s))). unfold RuneCountInString in *. lia.
  - destruct (Z.to_nat _); cbn; lia.
  - lia.
Qed.

End PadFacts.

(** ** [filepath.Base] of a joined path *)

Module BaseFacts.
Import Go Search PathFacts.

Lemma filter_nonempty (l : list string) :
  Forall (fun e => is_empty e = false) l ->
  filter (fun e => negb (is_empty e)) l = l.
Proof.
  induction 1 as [|e l He _ IH]; [reflexivity|].
  cbn [filter]. rewrite He, IH. reflexivity.
Qed.

Lemma last_of_snoc (l r : list string) (e n : string) :
  (l ++ [n])%list = e :: r -> last r e = n.
Proof.
  destruct l as [|a l]; cbn [app]; intros H; injection H as <- <-; [reflexivity|].
  apply last_last.
Qed.

(** [Base] of a cleaned path is the element that [Clean] kept last. *)
Lemma Base_Clean (s n : string) (rest : list string) :
  is_empty s = false -> clean_elems s = n :: rest -> Base (Clean s) = n.
Proof.
  intros Hs Hel.
  pose proof (clean_stack_elems _ _ (clean_elems_stack s)) as Hall.
  rewrite Hel in Hall.
  assert (Hkept : Forall (fun e => no_slash e = true /\ is_empty e = false) (rev (n :: rest)))
    by (apply Forall_rev, Hall).
  assert (Hne : rev (n :: rest) <> []) by (cbn [rev]; intros E; destruct (rev rest); discriminate).
  assert (Hsplit : split_slash (join_slash (rev (n :: rest))) = rev (n :: rest)).
  { apply split_join; [exact Hne|]. eapply Forall_impl; [|exact Hkept]. intros e He. apply He. }
  assert (Hfilter : filter (fun e => negb (is_empty e)) (rev (n :: rest)) = rev (n :: rest)).
  { apply filter_nonempty. eapply Forall_impl; [|exact Hkept]. intros e He. apply He. }
  unfold Clean. rewrite Hs, Hel. cbv zeta.
  destruct (HasPrefix s "/").
  - unfold Base. cbn [is_empty split_slash]. unfold slash at 1.
    rewrite Ascii.eqb_refl, Hsplit. cbn [filter is_empty negb]. rewrite Hfilter.
    destruct (rev (n :: rest)) as [|e r] eqn:E; [contradiction|].
    apply (last_of_snoc (rev rest)). exact E.
  - destruct (is_empty (join_slash (rev (n :: rest)))) eqn:Hj.
    + apply join_slash_empty in Hj; [contradiction|exact Hkept].
    + unfold Base. rewrite Hj, Hsplit, Hfilter.
      destruct (rev (n :: rest)) as [|e r] eqn:E; [contradiction|].
      apply (last_of_snoc (rev rest)). exact E.
Qed.

(** The base name of an entry is the name under which it is listed. *)
Lemma Base_Join (p n : string) : valid_name n = true -> Base (Join p n) = n.
Proof.
  intros Hn. pose proof (clean_elems_Join p n Hn) as Hel.
  destruct (valid_name_inv n Hn) as (Hne & _).
  unfold Join in *. rewrite Hne in *.
  destruct (is_empty p).
  - rewrite (proj1 (clean_elems_Clean n Hne)) in Hel. exact (Base_Clean n n _ Hne Hel).
  - rewrite (proj1 (clean_elems_Clean _ (is_empty_app p slash n))) in Hel.
    exact (Base_Clean _ n _ (is_empty_app p slash n) Hel).
Qed.

Lemma Base_name (n : string) : valid_name n = true -> Base n = n.
Proof.
  intros Hn. destruct (valid_name_inv n Hn) as (Hne & _ & _ & Hns).
  unfold Base. rewrite Hne, (split_slash_no_slash n Hns). cbn [filter]. rewrite Hne. reflexivity.
Qed.

End BaseFacts.

(** ** The records of a walk, compared *)

Module CollectFacts.
Import Go Search WalkFacts.

(** The records that a search returns: those of the walk, unless the search
    of [display.go] refuses the pattern or the root. *)
Lemma Both_results_if (s : Both.snapshot) lower_table pattern root opts fs :
  results (Both.SearchFiles s lower_table pattern root opts fs)
  = if match s with
       | Both.display_go => negb (String.eqb pattern "") && stat_ok fs
       | Both.unnamed_parts => true
       end
    then Spec.collect lower_table pattern root opts root (tree fs)
    else [].
Proof.
  destruct s; cbn [Both.SearchFiles].
  - unfold DisplayGo.SearchFiles.
    destruct (String.eqb pattern ""); [reflexivity|].
    destruct (stat_ok fs); [|reflexivity].
    cbn [negb andb]. rewrite Walk_collect. reflexivity.
  - rewrite Part001_SearchFiles_outcome. reflexivity.
Qed.

(** More directories entered and more names accepted give more records. *)
Lemma collect_incl lower_table pattern1 pattern2 root opts1 opts2 :
  (forall p, Spec.enters root opts1 p = true -> Spec.enters root opts2 p = true) ->
  forall n p r,
    In r (Spec.collect lower_table pattern1 root opts1 p n) ->
    (Spec.emits lower_table pattern1 opts1 (Search.Name r) = true ->
     Spec.emits lower_table pattern2 opts2 (Search.Name r) = true) ->
    In r (Spec.collect lower_table pattern2 root opts2 p n).
Proof.
  intros Henters.
  induction n as [name size mt|name mt rd es IH|name] using node_forall_ind;
    intros p r Hin Hemit; cbn [Spec.collect] in *.
  - destruct (Spec.emits lower_table pattern1 opts1 name) eqn:E; [|destruct Hin].
    destruct Hin as [<-|[]]. cbn [Spec.record_of Search.Name] in Hemit.
    rewrite (Hemit E). left. reflexivity.
  - destruct rd; cbn [andb] in *; [|destruct Hin].
    destruct (Spec.enters root opts1 p) eqn:E; [|destruct Hin].
    rewrite (Henters p E).
    apply in_flat_map in Hin as (c & Hc & Hr). apply in_flat_map. exists c.
    split; [exact Hc|]. exact (proj1 (Forall_forall _ _) IH c Hc _ _ Hr Hemit).
  - destruct Hin.
Qed.

(** No record when no name is accepted. *)
Lemma collect_none lower_table pattern root opts :
  (forall name, Spec.emits lower_table pattern opts name = false) ->
  forall n p, Spec.collect lower_table pattern root opts p n = [].
Proof.
  intros Hnone n p.
  destruct (Spec.collect lower_table pattern root opts p n) as [|r l] eqn:E; [reflexivity|].
  assert (Hin : In r (Spec.collect lower_table pattern root opts p n))
    by (rewrite E; left; reflexivity).
  apply collect_located in Hin as (dirs & q & name & size & mt & _ & _ & Hemit & _).
  rewrite Hnone in Hemit. discriminate.
Qed.

(** The parts of a listing in the order of the names are in that order. *)
Lemma ascending_app (l1 l2 : list string) :
  Shape.ascending (l1 ++ l2) = true ->
  Shape.ascending l1 = true /\ Shape.ascending l2 = true.
Proof.
  induction l1 as [|x l1 IH]; [intros H; split; [reflexivity|exact H]|].
  destruct l1 as [|y l1].
  - cbn [app]. destruct l2 as [|y l2]; [intros _; split; reflexivity|].
    cbn [Shape.ascending]. intros H. apply andb_prop in H as [_ H].
    split; [reflexivity|exact H].
  - cbn [app Shape.ascending] in *. intros H. apply andb_prop in H as [Hxy H].
    destruct (IH H) as [H1 H2]. rewrite Hxy, H1. split; [reflexivity|exact H2].
Qed.

Lemma HasPrefix_refl (s : string) : HasPrefix s s = true.
Proof. induction s as [|c s IH]; [reflexivity|]. cbn [HasPrefix]. rewrite Ascii.eqb_refl, IH. reflexivity. Qed.

Lemma Contains_refl (s : string) : Contains s s = true.
Proof. rewrite StringFacts.Contains_unfold, HasPrefix_refl. reflexivity. Qed.

Lemma Contains_empty (s : string) : Contains s "" = true.
Proof. destruct s; reflexivity. Qed.

(** The way to an entry below a directory ends with the name of the entry. *)
Lemma located_last p n dirs q target :
  Spec.located p n dirs q target ->
  Spec.valid_entries n = true ->
  (dirs = [] /\ q = p /\ target = n)
  \/ (exists q', q = Join q' (node_name target) /\ valid_name (node_name target) = true).
Proof.
  induction 1 as [p n|p name mt rd es c dirs q target Hc Hloc IH]; intros Hv.
  - left. repeat split.
  - right. cbn [Spec.valid_entries] in Hv.
    apply (proj1 (forallb_forall _ _) Hv) in Hc.
    apply andb_prop in Hc as [Hname Hsub].
    destruct (IH Hsub) as [(_ & -> & ->)|Hbelow].
    + exists p. split; [reflexivity|exact Hname].
    + exact Hbelow.
Qed.

Section Paths.
Variable lower_table : rune -> rune.
Variables (pattern root : string) (opts : SearchOptions).

Local Abbreviation collect := (Spec.collect lower_table pattern root opts).

(** The path of a record is the path of the walk, extended by the names on
    the way to the file. *)
Lemma collect_paths (n : node) (p : string) (r : SearchResult) :
  Spec.valid_entries n = true ->
  In r (collect p n) ->
  exists names,
    Forall (fun x => valid_name x = true) names /\ Path r = fold_left Join names p.
Proof.
  intros Hv Hin.
  apply collect_located in Hin as (dirs & q & name & size & mt & Hloc & _ & _ & ->).
  destruct (SearchFacts.located_names _ _ _ _ _ Hloc Hv) as (names & Hnames & Hq & _).
  exists names. split; [exact Hnames|exact Hq].
Qed.

Lemma distinct_not_in (x : string) (l : list string) :
  existsb (String.eqb x) l = false -> ~ In x l.
Proof.
  intros H Hin. assert (existsb (String.eqb x) l = true); [|congruence].
  apply existsb_exists. exists x. split; [exact Hin|apply String.eqb_refl].
Qed.

(** In a tree that lists no name twice, no two records have the same path. *)
Lemma collect_NoDup (n : node) :
  forall p, Spec.valid_entries n = true -> Shape.distinct_names n = true ->
            NoDup (map Path (collect p n)).
Proof.
  induction n as [name size mt|name mt rd es IH|name] using node_forall_ind;
    intros p Hv Hd; cbn [Spec.collect].
  - destruct (Spec.emits _ _ _ name); cbn [map]; repeat constructor. intros [].
  - destruct (rd && Spec.enters root opts p); [|constructor].
    cbn [Spec.valid_entries Shape.distinct_names] in Hv, Hd.
    apply andb_prop in Hd as [Hdist Hsub].
    induction IH as [|c es Hc _ IHes]; [constructor|].
    cbn [forallb map Shape.distinct] in Hv, Hdist, Hsub.
    apply andb_prop in Hv as [Hvc Hves]. apply andb_prop in Hvc as [Hname Hvc].
    apply andb_prop in Hdist as [Hfresh Hdist]. apply andb_prop in Hsub as [Hdc Hsub].
    cbn [flat_map]. rewrite map_app. apply NoDup_app.
    + apply Hc; assumption.
    + apply IHes; assumption.
    + intros a H1 H2.
      apply in_map_iff in H1 as (r1 & <- & H1).
      apply in_map_iff in H2 as (r2 & E & H2).
      apply in_flat_map in H2 as (c' & Hc' & H2).
      assert (Hname' : valid_name (node_name c') = true /\ Spec.valid_entries c' = true).
      { apply andb_prop. exact (proj1 (forallb_forall _ _) Hves c' Hc'). }
      destruct (collect_paths c _ r1 Hvc H1) as (names1 & Hn1 & E1).
      destruct (collect_paths c' _ r2 (proj2 Hname') H2) as (names2 & Hn2 & E2).
      assert (Heq : node_name c :: names1 = node_name c' :: names2).
      { apply (PathFacts.chain_names_unique p).
        - constructor; assumption.
        - constructor; [apply Hname'|assumption].
        - cbn [fold_left]. congruence. }
      injection Heq as Heq _.
      apply negb_true_iff in Hfresh.
      apply (distinct_not_in _ _ Hfresh). rewrite Heq. apply in_map. exact Hc'.
  - constructor.
Qed.

(** The sizes of the records are sizes of files of the tree. *)
Lemma collect_sizes (n : node) :
  forall p, Shape.int64_sizes n = true ->
            Forall (fun r => int64_range (Size r)) (collect p n).
Proof.
  induction n as [name size mt|name mt rd es IH|name] using node_forall_ind;
    intros p Hs; cbn [Spec.collect].
  - destruct (Spec.emits _ _ _ name); constructor; [|constructor].
    cbn [Shape.int64_sizes Spec.record_of Size] in *.
    apply andb_prop in Hs as [H1 H2]. unfold int64_range. lia.
  - destruct (rd && Spec.enters root opts p); [|constructor].
    cbn [Shape.int64_sizes] in Hs.
    apply Forall_flat_map, Forall_forall. intros c Hc.
    apply (proj1 (Forall_forall _ _) IH c Hc).
    exact (proj1 (forallb_forall _ _) Hs c Hc).
  - constructor.
Qed.

End Paths.

End CollectFacts.

(** ** Listings in the order of the names: what [sort.Strings] does to them *)

Module ListingFacts.
Import Go Search.

Lemma ltb_order : strict_weak_order String.ltb.
Proof.
  constructor;
    [exact SortFacts.ltb_irrefl|exact SortFacts.ltb_trans|exact SortFacts.ltb_negtrans].
Qed.

Lemma leb_not_ltb (x y : string) : String.leb x y = true -> String.ltb y x = false.
Proof.
  unfold String.leb, String.ltb. rewrite (String.compare_antisym y x).
  destruct (String.compare x y); cbn [CompOpp]; congruence.
Qed.

Lemma not_ltb_eq (x y : string) :
  String.ltb x y = false -> String.ltb y x = false -> x = y.
Proof.
  unfold String.ltb. rewrite (String.compare_antisym y x).
  destruct (String.compare x y) eqn:E; cbn [CompOpp]; try discriminate.
  intros _ _. apply String.compare_eq_iff, E.
Qed.

(** A list in ascending order is sorted in the sense of [sort.Slice]. *)
Lemma ascending_sorted (l : list string) :
  Shape.ascending l = true -> StronglySorted (fun x y => String.ltb y x = false) l.
Proof.
  intros H. apply Sorted_StronglySorted.
  - intros x y z Hxy Hyz. exact (SortFacts.ltb_negtrans z y x Hyz Hxy).
  - induction l as [|x l IH]; [constructor|].
    destruct l as [|y l]; [repeat constructor|].
    cbn [Shape.ascending] in H. apply andb_prop in H as [Hxy H].
    constructor; [exact (IH H)|]. constructor. apply leb_not_ltb, Hxy.
Qed.

(** Strings have one ascending order only. *)
Lemma sorted_strings_unique (a : list string) :
  forall b,
    StronglySorted (fun x y => String.ltb y x = false) a ->
    StronglySorted (fun x y => String.ltb y x = false) b ->
    Permutation a b -> a = b.
Proof.
  induction a as [|x a IH]; intros b Ha Hb Hperm.
  - apply Permutation_nil in Hperm. congruence.
  - destruct b as [|y b]; [apply Permutation_sym, Permutation_nil in Hperm; discriminate|].
    apply StronglySorted_inv in Ha as [Ha Hx]. apply StronglySorted_inv in Hb as [Hb Hy].
    assert (E : x = y).
    { assert (Hy_in : In y (x :: a))
        by (apply (Permutation_in _ (Permutation_sym Hperm)); left; reflexivity).
      destruct Hy_in as [E|Hy_in]; [exact E|].
      assert (Hx_in : In x (y :: b))
        by (apply (Permutation_in _ Hperm); left; reflexivity).
      destruct Hx_in as [E|Hx_in]; [symmetry; exact E|].
      apply not_ltb_eq.
      - exact (proj1 (Forall_forall _ _) Hy x Hx_in).
      - exact (proj1 (Forall_forall _ _) Hx y Hy_in). }
    subst y. f_equal. apply IH; try assumption.
    exact (Permutation_cons_inv Hperm).
Qed.

(** [sort.Strings], whatever its algorithm, leaves a list in ascending order
    as it is. *)
Lemma sort_ascending {sorter : Sorter} (names : list string) :
  Shape.ascending names = true -> sort_Slice String.ltb names = names.
Proof.
  intros H. symmetry. apply sorted_strings_unique.
  - apply ascending_sorted, H.
  - apply sort_Slice_sorted, ltb_order.
  - apply sort_Slice_perm.
Qed.

(** The listings of the directories of a tree are listings of the tree. *)
Lemma located_sorted p n dirs q target :
  Spec.located p n dirs q target ->
  Shape.sorted_names n = true -> Shape.sorted_names target = true.
Proof.
  induction 1 as [p n|p name mt rd es c dirs q target Hc Hloc IH]; intros Hs;
    [exact Hs|].
  apply IH. cbn [Shape.sorted_names] in Hs. apply andb_prop in Hs as [_ Hs].
  exact (proj1 (forallb_forall _ _) Hs c Hc).
Qed.

End ListingFacts.

(** ** [strings.ToLower] on ASCII *)

Module FoldFacts.
Import Go Search Utf8Facts AsciiFacts.

Lemma of_bytes_app (a b : list Z) : of_bytes (a ++ b) = of_bytes a ++ of_bytes b.
Proof. induction a as [|x a IH]; [reflexivity|]. cbn [app of_bytes String.append]. rewrite IH. reflexivity. Qed.

Lemma isASCII_app (a b : string) : isASCII (a ++ b) = isASCII a && isASCII b.
Proof. unfold isASCII. rewrite bytes_app. apply forallb_app. Qed.

Lemma lower_bytes_app (a b : string) :
  Bytes.lower_bytes (a ++ b) = Bytes.lower_bytes a ++ Bytes.lower_bytes b.
Proof. unfold Bytes.lower_bytes. rewrite bytes_app, map_app. apply of_bytes_app. Qed.

Lemma ToLower_ascii (lower_table : rune -> rune) (s : string) :
  isASCII s = true -> ToLower lower_table s = Bytes.lower_bytes s.
Proof. intros H. unfold ToLower. rewrite H. reflexivity. Qed.

(** On a name of ASCII bytes, a substring stays a substring when both
    strings are lowered. *)
Lemma Contains_ToLower (lower_table : rune -> rune) (name pattern : string) :
  isASCII name = true -> Contains name pattern = true ->
  Contains (ToLower lower_table name) (ToLower lower_table pattern) = true.
Proof.
  intros Hascii Hsub.
  apply StringFacts.Contains_spec in Hsub as (before & after & ->).
  rewrite !isASCII_app in Hascii.
  apply andb_prop in Hascii as [Hb Hrest]. apply andb_prop in Hrest as [Hp Ha].
  rewrite (ToLower_ascii _ pattern Hp).
  rewrite ToLower_ascii by (rewrite !isASCII_app, Hb, Hp, Ha; reflexivity).
  rewrite !lower_bytes_app.
  apply StringFacts.Contains_spec. eexists _, _. reflexivity.
Qed.

End FoldFacts.

(** ** The command *)

Module CmdFacts.
Import Go Search Display.

(** [PrintResults] returns when the sizes are sizes of [int64]. *)
Lemma Both_PrintResults_total {sorter : Sorter} (s : Both.snapshot) (l : list SearchResult) :
  Forall (fun r => int64_range (Size r)) l ->
  exists final printed, Both.PrintResults s l = Some (final, printed).
Proof.
  intros Hrange. destruct l as [|r rest] eqn:E.
  - destruct s; eexists _, _; reflexivity.
  - rewrite <- E in *.
    destruct (PrintFacts.PrintResults_nonempty s l Hrange)
      as (sorted & total & rows & Hout & _); [subst; discriminate|].
    eexists _, _. exact Hout.
Qed.

(** The error of a search, in both revisions. *)
Lemma Both_SearchFiles_err (s : Both.snapshot) lower_table pattern root opts fs :
  err (Both.SearchFiles s lower_table pattern root opts fs)
  = match s with
    | Both.display_go =>
        if String.eqb pattern "" then Some DisplayGo.ErrEmptyPattern
        else if stat_ok fs then None else Some DisplayGo.ErrInvalidPath
    | Both.unnamed_parts => None
    end.
Proof.
  destruct s; cbn [Both.SearchFiles].
  - unfold DisplayGo.SearchFiles.
    destruct (String.eqb pattern ""); [reflexivity|].
    destruct (stat_ok fs); [|reflexivity].
    cbn [negb]. rewrite WalkFacts.Walk_collect. reflexivity.
  - rewrite WalkFacts.Part001_SearchFiles_outcome. reflexivity.
Qed.

End CmdFacts.

(** X1. [FormatSize] returns for every size of [int64], in both revisions:
    the loop leaves an index from 0 to 5, so that ["KMGTPE"[exp]] never
    panics. *)
Theorem FormatSize_never_panics :
  forall (s : Both.snapshot) (size : Z),
    Go.int64_range size -> exists out, Both.FormatSize s size = Some out.
Proof. intros s size Hr. exact (PrintFacts.Both_FormatSize_total s size Hr). Qed.

Lemma FormatSize_never_panics_witness :
  Go.int64_range Go.MaxInt64
  /\ exists out, Both.FormatSize Both.display_go Go.MaxInt64 = Some out.
Proof.
  assert (H : Go.int64_range Go.MaxInt64) by (vm_compute; split; discriminate).
  split; [exact H|]. exact (FormatSize_never_panics Both.display_go Go.MaxInt64 H).
Defined.

(** X2. The unit of [FormatSize], in both revisions: a size from
    1024^(e+1) up to, and not including, 1024^(e+2) is divided by 1024^(e+1)
    and shown with one decimal and the letter of index [e] of "KMGTPE". *)
Theorem FormatSize_unit_selection :
  forall (s : Both.snapshot) (size e : Z),
    0 <= e <= 5 -> 1024 ^ (e + 1) <= size < 1024 ^ (e + 2) ->
    exists c,
      Go.index_byte "KMGTPE" e = Some c
      /\ Both.FormatSize s size
         = Some (Go.fmt_f1 (Go.float64_div (Go.float64_of_int size)
                                           (Go.float64_of_int (1024 ^ (e + 1))))
                 ++ " " ++ String c "B").
Proof.
  intros s size e He Hsize.
  assert (Hpow : 1024 <= 1024 ^ (e + 1)).
  { change 1024 with (1024 ^ 1) at 1. apply Z.pow_le_mono_r; lia. }
  rewrite PrintFacts.Both_FormatSize_positive by lia.
  unfold Part000.FormatSize, Display.unit.
  rewrite (proj2 (Z.eqb_neq size 0)) by lia.
  rewrite (proj2 (Z.ltb_ge size 0)) by lia.
  rewrite (proj2 (Z.ltb_ge size 1024)) by lia.
  rewrite <- (Z2Nat.id e) in * by lia.
  apply (UnitFacts.format_units_exact "" size (Z.to_nat e)); [lia|exact Hsize].
Qed.

Lemma FormatSize_unit_selection_witness :
  0 <= 1 <= 5
  /\ 1024 ^ (1 + 1) <= 1024 * 1024 * 3 / 2 < 1024 ^ (1 + 2)
  /\ exists c,
       Go.index_byte "KMGTPE" 1 = Some c
       /\ Both.FormatSize Both.unnamed_parts (1024 * 1024 * 3 / 2)
          = Some (Go.fmt_f1 (Go.float64_div (Go.float64_of_int (1024 * 1024 * 3 / 2))
                                            (Go.float64_of_int (1024 ^ (1 + 1))))
                  ++ " " ++ String c "B").
Proof.
  assert (H1 : 0 <= 1 <= 5) by lia.
  assert (H2 : 1024 ^ (1 + 1) <= 1024 * 1024 * 3 / 2 < 1024 ^ (1 + 2))
    by (vm_compute; split; [discriminate|reflexivity]).
  split; [exact H1|]. split; [exact H2|].
  exact (FormatSize_unit_selection Both.unnamed_parts (1024 * 1024 * 3 / 2) 1 H1 H2).
Defined.

(** X3. On the sizes that are not negative, [FormatSize] of
    [src/pkg/display/display.go] and [FormatSize] of [src/unnamed/part_000]
    return the same text. *)
Theorem FormatSize_revisions_agree :
  forall size : Z, 0 <= size -> DisplayGo.FormatSize size = Part000.FormatSize size.
Proof.
  intros size Hsize. destruct (Z.eqb_spec size 0) as [->|Hne]; [reflexivity|].
  apply (PrintFacts.Both_FormatSize_positive Both.display_go). lia.
Qed.

Lemma FormatSize_revisions_agree_witness :
  0 <= 1536 /\ DisplayGo.FormatSize 1536 = Part000.FormatSize 1536.
Proof.
  assert (H : 0 <= 1536) by lia.
  split; [exact H|]. exact (FormatSize_revisions_agree 1536 H).
Defined.

(** X4. [truncateString] of part_000 is idempotent: truncating to the same
    length a second time changes nothing. *)
Theorem truncateString_idempotent :
  forall (s : string) (maxLen : Z),
    Part000.truncateString (Part000.truncateString s maxLen) maxLen
    = Part000.truncateString s maxLen.
Proof.
  intros s maxLen.
  destruct (Z.leb_spec maxLen 0) as [Hle|Hpos].
  - unfold Part000.truncateString. rewrite (proj2 (Z.leb_le maxLen 0) Hle). reflexivity.
  - destruct (Utf8Facts.truncateString_runes s maxLen) as [Hcount _]; [lia|].
    unfold Part000.truncateString at 1.
    rewrite (proj2 (Z.leb_gt maxLen 0) Hpos), (proj2 (Z.leb_le _ _) Hcount). reflexivity.
Qed.

(** X5. When [truncateString] of part_000 shortens a string (the string has
    more runes than [maxLen], and [maxLen] is positive), the result has
    exactly [maxLen] runes, and it is not the string. *)
Theorem truncateString_fills_width :
  forall (s : string) (maxLen : Z),
    0 < maxLen < Go.RuneCountInString s ->
    Go.RuneCountInString (Part000.truncateString s maxLen) = maxLen
    /\ Part000.truncateString s maxLen <> s.
Proof.
  intros s maxLen H.
  destruct (Utf8Facts.truncateString_runes s maxLen) as [_ Hfill]; [lia|].
  split; [apply Hfill, H|].
  intros E. rewrite E in Hfill. specialize (Hfill H). lia.
Qed.

Lemma truncateString_fills_width_witness :
  0 < 7 < Go.RuneCountInString "file文件.txt"
  /\ Go.RuneCountInString (Part000.truncateString "file文件.txt" 7) = 7
  /\ Part000.truncateString "file文件.txt" 7 <> "file文件.txt".
Proof.
  assert (H : 0 < 7 < Go.RuneCountInString "file文件.txt")
    by (vm_compute; split; reflexivity).
  split; [exact H|]. exact (truncateString_fills_width "file文件.txt" 7 H).
Defined.

(** X6. On a string of ASCII bytes and for a length of 3 or more, the
    byte-counting [truncateString] of [display.go] and the rune-counting one
    of part_000 return the same string. *)
Theorem truncateString_ascii_revisions_agree :
  forall (s : string) (maxLen : Z),
    Go.isASCII s = true -> 3 <= maxLen ->
    DisplayGo.truncateString s maxLen = Some (Part000.truncateString s maxLen).
Proof.
  intros s maxLen Hs Hmax.
  unfold DisplayGo.truncateString, Part000.truncateString, Go.slice_to.
  rewrite (AsciiFacts.RuneCount_ascii s Hs), (AsciiFacts.runes_ascii s Hs).
  rewrite (proj2 (Z.leb_gt maxLen 0)) by lia.
  destruct (Z.leb_spec (Go.len s) maxLen) as [Hle|Hgt]; [reflexivity|].
  rewrite (proj2 (Z.ltb_ge (maxLen - 3) 0)) by lia.
  rewrite (proj2 (Z.ltb_ge (Go.len s) (maxLen - 3))) by lia.
  cbn [orb]. rewrite (AsciiFacts.string_of_runes_ascii s Hs).
  destruct (Z.leb_spec maxLen 3) as [H3|H3]; [|reflexivity].
  replace maxLen with 3 by lia. reflexivity.
Qed.

Lemma truncateString_ascii_revisions_agree_witness :
  Go.isASCII "very_long_filename.txt" = true
  /\ 3 <= 10
  /\ DisplayGo.truncateString "very_long_filename.txt" 10
     = Some (Part000.truncateString "very_long_filename.txt" 10).
Proof.
  assert (H : 3 <= 10) by lia.
  split; [reflexivity|]. split; [exact H|].
  exact (truncateString_ascii_revisions_agree "very_long_filename.txt" 10 eq_refl H).
Defined.

(** X7. [truncateString] of [display.go] panics exactly when the string is
    longer than [maxLen] bytes and [maxLen] is less than 3; when it shortens
    a string, the result has exactly [maxLen] bytes. *)
Theorem DisplayGo_truncateString_panics :
  forall (s : string) (maxLen : Z),
    (DisplayGo.truncateString s maxLen = None <-> maxLen < Go.len s /\ maxLen < 3)
    /\ (forall t, DisplayGo.truncateString s maxLen = Some t ->
                  maxLen < Go.len s -> Go.len t = maxLen).
Proof.
  intros s maxLen.
  unfold DisplayGo.truncateString, Go.slice_to.
  destruct (Z.leb_spec (Go.len s) maxLen) as [Hle|Hgt].
  - split; [split; [discriminate|lia]|]. intros t _ H. lia.
  - rewrite (proj2 (Z.ltb_ge (Go.len s) (maxLen - 3))) by lia. rewrite orb_false_r.
    destruct (Z.ltb_spec (maxLen - 3) 0) as [Hlt|Hge].
    + split; [split; [lia|reflexivity]|]. discriminate.
    + split; [split; [discriminate|lia]|].
      intros t Ht _. injection Ht as <-.
      rewrite AsciiFacts.len_app. unfold Go.len at 1.
      rewrite AsciiFacts.length_take_bytes by (unfold Go.len in Hgt; lia).
      change (Go.len "...") with 3. lia.
Qed.

(** X8. The first column of a row of [PrintResults], in both revisions:
    the name cut to 47 is at most 47 runes long, so that [%-50s] pads it to
    exactly 50 runes, whatever the bytes of the name. *)
Theorem PrintResults_name_column :
  forall (s : Both.snapshot) (name : string),
    exists shown,
      Both.truncateString s name 47 = Some shown
      /\ Go.RuneCountInString shown <= 47
      /\ Go.RuneCountInString (Go.fmt_pad 50 shown) = 50.
Proof.
  intros s name.
  assert (H : exists shown, Both.truncateString s name 47 = Some shown
                            /\ Go.RuneCountInString shown <= 47).
  { destruct s; cbn [Both.truncateString].
    - unfold DisplayGo.truncateString, Go.slice_to.
      destruct (Z.leb_spec (Go.len name) 47) as [Hshort|Hlong].
      + exists name. split; [reflexivity|].
        pose proof (AsciiFacts.RuneCount_le_len name). lia.
      + change (47 - 3) with 44.
        rewrite (proj2 (Z.ltb_ge (Go.len name) 44)) by lia. cbn [Z.ltb Z.compare orb].
        eexists. split; [reflexivity|].
        eapply Z.le_trans; [apply AsciiFacts.RuneCount_le_len|].
        rewrite AsciiFacts.len_app. unfold Go.len at 1.
        rewrite AsciiFacts.length_take_bytes by (unfold Go.len in Hlong; lia).
        change (Go.len "...") with 3. change (Z.to_nat 44) with 44%nat. lia.
    - eexists. split; [reflexivity|].
      apply (Utf8Facts.truncateString_runes name 47). lia. }
  destruct H as (shown & E & Hle). exists shown.
  split; [exact E|]. split; [exact Hle|].
  rewrite PadFacts.RuneCount_fmt_pad. lia.
Qed.

(** X9. Whether the walk skips a directory entry depends on the name of the
    entry only, not on the path of the directory that lists it:
    [shouldSkipDirectory] of the joined path holds exactly when the name
    starts with a dot or is on the deny list. *)
Theorem shouldSkipDirectory_entry_name :
  forall (p n : string),
    Go.valid_name n = true ->
    Search.shouldSkipDirectory (Go.Join p n) = Search.shouldSkipDirectory n
    /\ (Search.shouldSkipDirectory (Go.Join p n) = true <-> Spec.skip_rule n).
Proof.
  intros p n Hn. split.
  - unfold Search.shouldSkipDirectory.
    rewrite (BaseFacts.Base_Join p n Hn), (BaseFacts.Base_name n Hn). reflexivity.
  - rewrite SearchFacts.shouldSkipDirectory_spec, (BaseFacts.Base_Join p n Hn). reflexivity.
Qed.

Lemma shouldSkipDirectory_entry_name_witness :
  Go.valid_name "node_modules" = true
  /\ Search.shouldSkipDirectory (Go.Join "/home/user/.config/app" "node_modules")
     = Search.shouldSkipDirectory "node_modules"
  /\ (Search.shouldSkipDirectory (Go.Join "/home/user/.config/app" "node_modules") = true
      <-> Spec.skip_rule "node_modules").
Proof.
  split; [reflexivity|].
  exact (shouldSkipDirectory_entry_name "/home/user/.config/app" "node_modules" eq_refl).
Defined.

(** X10. [SearchFiles], in both revisions, returns the records in the order
    of the walk.  On a tree whose listings are in the order in which
    [filepath.Walk] goes through them (ascending names, as [readDirNames]
    sorts them): [sort.Strings], whatever its algorithm, leaves the names of
    every directory of the tree as they are listed, so that the walk goes
    through the lists in their order; the records are the list that
    [Spec.collect] computes; and the records found through the first entries
    of the root come before those found through the entries after them: the
    records follow the order of the names in every directory. *)
Theorem SearchFiles_walk_order :
  forall (s : Both.snapshot) (lower_table : Go.rune -> Go.rune) (pattern root : string)
         (opts : Search.SearchOptions) (fs : Go.FS),
    pattern <> "" -> Go.stat_ok fs = true ->
    Shape.sorted_names (Go.tree fs) = true ->
    let search := fun t => Search.results
                    (Both.SearchFiles s lower_table pattern root opts (Go.mkFS true t)) in
    (forall (sorter : Go.Sorter) dirs q name mt rd es,
        Spec.located root (Go.tree fs) dirs q (Go.Dir name mt rd es) ->
        Go.sort_Slice String.ltb (map Go.node_name es) = map Go.node_name es)
    /\ Search.results (Both.SearchFiles s lower_table pattern root opts fs)
       = Spec.collect lower_table pattern root opts root (Go.tree fs)
    /\ forall name mt rd es1 es2,
         Go.tree fs = Go.Dir name mt rd (es1 ++ es2) ->
         Shape.sorted_names (Go.Dir name mt rd es1) = true
         /\ Shape.sorted_names (Go.Dir name mt rd es2) = true
         /\ Search.results (Both.SearchFiles s lower_table pattern root opts fs)
            = (search (Go.Dir name mt rd es1) ++ search (Go.Dir name mt rd es2))%list.
Proof.
  intros s lower_table pattern root opts fs Hp Hstat Hsorted search.
  assert (Hres : forall t, search t = Spec.collect lower_table pattern root opts root t).
  { intros t. unfold search. rewrite CollectFacts.Both_results_if.
    destruct s; [|reflexivity].
    destruct (String.eqb_spec pattern ""); [contradiction|reflexivity]. }
  assert (Hfs : Search.results (Both.SearchFiles s lower_table pattern root opts fs)
                = Spec.collect lower_table pattern root opts root (Go.tree fs)).
  { rewrite CollectFacts.Both_results_if, Hstat.
    destruct s; [|reflexivity].
    destruct (String.eqb_spec pattern ""); [contradiction|reflexivity]. }
  split.
  { intros sorter dirs q name mt rd es Hloc.
    pose proof (ListingFacts.located_sorted _ _ _ _ _ Hloc Hsorted) as Hdir.
    cbn [Shape.sorted_names] in Hdir. apply andb_prop in Hdir as [Hasc _].
    apply ListingFacts.sort_ascending, Hasc. }
  split; [exact Hfs|].
  intros name mt rd es1 es2 Htree.
  rewrite Htree in Hsorted. cbn [Shape.sorted_names] in Hsorted.
  apply andb_prop in Hsorted as [Hasc Hsub].
  rewrite forallb_app in Hsub. apply andb_prop in Hsub as [Hsub1 Hsub2].
  rewrite map_app in Hasc. destruct (CollectFacts.ascending_app _ _ Hasc) as [Hasc1 Hasc2].
  split; [cbn [Shape.sorted_names]; rewrite Hasc1, Hsub1; reflexivity|].
  split; [cbn [Shape.sorted_names]; rewrite Hasc2, Hsub2; reflexivity|].
  rewrite Hfs, Htree, !Hres. cbn [Spec.collect].
  destruct (rd && Spec.enters root opts root); [apply flat_map_app|reflexivity].
Qed.

Lemma SearchFiles_walk_order_witness :
  let tempDir := "/tmp/searchbot_test2718281828" in
  let fs := Go.mkFS true (SearchTest.createTestFiles tempDir) in
  "2024" <> ""
  /\ Go.stat_ok fs = true
  /\ Shape.sorted_names (Go.tree fs) = true
  /\ Search.results (Both.SearchFiles Both.display_go Demo.cyrillic_lower "2024"
                       tempDir Demo.defaults fs)
     = Spec.collect Demo.cyrillic_lower "2024" tempDir Demo.defaults tempDir (Go.tree fs).
Proof.
  intros tempDir fs.
  assert (H : "2024" <> "") by discriminate.
  split; [exact H|]. split; [reflexivity|]. split; [reflexivity|].
  exact (proj1 (proj2 (SearchFiles_walk_order Both.display_go Demo.cyrillic_lower "2024"
                         tempDir Demo.defaults fs H eq_refl eq_refl))).
Defined.

(** The search for "2024" of [TestSearchFiles]: the records come in the order
    of the names, directory by directory. *)
Example SearchFiles_walk_order_example :
  let tempDir := "/tmp/searchbot_test2718281828" in
  map Search.Name
      (Search.results (DisplayGo.SearchFiles Demo.cyrillic_lower "2024" tempDir
                         Demo.defaults (Go.mkFS true (SearchTest.createTestFiles tempDir))))
  = ["budget 2024.xlsx"; "report-2024.pdf"; "vacation2024.jpg"; "video-2024.mp4"].
Proof. vm_compute. reflexivity. Qed.

(** X11. Turning the recursion off only removes records: every record of a
    search that is not recursive is a record of the recursive search with
    the same pattern, root and other options, in both revisions. *)
Theorem SearchFiles_recursive_superset :
  forall (s : Both.snapshot) (lower_table : Go.rune -> Go.rune) (pattern root : string)
         (exact sensitive : bool) (fs : Go.FS) (r : Search.SearchResult),
    In r (Search.results (Both.SearchFiles s lower_table pattern root
                            (Search.mkOptions false exact sensitive) fs)) ->
    In r (Search.results (Both.SearchFiles s lower_table pattern root
                            (Search.mkOptions true exact sensitive) fs)).
Proof.
  intros s lower_table pattern root exact sensitive fs r.
  rewrite !CollectFacts.Both_results_if.
  destruct (match s with
            | Both.display_go => negb (String.eqb pattern "") && Go.stat_ok fs
            | Both.unnamed_parts => true
            end); [|intros []].
  intros Hin. eapply CollectFacts.collect_incl; [|exact Hin|].
  - intros p. unfold Spec.enters. cbn [Search.Recursive].
    intros H. apply andb_prop in H as [_ H]. rewrite H, orb_true_r. reflexivity.
  - intros H. exact H.
Qed.

Lemma SearchFiles_recursive_superset_witness :
  In (Search.mkResult "/tmp/searchbot_test/notes-2024.txt" "notes-2024.txt" 5
                      "2024-03-20 12:00:00")
     (Search.results (Both.SearchFiles Both.display_go Demo.cyrillic_lower "2024"
                        Demo.demo_root (Search.mkOptions false false true) Demo.demo_fs))
  /\ In (Search.mkResult "/tmp/searchbot_test/notes-2024.txt" "notes-2024.txt" 5
                         "2024-03-20 12:00:00")
        (Search.results (Both.SearchFiles Both.display_go Demo.cyrillic_lower "2024"
                           Demo.demo_root (Search.mkOptions true false true) Demo.demo_fs)).
Proof.
  assert (H : In (Search.mkResult "/tmp/searchbot_test/notes-2024.txt" "notes-2024.txt" 5
                                  "2024-03-20 12:00:00")
                 (Search.results (Both.SearchFiles Both.display_go Demo.cyrillic_lower "2024"
                                    Demo.demo_root (Search.mkOptions false false true)
                                    Demo.demo_fs)))
    by (vm_compute; left; reflexivity).
  split; [exact H|].
  exact (SearchFiles_recursive_superset Both.display_go Demo.cyrillic_lower "2024"
           Demo.demo_root false true Demo.demo_fs _ H).
Defined.

(** X12. The exact match only narrows a search: every record of a search
    with [ExactMatch] is a record of the substring search with the same
    pattern, root and other options, in both revisions. *)
Theorem SearchFiles_exact_narrows :
  forall (s : Both.snapshot) (lower_table : Go.rune -> Go.rune) (pattern root : string)
         (recursive sensitive : bool) (fs : Go.FS) (r : Search.SearchResult),
    In r (Search.results (Both.SearchFiles s lower_table pattern root
                            (Search.mkOptions recursive true sensitive) fs)) ->
    In r (Search.results (Both.SearchFiles s lower_table pattern root
                            (Search.mkOptions recursive false sensitive) fs)).
Proof.
  intros s lower_table pattern root recursive sensitive fs r.
  rewrite !CollectFacts.Both_results_if.
  destruct (match s with
            | Both.display_go => negb (String.eqb pattern "") && Go.stat_ok fs
            | Both.unnamed_parts => true
            end); [|intros []].
  intros Hin. eapply CollectFacts.collect_incl; [|exact Hin|].
  - intros p H. exact H.
  - unfold Spec.emits, Spec.name_matches, Spec.fold_case.
    cbn [Search.ExactMatch Search.CaseSensitive].
    intros H. apply andb_prop in H as [Hvis Heq]. rewrite Hvis.
    apply String.eqb_eq in Heq. rewrite Heq. apply CollectFacts.Contains_refl.
Qed.

Lemma SearchFiles_exact_narrows_witness :
  In (Search.mkResult "/tmp/searchbot_test/notes-2024.txt" "notes-2024.txt" 5
                      "2024-03-20 12:00:00")
     (Search.results (Both.SearchFiles Both.display_go Demo.cyrillic_lower "notes-2024.txt"
                        Demo.demo_root (Search.mkOptions true true true) Demo.demo_fs))
  /\ In (Search.mkResult "/tmp/searchbot_test/notes-2024.txt" "notes-2024.txt" 5
                         "2024-03-20 12:00:00")
        (Search.results (Both.SearchFiles Both.display_go Demo.cyrillic_lower "notes-2024.txt"
                           Demo.demo_root (Search.mkOptions true false true) Demo.demo_fs)).
Proof.
  assert (H : In (Search.mkResult "/tmp/searchbot_test/notes-2024.txt" "notes-2024.txt" 5
                                  "2024-03-20 12:00:00")
                 (Search.results (Both.SearchFiles Both.display_go Demo.cyrillic_lower
                                    "notes-2024.txt" Demo.demo_root
                                    (Search.mkOptions true true true) Demo.demo_fs)))
    by (vm_compute; left; reflexivity).
  split; [exact H|].
  exact (SearchFiles_exact_narrows Both.display_go Demo.cyrillic_lower "notes-2024.txt"
           Demo.demo_root true true Demo.demo_fs _ H).
Defined.

(** X13. Folding the case only adds records for the exact match, and for
    the names of ASCII bytes in a substring search: such a record of the
    case-sensitive search is a record of the case-insensitive search with
    the same pattern, root and other options, in both revisions. *)
Theorem SearchFiles_fold_widens :
  forall (s : Both.snapshot) (lower_table : Go.rune -> Go.rune) (pattern root : string)
         (recursive exact : bool) (fs : Go.FS) (r : Search.SearchResult),
    In r (Search.results (Both.SearchFiles s lower_table pattern root
                            (Search.mkOptions recursive exact true) fs)) ->
    exact = true \/ Go.isASCII (Search.Name r) = true ->
    In r (Search.results (Both.SearchFiles s lower_table pattern root
                            (Search.mkOptions recursive exact false) fs)).
Proof.
  intros s lower_table pattern root recursive exact fs r.
  rewrite !CollectFacts.Both_results_if.
  destruct (match s with
            | Both.display_go => negb (String.eqb pattern "") && Go.stat_ok fs
            | Both.unnamed_parts => true
            end); [|intros []].
  intros Hin Hcase. eapply CollectFacts.collect_incl; [|exact Hin|].
  - intros p H. exact H.
  - unfold Spec.emits, Spec.name_matches, Spec.fold_case.
    cbn [Search.ExactMatch Search.CaseSensitive].
    intros H. apply andb_prop in H as [Hvis Hm]. rewrite Hvis. cbn [andb].
    destruct exact.
    + apply String.eqb_eq in Hm. rewrite Hm. apply String.eqb_refl.
    + destruct Hcase as [Hex|Hascii]; [discriminate|].
      apply FoldFacts.Contains_ToLower; assumption.
Qed.

Lemma SearchFiles_fold_widens_witness :
  In (Search.mkResult "/tmp/searchbot_test/notes-2024.txt" "notes-2024.txt" 5
                      "2024-03-20 12:00:00")
     (Search.results (Both.SearchFiles Both.display_go Demo.cyrillic_lower "notes"
                        Demo.demo_root (Search.mkOptions true false true) Demo.demo_fs))
  /\ (false = true \/ Go.isASCII "notes-2024.txt" = true)
  /\ In (Search.mkResult "/tmp/searchbot_test/notes-2024.txt" "notes-2024.txt" 5
                         "2024-03-20 12:00:00")
        (Search.results (Both.SearchFiles Both.display_go Demo.cyrillic_lower "notes"
                           Demo.demo_root (Search.mkOptions true false false) Demo.demo_fs)).
Proof.
  assert (H : In (Search.mkResult "/tmp/searchbot_test/notes-2024.txt" "notes-2024.txt" 5
                                  "2024-03-20 12:00:00")
                 (Search.results (Both.SearchFiles Both.display_go Demo.cyrillic_lower
                                    "notes" Demo.demo_root
                                    (Search.mkOptions true false true) Demo.demo_fs)))
    by (vm_compute; right; left; reflexivity).
  assert (H' : false = true \/ Go.isASCII "notes-2024.txt" = true)
    by (right; reflexivity).
  split; [exact H|]. split; [exact H'|].
  exact (SearchFiles_fold_widens Both.display_go Demo.cyrillic_lower "notes"
           Demo.demo_root true false Demo.demo_fs _ H H').
Defined.

(** In a substring search, a name that is not ASCII can be lost when the
    case is folded: the byte 0xA9 occurs in the name "é", but as a pattern of
    its own it is an ill-formed sequence that [strings.ToLower] replaces by
    U+FFFD. *)
Example SearchFiles_fold_ill_formed_pattern :
  let fs := Go.mkFS true (Go.Dir "d" Demo.noon true [Go.File "é" 1 Demo.noon]) in
  Search.results (DisplayGo.SearchFiles Demo.cyrillic_lower (Go.of_bytes [169]) "/d"
                    (Search.mkOptions true false true) fs)
  = [Search.mkResult "/d/é" "é" 1 "2024-03-20 12:00:00"]
  /\ Search.results (DisplayGo.SearchFiles Demo.cyrillic_lower (Go.of_bytes [169]) "/d"
                       (Search.mkOptions true false false) fs)
     = [].
Proof. vm_compute. split; reflexivity. Qed.

(** X14. An exact, case-sensitive search for a pattern that starts with a
    dot returns no record, in both revisions: the only name that is equal
    to the pattern is the name of a hidden file, which is never reported. *)
Theorem SearchFiles_exact_dot_pattern :
  forall (s : Both.snapshot) (lower_table : Go.rune -> Go.rune) (pattern root : string)
         (recursive : bool) (fs : Go.FS),
    Go.HasPrefix pattern "." = true ->
    Search.results (Both.SearchFiles s lower_table pattern root
                      (Search.mkOptions recursive true true) fs) = [].
Proof.
  intros s lower_table pattern root recursive fs Hdot.
  rewrite CollectFacts.Both_results_if.
  destruct (match s with
            | Both.display_go => negb (String.eqb pattern "") && Go.stat_ok fs
            | Both.unnamed_parts => true
            end); [|reflexivity].
  apply CollectFacts.collect_none. intros name.
  unfold Spec.emits, Spec.name_matches, Spec.fold_case.
  cbn [Search.ExactMatch Search.CaseSensitive].
  destruct (String.eqb_spec name pattern) as [->|_]; [|apply andb_false_r].
  rewrite Hdot. reflexivity.
Qed.

Lemma SearchFiles_exact_dot_pattern_witness :
  Go.HasPrefix ".gitignore" "." = true
  /\ Search.results (Both.SearchFiles Both.display_go Demo.cyrillic_lower ".gitignore"
                       Demo.demo_root (Search.mkOptions true true true) Demo.demo_fs) = [].
Proof.
  split; [reflexivity|].
  exact (SearchFiles_exact_dot_pattern Both.display_go Demo.cyrillic_lower ".gitignore"
           Demo.demo_root true Demo.demo_fs eq_refl).
Defined.

(** X15. In a record returned for a root that is a directory, [Name] is the
    last element of [Path] ([filepath.Base]), and it is the name of a
    directory entry; in both revisions. *)
Theorem SearchFiles_name_is_base :
  forall (s : Both.snapshot) (lower_table : Go.rune -> Go.rune) (pattern root : string)
         (opts : Search.SearchOptions) (fs : Go.FS) (r : Search.SearchResult),
    Go.node_is_dir (Go.tree fs) = true ->
    Spec.valid_entries (Go.tree fs) = true ->
    In r (Search.results (Both.SearchFiles s lower_table pattern root opts fs)) ->
    Go.Base (Search.Path r) = Search.Name r /\ Go.valid_name (Search.Name r) = true.
Proof.
  intros s lower_table pattern root opts fs r Hdir Hv Hin.
  apply WalkFacts.Both_results_collect in Hin.
  apply WalkFacts.collect_located in Hin
    as (dirs & q & name & size & mt & Hloc & _ & _ & ->).
  cbn [Spec.record_of Search.Path Search.Name].
  destruct (CollectFacts.located_last _ _ _ _ _ Hloc Hv) as [(_ & _ & E)|(q' & -> & Hname)].
  - rewrite <- E in Hdir. discriminate.
  - cbn [Go.node_name] in *. split; [apply BaseFacts.Base_Join, Hname|exact Hname].
Qed.

Lemma SearchFiles_name_is_base_witness :
  Go.node_is_dir (Go.tree Demo.demo_fs) = true
  /\ Spec.valid_entries (Go.tree Demo.demo_fs) = true
  /\ In (Search.mkResult "/tmp/searchbot_test/notes-2024.txt" "notes-2024.txt" 5
                         "2024-03-20 12:00:00")
        (Search.results (Both.SearchFiles Both.display_go Demo.cyrillic_lower "notes"
                           Demo.demo_root Demo.defaults Demo.demo_fs))
  /\ Go.Base "/tmp/searchbot_test/notes-2024.txt" = "notes-2024.txt"
  /\ Go.valid_name "notes-2024.txt" = true.
Proof.
  assert (H : In (Search.mkResult "/tmp/searchbot_test/notes-2024.txt" "notes-2024.txt" 5
                                  "2024-03-20 12:00:00")
                 (Search.results (Both.SearchFiles Both.display_go Demo.cyrillic_lower
                                    "notes" Demo.demo_root Demo.defaults Demo.demo_fs)))
    by (vm_compute; right; left; reflexivity).
  split; [reflexivity|]. split; [reflexivity|]. split; [exact H|].
  exact (SearchFiles_name_is_base Both.display_go Demo.cyrillic_lower "notes"
           Demo.demo_root Demo.defaults Demo.demo_fs _ eq_refl eq_refl H).
Defined.

(** X16. No file is reported twice: when no directory of the tree lists a
    name twice, the paths of the records that [SearchFiles] returns are
    pairwise different, in both revisions. *)
Theorem SearchFiles_distinct_paths :
  forall (s : Both.snapshot) (lower_table : Go.rune -> Go.rune) (pattern root : string)
         (opts : Search.SearchOptions) (fs : Go.FS),
    Spec.valid_entries (Go.tree fs) = true ->
    Shape.distinct_names (Go.tree fs) = true ->
    NoDup (map Search.Path
               (Search.results (Both.SearchFiles s lower_table pattern root opts fs))).
Proof.
  intros s lower_table pattern root opts fs Hv Hd.
  rewrite CollectFacts.Both_results_if.
  destruct (match s with
            | Both.display_go => negb (String.eqb pattern "") && Go.stat_ok fs
            | Both.unnamed_parts => true
            end); [|constructor].
  apply CollectFacts.collect_NoDup; assumption.
Qed.

Lemma SearchFiles_distinct_paths_witness :
  Spec.valid_entries (Go.tree Demo.demo_fs) = true
  /\ Shape.distinct_names (Go.tree Demo.demo_fs) = true
  /\ NoDup (map Search.Path
                (Search.results (Both.SearchFiles Both.display_go Demo.cyrillic_lower "2024"
                                   Demo.demo_root Demo.defaults Demo.demo_fs))).
Proof.
  split; [reflexivity|]. split; [reflexivity|].
  exact (SearchFiles_distinct_paths Both.display_go Demo.cyrillic_lower "2024"
           Demo.demo_root Demo.defaults Demo.demo_fs eq_refl eq_refl).
Defined.

(** X17. [SearchFiles] of [src/unnamed/part_001] does not refuse the empty
    pattern: in a substring search it returns the record of every file that
    the walk visits and that is not hidden, and nothing else. *)
Theorem Part001_empty_pattern :
  forall (lower_table : Go.rune -> Go.rune) (root : string)
         (opts : Search.SearchOptions) (fs : Go.FS) (r : Search.SearchResult),
    Search.ExactMatch opts = false ->
    (In r (Search.results (Part001.SearchFiles lower_table "" root opts fs))
     <-> exists q name size mtime,
           Spec.visited root opts (Go.tree fs) q name size mtime
           /\ Go.HasPrefix name "." = false
           /\ r = Spec.record_of q name size mtime).
Proof.
  intros lower_table root opts fs r Hex.
  rewrite WalkFacts.Part001_SearchFiles_outcome. cbn [Search.results].
  rewrite WalkFacts.collect_located.
  assert (Hemit : forall name,
             Spec.emits lower_table "" opts name = negb (Go.HasPrefix name ".")).
  { intros name. unfold Spec.emits, Spec.name_matches, Spec.fold_case. rewrite Hex.
    replace (if Search.CaseSensitive opts then "" else Go.ToLower lower_table "")
      with "" by (destruct (Search.CaseSensitive opts); reflexivity).
    rewrite CollectFacts.Contains_empty. apply andb_true_r. }
  split.
  - intros (dirs & q & name & size & mt & Hloc & Hent & He & ->).
    exists q, name, size, mt. split; [exists dirs; split; assumption|].
    rewrite Hemit in He. apply negb_true_iff in He. split; [exact He|reflexivity].
  - intros (q & name & size & mt & (dirs & Hloc & Hent) & Hvis & ->).
    exists dirs, q, name, size, mt. repeat split; try assumption.
    rewrite Hemit, Hvis. reflexivity.
Qed.

Lemma Part001_empty_pattern_witness :
  Search.ExactMatch Demo.defaults = false
  /\ (In (Search.mkResult "/tmp/searchbot_test/notes-2024.txt" "notes-2024.txt" 5
                          "2024-03-20 12:00:00")
         (Search.results (Part001.SearchFiles Demo.cyrillic_lower "" Demo.demo_root
                            Demo.defaults Demo.demo_fs))
      <-> exists q name size mtime,
            Spec.visited Demo.demo_root Demo.defaults (Go.tree Demo.demo_fs) q name size mtime
            /\ Go.HasPrefix name "." = false
            /\ Search.mkResult "/tmp/searchbot_test/notes-2024.txt" "notes-2024.txt" 5
                               "2024-03-20 12:00:00"
               = Spec.record_of q name size mtime).
Proof.
  split; [reflexivity|].
  exact (Part001_empty_pattern Demo.cyrillic_lower Demo.demo_root Demo.defaults
           Demo.demo_fs _ eq_refl).
Defined.

(** What lines 28-70 of [main] do with the flags and the arguments that
    [flag.Parse] leaves. *)
Lemma search_and_print_status :
  forall (sorter : Go.Sorter) (search display : Both.snapshot)
         (lower_table : Go.rune -> Go.rune) (flags : Cmd.Flags) (args : list string)
         (w : Cmd.World),
    (forall p, Shape.int64_sizes (Cmd.at_path w p) = true) ->
    exists run,
      Cmd.search_and_print search display lower_table flags args w = Some run
      /\ ((Cmd.exit run = 0 /\ Cmd.stderr run = [])
          \/ (Cmd.exit run = 1 /\ Cmd.stderr run <> []
              /\ (List.length (Cmd.stdout run) <= 1)%nat))
      /\ (Cmd.exit run = 0
          <-> args <> []
              /\ exists root,
                   Cmd.Abs w (Cmd.root_argument args) = inl root
                   /\ match search with
                      | Both.display_go =>
                          Cmd.Stat w root = Cmd.StatOk /\ nth 0 args "" <> ""
                      | Both.unnamed_parts => Cmd.Stat w root <> Cmd.StatNotExist
                      end).
Proof.
  intros sorter search display lower_table flags args w Hsizes.
  unfold Cmd.search_and_print.
  destruct args as [|pattern rest].
  - eexists. split; [reflexivity|]. split.
    + right. cbn. split; [reflexivity|]. split; [discriminate|lia].
    + cbn. split; [discriminate|]. intros [H _]. contradiction.
  - assert (Hn : (Z.of_nat (List.length (pattern :: rest)) <? 1) = false)
      by (apply Z.ltb_ge; cbn [List.length]; lia).
    rewrite Hn. cbn [nth]. cbv zeta.
    destruct (Cmd.Abs w (Cmd.root_argument (pattern :: rest))) as [root|e] eqn:Habs.
    2:{ eexists. split; [reflexivity|]. split.
        - right. cbn. split; [reflexivity|]. split; [discriminate|lia].
        - cbn. split; [discriminate|]. intros (_ & root & Hroot & _). discriminate. }
    destruct (Cmd.Stat w root) eqn:Hstat; cbn [Cmd.IsNotExist Cmd.stat_succeeds].
    + (* os.Stat succeeds *)
      rewrite CmdFacts.Both_SearchFiles_err. cbn [Go.stat_ok].
      assert (Hok : exists final printed,
                 Both.PrintResults display
                   (Search.results
                      (Both.SearchFiles search lower_table pattern root
                         (Search.mkOptions (negb (Cmd.recursive flags)) (Cmd.exactMatch flags)
                            (negb (Cmd.caseSensitive flags)))
                         (Go.mkFS true (Cmd.at_path w root))))
                 = Some (final, printed)).
      { apply CmdFacts.Both_PrintResults_total.
        rewrite CollectFacts.Both_results_if.
        destruct (match search with
                  | Both.display_go => _
                  | Both.unnamed_parts => true
                  end); [|constructor].
        apply CollectFacts.collect_sizes, Hsizes. }
      destruct Hok as (final & printed & Hprint).
      destruct search.
      * destruct (String.eqb_spec pattern "") as [->|Hne].
        -- eexists. split; [reflexivity|]. split.
           ++ right. cbn. split; [reflexivity|]. split; [discriminate|lia].
           ++ cbn. split; [discriminate|].
              intros (_ & root' & Hroot & _ & Hp). contradiction.
        -- rewrite Hprint. eexists. split; [reflexivity|]. split.
           ++ left. split; reflexivity.
           ++ cbn [Cmd.exit]. split; [|reflexivity]. intros _.
              split; [discriminate|]. exists root. repeat split; assumption.
      * rewrite Hprint. eexists. split; [reflexivity|]. split.
        -- left. split; reflexivity.
        -- cbn [Cmd.exit]. split; [|reflexivity]. intros _.
           split; [discriminate|]. exists root. split; [reflexivity|]. congruence.
    + (* the directory does not exist *)
      eexists. split; [reflexivity|]. split.
      * right. cbn. split; [reflexivity|]. split; [discriminate|lia].
      * cbn [Cmd.exit]. split; [discriminate|].
        intros (_ & root' & Hroot & H). injection Hroot as <-.
        destruct search; [destruct H; congruence|congruence].
    + (* os.Stat fails for another reason *)
      rewrite CmdFacts.Both_SearchFiles_err. cbn [Go.stat_ok].
      destruct search.
      * destruct (String.eqb pattern "");
          (eexists; split; [reflexivity|]; split;
           [right; cbn; split; [reflexivity|]; split; [discriminate|lia]|]);
          (cbn [Cmd.exit]; split; [discriminate|];
           intros (_ & root' & Hroot & H & _); injection Hroot as <-; congruence).
      * assert (Hok : exists final printed,
                   Both.PrintResults display
                     (Search.results
                        (Both.SearchFiles Both.unnamed_parts lower_table pattern root
                           (Search.mkOptions (negb (Cmd.recursive flags))
                              (Cmd.exactMatch flags) (negb (Cmd.caseSensitive flags)))
                           (Go.mkFS false (Cmd.at_path w root))))
                   = Some (final, printed)).
        { apply CmdFacts.Both_PrintResults_total.
          rewrite CollectFacts.Both_results_if.
          apply CollectFacts.collect_sizes, Hsizes. }
        destruct Hok as (final & printed & Hprint). rewrite Hprint.
        eexists. split; [reflexivity|]. split.
        -- left. split; reflexivity.
        -- cbn [Cmd.exit]. split; [|reflexivity]. intros _.
           split; [discriminate|]. exists root. split; [reflexivity|]. congruence.
Qed.

(** X18. The exit status of the command, from the arguments of the command
    line on.  On files whose sizes are sizes of [int64], [main] never panics
    and ends with status 0, 1 or 2.  When [flag.Parse] fails (an undefined
    flag, a bad syntax, a bad boolean value) the status is 2, and the message
    and the usage are on the standard error; after [-h] or [-help] the status
    is 0, with the usage on the standard error.  Otherwise the status is 0 or
    1, [main] writes to the standard error exactly when it is 1, and then the
    standard output holds the status line at most.  Built with [SearchFiles]
    of [display.go], it returns (status 0) exactly when there is a pattern,
    the pattern is not empty, the directory is resolved and [os.Stat]
    succeeds on it; built with [SearchFiles] of part_001, exactly when there
    is a pattern, the directory is resolved and [os.Stat] does not report
    that it is missing. *)
Theorem main_exit_status :
  forall (sorter : Go.Sorter) (search display : Both.snapshot)
         (lower_table : Go.rune -> Go.rune) (argv : list string) (w : Cmd.World),
    (forall p, Shape.int64_sizes (Cmd.at_path w p) = true) ->
    exists run,
      Cmd.main search display lower_table argv w = Some run
      /\ (Cmd.exit run = 0 \/ Cmd.exit run = 1 \/ Cmd.exit run = 2)
      /\ match Cmd.Parse Cmd.defaults argv with
         | Cmd.Fails message =>
             Cmd.exit run = 2 /\ Cmd.stdout run = []
             /\ Cmd.stderr run = (message ++ Cmd.Usage)%list
         | Cmd.ErrHelp =>
             Cmd.exit run = 0 /\ Cmd.stdout run = [] /\ Cmd.stderr run = Cmd.Usage
         | Cmd.Parsed flags args =>
             ((Cmd.exit run = 0 /\ Cmd.stderr run = [])
              \/ (Cmd.exit run = 1 /\ Cmd.stderr run <> []
                  /\ (List.length (Cmd.stdout run) <= 1)%nat))
             /\ (Cmd.exit run = 0
                 <-> args <> []
                     /\ exists root,
                          Cmd.Abs w (Cmd.root_argument args) = inl root
                          /\ match search with
                             | Both.display_go =>
                                 Cmd.Stat w root = Cmd.StatOk /\ nth 0 args "" <> ""
                             | Both.unnamed_parts =>
                                 Cmd.Stat w root <> Cmd.StatNotExist
                             end)
         end.
Proof.
  intros sorter search display lower_table argv w Hsizes.
  unfold Cmd.main.
  destruct (Cmd.Parse Cmd.defaults argv) as [flags args| |message].
  - destruct (search_and_print_status sorter search display lower_table flags args w Hsizes)
      as (run & Hrun & Hstatus & Hzero).
    exists run. split; [exact Hrun|]. split; [|split; assumption].
    destruct Hstatus as [[H _]|[H _]]; auto.
  - eexists. split; [reflexivity|]. cbn [Cmd.exit Cmd.stdout Cmd.stderr].
    split; [left; reflexivity|]. repeat split.
  - eexists. split; [reflexivity|]. cbn [Cmd.exit Cmd.stdout Cmd.stderr].
    split; [right; right; reflexivity|]. repeat split.
Qed.

Lemma main_exit_status_witness :
  let w := Cmd.mkWorld (inl "/home/user") (fun _ => Cmd.StatOk) (fun _ => Demo.demo_tree) in
  (forall p, Shape.int64_sizes (Cmd.at_path w p) = true)
  /\ exists run,
       Cmd.main (sorter := SortFacts.InsertionSorter) Both.display_go Both.unnamed_parts
                Demo.cyrillic_lower ["-i"; "REPORT"; "/tmp/searchbot_test"] w = Some run
       /\ Cmd.exit run = 0.
Proof.
  intros w.
  assert (H : forall p, Shape.int64_sizes (Cmd.at_path w p) = true)
    by (intros p; reflexivity).
  split; [exact H|].
  destruct (main_exit_status SortFacts.InsertionSorter Both.display_go Both.unnamed_parts
              Demo.cyrillic_lower ["-i"; "REPORT"; "/tmp/searchbot_test"] w H)
    as (run & Hrun & _ & Hparse).
  exists run. split; [exact Hrun|].
  change (Cmd.Parse Cmd.defaults ["-i"; "REPORT"; "/tmp/searchbot_test"])
    with (Cmd.Parsed (Cmd.mkFlags false false true) ["REPORT"; "/tmp/searchbot_test"])
    in Hparse.
  apply (proj2 Hparse). split; [discriminate|].
  exists "/tmp/searchbot_test". split; [reflexivity|]. split; [reflexivity|discriminate].
Defined.

(** Runs of the command built from the revisions that pass the tests, on the
    tree of the examples: the directory is cleaned before it is shown and
    searched; [-nr] leaves the file of the root; an undefined flag ends the
    command with status 2, [-h] with status 0. *)
Example main_end_to_end :
  let w := Cmd.mkWorld (inl "/home/user")
             (fun p => if String.eqb p "/tmp/searchbot_test"
                       then Cmd.StatOk else Cmd.StatNotExist)
             (fun _ => Demo.demo_tree) in
  let run := Cmd.main (sorter := SortFacts.InsertionSorter) Both.display_go
               Both.unnamed_parts Demo.cyrillic_lower in
  let shape := option_map (fun r => (hd_error (Cmd.stdout r), List.length (Cmd.stdout r),
                                     Cmd.stderr r, Cmd.exit r)) in
  shape (run ["2024"; "/tmp/../tmp/searchbot_test/"] w)
  = Some (Some (Display.Plain ("Searching for '2024' in /tmp/searchbot_test..." ++ Go.nl)),
          8%nat, [], 0)
  /\ shape (run ["-nr"; "--e=false"; "2024"; "/tmp/searchbot_test"] w)
     = Some (Some (Display.Plain ("Searching for '2024' in /tmp/searchbot_test..." ++ Go.nl)),
             7%nat, [], 0)
  /\ run ["2024"] w
     = Some (Cmd.mkRun [] [Cmd.Text ("Directory does not exist: /home/user" ++ Go.nl)] 1)
  /\ run [""; "/tmp/searchbot_test"] w
     = Some (Cmd.mkRun
               [Display.Plain ("Searching for '' in /tmp/searchbot_test..." ++ Go.nl)]
               [Cmd.Text "Error searching files: "; Cmd.Value DisplayGo.ErrEmptyPattern;
                Cmd.Text Go.nl] 1)
  /\ run [] w = Some (Cmd.mkRun [] Cmd.Usage 1)
  /\ run ["2024"; "-nr"] w
     = Some (Cmd.mkRun [] [Cmd.Text ("Directory does not exist: /home/user/-nr" ++ Go.nl)] 1)
  /\ run ["-r"; "2024"] w
     = Some (Cmd.mkRun []
               (Cmd.Text ("flag provided but not defined: -r" ++ Go.nl) :: Cmd.Usage) 2)
  /\ run ["-i=maybe"; "2024"] w
     = Some (Cmd.mkRun []
               (Cmd.Text "invalid boolean value " :: Cmd.Quoted "maybe"
                :: Cmd.Text (" for -i: parse error" ++ Go.nl) :: Cmd.Usage) 2)
  /\ run ["-h"] w = Some (Cmd.mkRun [] Cmd.Usage 0).
Proof. vm_compute. repeat split. Qed.

(** ** [time.Format] *)

Module TimeFacts.
Import Go Search Utf8Facts AsciiFacts.

Lemma fills_4 (z : Z) : 0 <= z <= 9999 -> Bytes.fills 4 z = true.
Proof.
  intros Hz.
  assert (H : Spec.range_all 14 0 (fun y => (9999 <? y) || Bytes.fills 4 y) = true)
    by (vm_compute; reflexivity).
  pose proof (range_all_spec 14 0 _ H z) as Hall. cbv beta in Hall.
  rewrite (proj2 (Z.ltb_ge 9999 z)) in Hall by lia.
  apply Hall. change (2 ^ Z.of_nat 14) with 16384. lia.
Qed.

Lemma fills_2 (z : Z) : 0 <= z <= 59 -> Bytes.fills 2 z = true.
Proof.
  intros Hz.
  assert (H : Spec.range_all 6 0 (fun y => (59 <? y) || Bytes.fills 2 y) = true)
    by (vm_compute; reflexivity).
  pose proof (range_all_spec 6 0 _ H z) as Hall. cbv beta in Hall.
  rewrite (proj2 (Z.ltb_ge 59 z)) in Hall by lia.
  apply Hall. change (2 ^ Z.of_nat 6) with 64. lia.
Qed.

Lemma fills_len (width : nat) (z : Z) :
  Bytes.fills width z = true ->
  len (zero_pad width z) = Z.of_nat width /\ isASCII (zero_pad width z) = true.
Proof.
  unfold Bytes.fills. intros H. apply andb_prop in H as [Hl Ha].
  apply Nat.eqb_eq in Hl. unfold len. rewrite Hl. split; [reflexivity|exact Ha].
Qed.

Lemma append_nil_r (s : string) : s ++ "" = s.
Proof. induction s as [|c s IH]; [reflexivity|]. cbn [String.append]. rewrite IH. reflexivity. Qed.

(** [Format] prints a time of the calendar on 19 ASCII bytes. *)
Lemma Format_len (t : Time) :
  Shape.calendar t = true -> len (Format t) = 19 /\ isASCII (Format t) = true.
Proof.
  unfold Shape.calendar, in_range. intros H.
  repeat (apply andb_prop in H as [H ?]).
  repeat match goal with
         | H : (_ <=? _) = true |- _ => apply Z.leb_le in H
         end.
  destruct (fills_len 4 (year t)) as [L1 A1]; [apply fills_4; lia|].
  destruct (fills_len 2 (month t)) as [L2 A2]; [apply fills_2; lia|].
  destruct (fills_len 2 (day t)) as [L3 A3]; [apply fills_2; lia|].
  destruct (fills_len 2 (hour t)) as [L4 A4]; [apply fills_2; lia|].
  destruct (fills_len 2 (minute t)) as [L5 A5]; [apply fills_2; lia|].
  destruct (fills_len 2 (second t)) as [L6 A6]; [apply fills_2; lia|].
  unfold Format. split.
  - rewrite !len_app, L1, L2, L3, L4, L5, L6.
    change (len "-") with 1. change (len " ") with 1. change (len ":") with 1.
    reflexivity.
  - rewrite !FoldFacts.isASCII_app, A1, A2, A3, A4, A5, A6. reflexivity.
Qed.

End TimeFacts.

(** X19. The column MODIFIED of [PrintResults] is narrower than its
    content, in both revisions: [SearchFiles] formats the time of a file of
    the calendar on 19 characters, so that [%-15s] adds no padding to it in
    the row of the record, while the title MODIFIED is padded to 15. *)
Theorem PrintResults_modified_column :
  forall (s : Both.snapshot) (q name : string) (size : Z) (mtime : Go.Time),
    Shape.calendar mtime = true ->
    Go.int64_range size ->
    let r := Spec.record_of q name size mtime in
    Go.RuneCountInString (Search.ModTime r) = 19
    /\ Go.RuneCountInString (Go.fmt_pad 15 "MODIFIED") = 15
    /\ exists shown rendered,
         Display.print_row (Both.FormatSize s) (Both.truncateString s) r
         = Some (Display.Plain
                   (Go.fmt_pad 50 shown ++ " " ++ Go.fmt_pad 20 rendered ++ " "
                    ++ Search.ModTime r ++ " " ++ q ++ Go.nl)).
Proof.
  intros s q name size mtime Hcal Hsize r.
  destruct (TimeFacts.Format_len mtime Hcal) as [Hlen Hascii].
  assert (Hcount : Go.RuneCountInString (Search.ModTime r) = 19).
  { cbn [r Spec.record_of Search.ModTime].
    rewrite AsciiFacts.RuneCount_ascii; assumption. }
  split; [exact Hcount|]. split; [reflexivity|].
  destruct (PrintFacts.Both_truncateString_total s name) as [shown Hshown].
  destruct (PrintFacts.Both_FormatSize_total s size Hsize) as [rendered Hrendered].
  exists shown, rendered.
  unfold Display.print_row. cbn [r Spec.record_of Search.Name Search.Size Search.Path].
  rewrite Hshown, Hrendered.
  unfold Go.fmt_pad at 3. fold r. rewrite Hcount.
  change (Z.to_nat (15 - 19)) with 0%nat. cbn [Go.repeat_nat].
  rewrite TimeFacts.append_nil_r. reflexivity.
Qed.

Lemma PrintResults_modified_column_witness :
  Shape.calendar Demo.noon = true
  /\ Go.int64_range 5
  /\ Go.RuneCountInString
       (Search.ModTime (Spec.record_of "/tmp/searchbot_test/notes-2024.txt" "notes-2024.txt"
                                       5 Demo.noon)) = 19.
Proof.
  assert (H : Go.int64_range 5) by (vm_compute; split; discriminate).
  split; [reflexivity|]. split; [exact H|].
  exact (proj1 (PrintResults_modified_column Both.unnamed_parts
                  "/tmp/searchbot_test/notes-2024.txt" "notes-2024.txt" 5 Demo.noon
                  eq_refl H)).
Defined.

(** ** The checks of [TestSearchFiles] *)

Module TestFacts.
Import Go Search.

(** [filepath.Base] returns a slash only as the whole of its result. *)
Lemma Base_no_slash (path : string) : Base path = "/" \/ no_slash (Base path) = true.
Proof.
  unfold Base. destruct (is_empty path); [right; reflexivity|].
  pose proof (PathFacts.split_slash_elems path) as Hall.
  assert (Hf : Forall (fun e => no_slash e = true)
                      (filter (fun e => negb (is_empty e)) (split_slash path))).
  { apply Forall_forall. intros e He. apply filter_In in He as [He _].
    exact (proj1 (Forall_forall _ _) Hall e He). }
  destruct (filter _ (split_slash path)) as [|e r]; [left; reflexivity|].
  right. apply (proj1 (Forall_forall _ _) Hf).
  destruct r as [|e' r]; [left; reflexivity|].
  right.
  destruct (@exists_last _ (e' :: r)) as (front & x & E); [discriminate|].
  rewrite E, last_last. apply in_or_app. right. left. reflexivity.
Qed.

Lemma foundFiles_slash (results : list SearchResult) (key : string) :
  no_slash key = false -> key <> "/" -> SearchTest.foundFiles results key = false.
Proof.
  intros Hkey Hne. unfold SearchTest.foundFiles.
  induction results as [|r results IH]; [reflexivity|].
  cbn [existsb]. rewrite IH, orb_false_r.
  destruct (String.eqb_spec (Base (Path r)) key) as [E|_]; [|reflexivity].
  destruct (Base_no_slash (Path r)) as [H|H]; congruence.
Qed.

End TestFacts.

(** The tests of [TestSearchFiles] pass on [SearchFiles] of [display.go], and
    on the one of part_001. *)
Example TestSearchFiles_passes :
  let tempDir := "/tmp/searchbot_test2718281828" in
  forallb (fun s =>
     forallb (fun tt =>
        match SearchTest.run_case
                (fun pattern opts =>
                   Both.SearchFiles s Demo.cyrillic_lower pattern tempDir opts
                     (Go.mkFS true (SearchTest.createTestFiles tempDir))) tt with
        | [] => true
        | _ => false
        end) SearchTest.tests) [Both.display_go; Both.unnamed_parts]
  = true.
Proof. vm_compute. reflexivity. Qed.

(** X20. The checks of [TestSearchFiles] for the skipped directories cannot
    fail: the found files are keyed by [filepath.Base] of the path, which
    holds no slash, so that an entry of [shouldNotContain] with a slash in it
    (".git/config", "node_modules/lib.js") is reported for no list of
    results, whatever [SearchFiles] returns. *)
Theorem TestSearchFiles_slash_checks :
  forall (tt : SearchTest.test_case) (results : list Search.SearchResult),
    SearchTest.shouldContain tt = [] ->
    Forall (fun notExpected => Go.no_slash notExpected = false /\ notExpected <> "/")
           (SearchTest.shouldNotContain tt) ->
    SearchTest.checks tt results = [].
Proof.
  intros tt results Hc Hn. unfold SearchTest.checks. rewrite Hc. cbn [filter map app].
  induction Hn as [|key keys [Hkey Hne] _ IH]; [reflexivity|].
  cbn [filter]. rewrite (TestFacts.foundFiles_slash results key Hkey Hne). exact IH.
Qed.

Lemma TestSearchFiles_slash_checks_witness :
  let tt := SearchTest.mkCase "config" (Search.mkOptions true false false) []
              [".git/config"] in
  let results := [Search.mkResult "/tmp/searchbot_test/.git/config" "config" 10
                                  "2024-03-20 12:00:00"] in
  SearchTest.shouldContain tt = []
  /\ Forall (fun notExpected => Go.no_slash notExpected = false /\ notExpected <> "/")
            (SearchTest.shouldNotContain tt)
  /\ SearchTest.checks tt results = [].
Proof.
  intros tt results.
  assert (H : Forall (fun notExpected => Go.no_slash notExpected = false
                                         /\ notExpected <> "/")
                     (SearchTest.shouldNotContain tt))
    by (constructor; [split; [reflexivity|discriminate]|constructor]).
  split; [reflexivity|]. split; [exact H|].
  exact (TestSearchFiles_slash_checks tt results eq_refl H).
Defined.

(** ** Sorted slices *)

Module OrderFacts.
Import Go Search Display.

Lemma ltb_false_eq (a b : string) :
  String.ltb a b = false -> String.ltb b a = false -> a = b.
Proof.
  unfold String.ltb. rewrite (String.compare_antisym b a).
  destruct (String.compare a b) eqn:E; cbn [CompOpp]; try discriminate.
  intros _ _. apply String.compare_eq_iff, E.
Qed.

(** Records of pairwise different names have one ascending order only. *)
Lemma sorted_unique (a : list SearchResult) :
  forall b,
    StronglySorted (fun x y => less_Name y x = false) a ->
    StronglySorted (fun x y => less_Name y x = false) b ->
    Permutation a b -> NoDup (map Name a) -> a = b.
Proof.
  induction a as [|x a IH]; intros b Ha Hb Hperm Hnd.
  - apply Permutation_nil in Hperm. congruence.
  - destruct b as [|y b]; [apply Permutation_sym, Permutation_nil in Hperm; discriminate|].
    apply StronglySorted_inv in Ha as [Ha Hx]. apply StronglySorted_inv in Hb as [Hb Hy].
    cbn [map] in Hnd. apply NoDup_cons_iff in Hnd as [Hfresh Hnd].
    assert (E : x = y).
    { assert (Hy_in : In y (x :: a))
        by (apply (Permutation_in _ (Permutation_sym Hperm)); left; reflexivity).
      destruct Hy_in as [E|Hy_in]; [exact E|]. exfalso.
      assert (Hx_in : In x (y :: b))
        by (apply (Permutation_in _ Hperm); left; reflexivity).
      destruct Hx_in as [E|Hx_in].
      - subst y. apply Hfresh, in_map, Hy_in.
      - pose proof (proj1 (Forall_forall _ _) Hx y Hy_in) as H1.
        pose proof (proj1 (Forall_forall _ _) Hy x Hx_in) as H2.
        unfold less_Name in H1, H2.
        apply Hfresh. rewrite (ltb_false_eq _ _ H2 H1). apply in_map, Hy_in. }
    subst y. f_equal. apply IH; try assumption.
    exact (Permutation_cons_inv Hperm).
Qed.

End OrderFacts.

(** X21. What [PrintResults] prints, and the order in which it leaves the
    slice, do not depend on the order of the records it is given, nor on the
    algorithm of [sort.Slice], when no two records have the same name; in
    both revisions. *)
Theorem PrintResults_order_independent :
  forall (sorter1 sorter2 : Go.Sorter) (s : Both.snapshot)
         (results1 results2 : list Search.SearchResult),
    Permutation results1 results2 ->
    NoDup (map Search.Name results1) ->
    Both.PrintResults (sorter := sorter1) s results1
    = Both.PrintResults (sorter := sorter2) s results2.
Proof.
  intros sorter1 sorter2 s results1 results2 Hperm Hnd.
  rewrite !PrintFacts.Both_PrintResults_body. unfold Display.PrintResults.
  rewrite <- (Permutation_length Hperm).
  destruct (Z.of_nat (List.length results1) =? 0) eqn:Hlen.
  - apply Z.eqb_eq in Hlen. destruct results1; [|cbn [List.length] in Hlen; lia].
    apply Permutation_nil in Hperm. subst. reflexivity.
  - pose proof (@Go.sort_Slice_perm sorter1 _ Display.less_Name results1) as P1.
    pose proof (@Go.sort_Slice_perm sorter2 _ Display.less_Name results2) as P2.
    pose proof (@Go.sort_Slice_sorted sorter1 _ Display.less_Name results1
                  SortFacts.less_Name_order) as S1.
    pose proof (@Go.sort_Slice_sorted sorter2 _ Display.less_Name results2
                  SortFacts.less_Name_order) as S2.
    assert (E : @Go.sort_Slice sorter1 _ Display.less_Name results1
                = @Go.sort_Slice sorter2 _ Display.less_Name results2).
    { apply OrderFacts.sorted_unique; try assumption.
      - eapply Permutation_trans; [apply Permutation_sym, P1|].
        eapply Permutation_trans; [exact Hperm|exact P2].
      - apply (Permutation_NoDup (l := map Search.Name results1)); [|exact Hnd].
        apply Permutation_map, P1. }
    rewrite E. reflexivity.
Qed.

Lemma PrintResults_order_independent_witness :
  Permutation [file2; file1] [file1; file2]
  /\ NoDup (map Search.Name [file2; file1])
  /\ Both.PrintResults (sorter := SortFacts.InsertionSorter) Both.unnamed_parts [file2; file1]
     = Both.PrintResults (sorter := SortFacts.InsertionSorter) Both.unnamed_parts
         [file1; file2].
Proof.
  assert (H1 : Permutation [file2; file1] [file1; file2]) by apply perm_swap.
  assert (H2 : NoDup (map Search.Name [file2; file1])).
  { repeat constructor; cbn; intuition discriminate. }
  split; [exact H1|]. split; [exact H2|].
  exact (PrintResults_order_independent SortFacts.InsertionSorter SortFacts.InsertionSorter
           Both.unnamed_parts _ _ H1 H2).
Defined.
